(** * rttys HTTP proxy (http.go): a shallow embedding and its properties

    The development follows [src/http.go]:
    - bytes are integers in [0, 256) and byte slices are [list Z]; where
      the capacity of a slice matters ([handleHttpProxyResp]) a slice is
      its underlying array and its length ([GoSlice]);
    - Go strings are [string];
    - the two [sync.Map] registries are finite maps ([gmap]), the inner
      table of a device keyed by the bytes of the source identifier;
    - connections and channels are handles; what is done to them, and to
      the registries, is logged in the [World];
    - the goroutine of [doHttpProxy] is a [Watcher] with the two cases of
      its [select];
    - the functions of the Go standard library that [http.go] calls
      ([net.SplitHostPort], [net.ParseIP], [IP.To4], [strconv.Atoi],
      [binary.BigEndian.PutUint16], [copy]) are modelled after the
      standard library (Go 1.22, where [net.ParseIP] goes through
      [netip.ParseAddr]) in [GoBytes], [GoStrings], [GoStrconv] and
      [GoNet];
    - what comes from outside ([req.Write], [url.QueryUnescape],
      [url.Parse], [utils.GenUniqueID], [time.Now]) is a section variable
      or an argument. *)

From Stdlib Require Import ZArith Ascii String.
From stdpp Require Import gmap strings list.

Local Open Scope Z_scope.

(** ** Results of fallible functions *)

Definition error := string.

Inductive Result (A : Type) : Type :=
| Ok (a : A)
| Err (e : error).
Arguments Ok {A} a.
Arguments Err {A} e.

Definition isErr {A} (r : Result A) : bool :=
  match r with Ok _ => false | Err _ => true end.

(** ** Byte slices *)

Module GoBytes.

Definition uint8 (x : Z) : Z := x mod 256.
Definition uint16 (x : Z) : Z := x mod 65536.
Definition uint32 (x : Z) : Z := x mod 4294967296.

(** [make([]byte, n)] *)
Definition make (n : nat) : list Z := replicate n 0.

(** The builtin [copy(dst, src)]: the first [min (len dst) (len src)]
    elements of [dst] are overwritten. *)
Definition copy (dst src : list Z) : list Z :=
  take (length dst) src ++ drop (length src) dst.

(** [binary.BigEndian.PutUint16(b[off:], v)], an update of [b] in place. *)
Definition PutUint16 (b : list Z) (off : nat) (v : Z) : list Z :=
  <[S off := uint8 v]> (<[off := uint8 (Z.shiftr v 8)]> b).

Definition byte_of_ascii (c : ascii) : Z := Z.of_N (N_of_ascii c).

End GoBytes.
Import GoBytes.

(** ** Strings: indexing and slicing as Go does it *)

Module GoStrings.

(** [bytealg.IndexByteString]; [None] stands for -1. *)
Fixpoint IndexByteString (s : string) (c : ascii) : option nat :=
  match s with
  | EmptyString => None
  | String a s' =>
      if Ascii.eqb a c then Some O
      else match IndexByteString s' c with
           | Some i => Some (S i)
           | None => None
           end
  end.

(** [bytealg.LastIndexByteString] *)
Fixpoint LastIndexByteString (s : string) (c : ascii) : option nat :=
  match s with
  | EmptyString => None
  | String a s' =>
      match LastIndexByteString s' c with
      | Some i => Some (S i)
      | None => if Ascii.eqb a c then Some O else None
      end
  end.

(** [s[:n]] *)
Fixpoint str_take (n : nat) (s : string) : string :=
  match n, s with
  | S n', String a s' => String a (str_take n' s')
  | _, _ => EmptyString
  end.

(** [s[n:]] *)
Fixpoint str_drop (n : nat) (s : string) : string :=
  match n, s with
  | S n', String _ s' => str_drop n' s'
  | _, _ => s
  end.

(** [s[i]] *)
Definition str_at (s : string) (i : nat) : option ascii := String.get i s.

Definition isDigit (c : ascii) : bool :=
  (48 <=? byte_of_ascii c) && (byte_of_ascii c <=? 57).

Definition isEmpty (s : string) : bool :=
  match s with EmptyString => true | _ => false end.

End GoStrings.
Import GoStrings.

(** ** strconv.Atoi *)

Module GoStrconv.

Definition maxInt64 : Z := 9223372036854775807.
Definition maxUint64 : Z := 18446744073709551615.

(** The digit loop of the fast path: [ch -= '0'; if ch > 9 { error };
    n = n*10 + int(ch)], with [ch] a byte, so that a character below
    ['0'] wraps to a value above 9. *)
Fixpoint atoi_loop (s : string) (n : Z) : option Z :=
  match s with
  | EmptyString => Some n
  | String c s' =>
      let ch := uint8 (byte_of_ascii c - 48) in
      if 9 <? ch then None else atoi_loop s' (n * 10 + ch)
  end.

Definition hasSign (s : string) : bool :=
  match s with
  | String c _ => Ascii.eqb c "-" || Ascii.eqb c "+"
  | EmptyString => false
  end.

Definition isNeg (s : string) : bool :=
  match s with
  | String c _ => Ascii.eqb c "-"
  | EmptyString => false
  end.

(** [strconv.ParseInt(s, 10, 0)] on a 64-bit platform: a syntax error
    gives 0, a value out of range gives the nearest bound, both with an
    error. *)
Definition ParseInt10 (s : string) : Z * bool :=
  if isEmpty s then (0, false)
  else
    let body := if hasSign s then str_drop 1 s else s in
    if isEmpty body then (0, false)
    else match atoi_loop body 0 with
         | None => (0, false)
         | Some un =>
             if isNeg s then
               if maxInt64 + 1 <? un then (- (maxInt64 + 1), false)
               else (- un, true)
             else
               if maxInt64 <? un then (maxInt64, false)
               else (un, true)
         end.

(** [strconv.Atoi] with a 64-bit [int]: the value and whether [err] is
    [nil]. *)
Definition Atoi (s : string) : Z * bool :=
  let sLen := String.length s in
  if ((0 <? sLen)%nat && (sLen <? 19)%nat)%bool then
    let body := if hasSign s then str_drop 1 s else s in
    if isEmpty body then (0, false)
    else match atoi_loop body 0 with
         | None => (0, false)
         | Some n => (if isNeg s then - n else n, true)
         end
  else ParseInt10 s.

End GoStrconv.
Import GoStrconv.


(** ** The package net: addresses *)

Module GoNet.

(** [net.IP] is a byte slice: 4 bytes, 16 bytes, or anything else. *)
Definition IP := list Z.

Record TCPAddr := { tcpIP : IP; tcpPort : Z }.

Definition v4InV6Prefix : list Z := [0;0;0;0;0;0;0;0;0;0;255;255].

Definition isZeros (p : list Z) : bool := forallb (Z.eqb 0) p.

(** [func (ip IP) To4() IP]; [None] is the nil slice. *)
Definition To4 (ip : IP) : option IP :=
  if (length ip =? 4)%nat then Some ip
  else if (length ip =? 16)%nat
          && isZeros (take 10 ip)
          && bool_decide (ip !! 10%nat = Some 255)
          && bool_decide (ip !! 11%nat = Some 255)
       then Some (drop 12 (take 16 ip))
       else None.

(** [func (ip IP) To16() IP] *)
Definition To16 (ip : IP) : option IP :=
  if (length ip =? 4)%nat then Some (v4InV6Prefix ++ ip)
  else if (length ip =? 16)%nat then Some ip
  else None.

Definition missingPort : error := "missing port in address".
Definition tooManyColons : error := "too many colons in address".

(** The tail of [net.SplitHostPort], common to both branches: no ['[']
    from position [j], no [']'] from position [k], and the port is what
    follows the last colon, at [i]. *)
Definition SplitHostPort_tail (hostport host : string) (i j k : nat)
  : Result (string * string) :=
  if IndexByteString (str_drop j hostport) "[" is Some _
  then Err "unexpected '[' in address"
  else if IndexByteString (str_drop k hostport) "]" is Some _
  then Err "unexpected ']' in address"
  else Ok (host, str_drop (S i) hostport).

(** [net.SplitHostPort] *)
Definition SplitHostPort (hostport : string) : Result (string * string) :=
  match LastIndexByteString hostport ":" with
  | None => Err missingPort
  | Some i =>
      if bool_decide (str_at hostport 0 = Some "["%char) then
        match IndexByteString hostport "]" with
        | None => Err "missing ']' in address"
        | Some end_ =>
            if (S end_ =? String.length hostport)%nat then Err missingPort
            else if (S end_ =? i)%nat then
              SplitHostPort_tail hostport
                (str_take (end_ - 1) (str_drop 1 hostport)) i 1 (S end_)
            else if bool_decide (str_at hostport (S end_) = Some ":"%char)
            then Err tooManyColons
            else Err missingPort
        end
      else
        let host := str_take i hostport in
        if IndexByteString host ":" is Some _ then Err tooManyColons
        else SplitHostPort_tail hostport host i 0 0
  end.

(** The loop of [netip.parseIPv4Fields] over the characters that remain.
    [first] says that the index is 0, [prevDot] that the previous character
    was a dot; the result is the state the loop ends in. *)
Fixpoint parseIPv4Fields_loop (s : string) (first prevDot : bool)
    (val : Z) (pos : nat) (digLen : Z) (fields : list Z)
  : Result (Z * nat * list Z) :=
  match s with
  | EmptyString => Ok (val, pos, fields)
  | String c s' =>
      if isDigit c then
        if (digLen =? 1) && (val =? 0)
        then Err "IPv4 field has octet with leading zero"
        else
          let val' := val * 10 + byte_of_ascii c - 48 in
          if 255 <? val' then Err "IPv4 field has value >255"
          else parseIPv4Fields_loop s' false false val' pos (digLen + 1) fields
      else if Ascii.eqb c "." then
        if first || isEmpty s' || prevDot
        then Err "IPv4 field must have at least one digit"
        else if (pos =? 3)%nat then Err "IPv4 address too long"
        else parseIPv4Fields_loop s' false true 0 (S pos) 0
               (<[pos := uint8 val]> fields)
      else Err "unexpected character"
  end.

(** [netip.parseIPv4Fields], on the whole of [s], into four fresh fields. *)
Definition parseIPv4Fields (s : string) : Result (list Z) :=
  match parseIPv4Fields_loop s true false 0 0 0 (make 4) with
  | Err e => Err e
  | Ok (val, pos, fields) =>
      if (pos <? 3)%nat then Err "IPv4 address too short"
      else Ok (<[3%nat := uint8 val]> fields)
  end.

(** [netip.parseIPv4] followed by [Addr.As16]: the address in its 16-byte,
    IPv4-mapped form. *)
Definition parseIPv4 (s : string) : Result (list Z) :=
  match parseIPv4Fields s with
  | Err e => Err e
  | Ok fields => Ok (v4InV6Prefix ++ fields)
  end.

Definition hexval (c : ascii) : option Z :=
  let b := byte_of_ascii c in
  if (48 <=? b) && (b <=? 57) then Some (b - 48)
  else if (97 <=? b) && (b <=? 102) then Some (b - 97 + 10)
  else if (65 <=? b) && (b <=? 70) then Some (b - 65 + 10)
  else None.

(** The inner loop of [netip.parseIPv6] reading one hexadecimal group:
    the number of digits read, the value, and what is left. *)
Fixpoint parseIPv6_hex (s : string) (off : nat) (acc : Z)
  : Result (nat * Z * string) :=
  match s with
  | EmptyString => Ok (off, acc, s)
  | String c s' =>
      match hexval c with
      | None => Ok (off, acc, s)
      | Some d =>
          let acc' := uint32 (Z.shiftl acc 4 + d) in
          if (3 <? off)%nat then Err "each group must have 4 or less digits"
          else if 65535 <? acc' then Err "IPv6 field has value >=2^16"
          else parseIPv6_hex s' (S off) acc'
      end
  end.

(** Writes [src] into [ip] from index [i] on. *)
Definition store_at (ip : list Z) (i : nat) (src : list Z) : list Z :=
  take i ip ++ src ++ drop (i + length src) ip.

(** The main loop of [netip.parseIPv6], [for i < 16]. Each round adds 2 to
    [i], so 8 rounds are enough; [ellipsis] is [None] for -1. The result is
    the state after the loop: what is left of the string, [i], the
    ellipsis and the bytes. *)
Fixpoint parseIPv6_loop (rounds : nat) (s : string) (i : nat)
    (ellipsis : option nat) (ip : list Z)
  : Result (string * nat * option nat * list Z) :=
  match rounds with
  | O => Ok (s, i, ellipsis, ip)
  | S rounds' =>
      if (16 <=? i)%nat then Ok (s, i, ellipsis, ip)
      else
        match parseIPv6_hex s 0 0 with
        | Err e => Err e
        | Ok (off, acc, rest) =>
            if (off =? 0)%nat
            then Err "each colon-separated field must have at least one digit"
            else if bool_decide (str_at rest 0 = Some "."%char) then
              if bool_decide (ellipsis = None) && negb (i =? 12)%nat
              then Err "embedded IPv4 address must replace the final 2 fields of the address"
              else if (16 <? i + 4)%nat
              then Err "too many hex fields to fit an embedded IPv4 at the end of the address"
              else match parseIPv4Fields s with
                   | Err e => Err e
                   | Ok fields =>
                       Ok (EmptyString, (i + 4)%nat, ellipsis,
                           store_at ip i fields)
                   end
            else
              let ip' := <[S i := uint8 acc]>
                           (<[i := uint8 (Z.shiftr acc 8)]> ip) in
              let i' := (i + 2)%nat in
              match rest with
              | EmptyString => Ok (rest, i', ellipsis, ip')
              | String c0 s1 =>
                  if negb (Ascii.eqb c0 ":")
                  then Err "unexpected character, want colon"
                  else
                    match s1 with
                    | EmptyString =>
                        Err "colon must be followed by more characters"
                    | String c1 s2 =>
                        if Ascii.eqb c1 ":" then
                          if ellipsis is Some _
                          then Err "multiple :: in address"
                          else if isEmpty s2
                          then Ok (s2, i', Some i', ip')
                          else parseIPv6_loop rounds' s2 i' (Some i') ip'
                        else parseIPv6_loop rounds' s1 i' ellipsis ip'
                    end
              end
        end
  end.

(** Expanding the ellipsis: the [n] bytes from [ellipsis] on become zero
    and what was parsed after the ellipsis moves to the end. *)
Definition expand_ellipsis (ip : list Z) (i ellipsis : nat) : list Z :=
  let n := (16 - i)%nat in
  take ellipsis ip ++ replicate n 0 ++ drop ellipsis (take i ip).

(** [netip.parseIPv6]: the 16 bytes and the zone. *)
Definition parseIPv6 (s_in : string) : Result (list Z * string) :=
  let split :=
    match IndexByteString s_in "%" with
    | Some i => (str_take i s_in, str_drop (S i) s_in, true)
    | None => (s_in, EmptyString, false)
    end in
  let '(s, zone, hasZone) := split in
  if hasZone && isEmpty zone then Err "zone must be a non-empty string"
  else
    let lead := bool_decide (str_at s 0 = Some ":"%char)
                && bool_decide (str_at s 1 = Some ":"%char) in
    let s1 := if lead then str_drop 2 s else s in
    let ellipsis := if lead then Some O else None in
    if lead && isEmpty s1 then Ok (make 16, zone)
    else
      match parseIPv6_loop 8 s1 0 ellipsis (make 16) with
      | Err e => Err e
      | Ok (rest, i, ell, ip) =>
          if negb (isEmpty rest) then Err "trailing garbage after address"
          else if (i <? 16)%nat then
            match ell with
            | None => Err "address string too short"
            | Some e => Ok (expand_ellipsis ip i e, zone)
            end
          else if ell is Some _
          then Err "the :: must expand to at least one field of zeros"
          else Ok (ip, zone)
      end.

(** [netip.ParseAddr] followed by [Addr.As16]: the first ['.'], [':'] or
    ['%'] of [s] decides; [rest] is what remains to be scanned. *)
Fixpoint ParseAddr_scan (s rest : string) : Result (list Z * string) :=
  match rest with
  | EmptyString => Err "unable to parse IP"
  | String c rest' =>
      if Ascii.eqb c "." then
        match parseIPv4 s with
        | Err e => Err e
        | Ok ip => Ok (ip, EmptyString)
        end
      else if Ascii.eqb c ":" then parseIPv6 s
      else if Ascii.eqb c "%" then Err "missing IPv6 address"
      else ParseAddr_scan s rest'
  end.

Definition ParseAddr (s : string) : Result (list Z * string) :=
  ParseAddr_scan s s.

(** [net.ParseIP]: 16 bytes, or [None] for nil; an address with a zone is
    refused. *)
Definition ParseIP (s : string) : option IP :=
  match ParseAddr s with
  | Ok (ip, zone) => if isEmpty zone then Some ip else None
  | Err _ => None
  end.

End GoNet.
Import GoNet.

(** ** http.go: destination and source identifiers *)

(** [httpProxyVaildAddr]: the IPv4 bytes and the port, or an error. *)
Definition httpProxyVaildAddr (addr : string) : Result (IP * Z) :=
  let '(ips, ports) :=
    match SplitHostPort addr with
    | Ok (ips, ports) => (ips, ports)
    | Err _ => (addr, "80")
    end in
  match ParseIP ips with
  | None => Err "invalid IPv4 Addr"
  | Some ip =>
      match To4 ip with
      | None => Err "invalid IPv4 Addr"
      | Some ip4 =>
          let '(port, _) := Atoi ports in
          Ok (ip4, uint16 port)
      end
  end.

(** [genDestAddr]; the nil slice is the empty list. *)
Definition genDestAddr (addr : string) : list Z :=
  match httpProxyVaildAddr addr with
  | Err _ => []
  | Ok (destIP, destPort) =>
      let b := make 6 in
      let b := copy b destIP in
      PutUint16 b 4 destPort
  end.

(** [tcpAddr2Bytes] *)
Definition tcpAddr2Bytes (addr : TCPAddr) : list Z :=
  let b := make 18 in
  let b := PutUint16 b 0 (uint16 (tcpPort addr)) in
  take 2 b ++ copy (drop 2 b) (tcpIP addr).

(** ** Decimal numerals

    Used to write down the inputs of the address functions: [dec n] is the
    decimal numeral of [n], without leading zeros. *)

Definition digit_char (d : Z) : ascii := ascii_of_N (Z.to_N (48 + d)).

Fixpoint dec_aux (fuel : nat) (n : Z) (acc : string) : string :=
  match fuel with
  | O => acc
  | S fuel' =>
      if n <? 10 then String (digit_char n) acc
      else dec_aux fuel' (n / 10) (String (digit_char (n mod 10)) acc)
  end.

Definition dec (n : Z) : string :=
  dec_aux (S (Z.to_nat (Z.log2 n))) n EmptyString.

(** The dotted-quad literal of the address [a.b.c.d]. *)
Definition ipv4_literal (a b c d : Z) : string :=
  dec a +:+ "." +:+ dec b +:+ "." +:+ dec c +:+ "." +:+ dec d.

Definition octet (x : Z) : Prop := 0 <= x < 256.

(** [str_forall p s]: every character of [s] satisfies [p]. *)
Fixpoint str_forall (p : ascii -> bool) (s : string) : bool :=
  match s with
  | EmptyString => true
  | String c s' => p c && str_forall p s'
  end.

(** The canonical numeral of [n], built digit by digit from the left. *)
Inductive is_dec : Z -> string -> Prop :=
| is_dec_digit d :
    0 <= d <= 9 -> is_dec d (String (digit_char d) EmptyString)
| is_dec_snoc n s d :
    0 < n -> is_dec n s -> 0 <= d <= 9 ->
    is_dec (n * 10 + d) (s +:+ String (digit_char d) EmptyString).

(** The characters of a dotted quad. *)
Definition hostChar (c : ascii) : bool := isDigit c || Ascii.eqb c ".".

(** The number of occurrences of [c] in [s]. *)
Fixpoint str_count (c : ascii) (s : string) : nat :=
  match s with
  | EmptyString => O
  | String a s' => ((if Ascii.eqb a c then 1 else 0) + str_count c s')%nat
  end.

Definition isHex (c : ascii) : bool :=
  match hexval c with Some _ => true | None => false end.

(** The part of [addr] that [httpProxyVaildAddr] parses as an address:
    the host that [net.SplitHostPort] finds, or all of [addr]. *)
Definition host_part (addr : string) : string :=
  match SplitHostPort addr with
  | Ok (ips, _) => ips
  | Err _ => addr
  end.

(** ** Slices with a capacity, and panics *)

Inductive Outcome (A : Type) : Type :=
| Done (a : A)
| Panic (msg : string).
Arguments Done {A} a.
Arguments Panic {A} msg.

Module GoSlice.

(** A [[]byte] value: the underlying array from the start of the slice
    on (its length is the capacity) and the length of the slice. *)
Record slice := { arr : list Z; len : nat }.

Definition cap (s : slice) : nat := length (arr s).
Definition elems (s : slice) : list Z := take (len s) (arr s).

(** A slice holding [l], with [extra] more bytes of capacity. *)
Definition of_list (l : list Z) (extra : list Z) : slice :=
  {| arr := l ++ extra; len := length l |}.

(** [s[:high]]: for a slice the upper bound is the capacity. *)
Definition slice_to (s : slice) (high : nat) : Outcome slice :=
  if (high <=? cap s)%nat then Done {| arr := arr s; len := high |}
  else Panic "slice bounds out of range".

(** [s[low:]]: the upper bound defaults to the length. *)
Definition slice_from (s : slice) (low : nat) : Outcome slice :=
  if (low <=? len s)%nat
  then Done {| arr := drop low (arr s); len := (len s - low)%nat |}
  else Panic "slice bounds out of range".

End GoSlice.
Import GoSlice.

(** ** The state the proxy works on *)

Definition ConnId := nat.
Definition ChanId := nat.

(** What is done to a [net.Conn]. *)
Inductive ConnOp :=
| OpClose
| OpWrite (data : list Z).

(** [httpReq], the message queued for a device. *)
Record httpReq := { req_devid : string; req_data : list Z }.

(** [httpResp]: the frame a device sent and the device it came from, by
    its [DeviceID()]. *)
Record httpResp := { resp_data : slice; resp_dev : string }.

(** The fields of [device] that [http.go] uses. *)
Record device := { dev_id : string; dev_proto : Z }.

(** The fields of [broker] that [http.go] uses; the channel [br.httpReq]
    is in the [World]. *)
Record broker := { devices : gmap string device }.

(** Operations on the endpoint registry, as they happen. *)
Inductive RegOp :=
| RegStore (devid : string) (src : list Z) (c : ConnId)
| RegDelete (devid : string) (src : list Z).

(** Operations on the session registry and its channels, as they happen. *)
Inductive SessOp :=
| SessClose (ch : ChanId)
| SessDelete (sid : string)
| SessMake (ch : ChanId)
| SessStore (sid : string) (ch : ChanId).

(** The global variables [httpProxyCons] and [httpProxySessions] (the key
    [string(srcAddr)] is the byte sequence), the channels made so far with
    their closed flag, the queue [brk.httpReq], and the logs of what was
    done to connections and registries, oldest first. *)
Record World := {
  httpProxyCons : gmap string (gmap (list Z) ConnId);
  httpProxySessions : gmap string ChanId;
  chans : list bool;
  httpReqQ : list httpReq;
  connLog : list (ConnId * ConnOp);
  regLog : list RegOp;
  sessLog : list SessOp;
}.

Definition emptyWorld : World :=
  {| httpProxyCons := ∅; httpProxySessions := ∅; chans := [];
     httpReqQ := []; connLog := []; regLog := []; sessLog := [] |}.

Definition set_cons (f : gmap string (gmap (list Z) ConnId) ->
                        gmap string (gmap (list Z) ConnId)) (w : World) : World :=
  {| httpProxyCons := f (httpProxyCons w);
     httpProxySessions := httpProxySessions w; chans := chans w;
     httpReqQ := httpReqQ w; connLog := connLog w; regLog := regLog w;
     sessLog := sessLog w |}.

Definition set_sessions (f : gmap string ChanId -> gmap string ChanId)
    (w : World) : World :=
  {| httpProxyCons := httpProxyCons w;
     httpProxySessions := f (httpProxySessions w); chans := chans w;
     httpReqQ := httpReqQ w; connLog := connLog w; regLog := regLog w;
     sessLog := sessLog w |}.

Definition set_chans (f : list bool -> list bool) (w : World) : World :=
  {| httpProxyCons := httpProxyCons w;
     httpProxySessions := httpProxySessions w; chans := f (chans w);
     httpReqQ := httpReqQ w; connLog := connLog w; regLog := regLog w;
     sessLog := sessLog w |}.

Definition log_reg (op : RegOp) (w : World) : World :=
  {| httpProxyCons := httpProxyCons w;
     httpProxySessions := httpProxySessions w; chans := chans w;
     httpReqQ := httpReqQ w; connLog := connLog w;
     regLog := regLog w ++ [op]; sessLog := sessLog w |}.

Definition log_sess (op : SessOp) (w : World) : World :=
  {| httpProxyCons := httpProxyCons w;
     httpProxySessions := httpProxySessions w; chans := chans w;
     httpReqQ := httpReqQ w; connLog := connLog w; regLog := regLog w;
     sessLog := sessLog w ++ [op] |}.

(** [brk.httpReq <- m] *)
Definition push (m : httpReq) (w : World) : World :=
  {| httpProxyCons := httpProxyCons w;
     httpProxySessions := httpProxySessions w; chans := chans w;
     httpReqQ := httpReqQ w ++ [m]; connLog := connLog w;
     regLog := regLog w; sessLog := sessLog w |}.

(** [c.Close()] and [c.Write(data)] *)
Definition conn_op (c : ConnId) (op : ConnOp) (w : World) : World :=
  {| httpProxyCons := httpProxyCons w;
     httpProxySessions := httpProxySessions w; chans := chans w;
     httpReqQ := httpReqQ w; connLog := connLog w ++ [(c, op)];
     regLog := regLog w; sessLog := sessLog w |}.

(** [make(chan struct{})]: a new, open channel. *)
Definition make_chan (w : World) : ChanId * World :=
  (length (chans w), set_chans (fun l => l ++ [false]) w).

(** [close(ch)]; closing a closed channel panics. *)
Definition close_chan (ch : ChanId) (w : World) : Outcome World :=
  match chans w !! ch with
  | Some false => Done (set_chans (fun l => <[ch := true]> l) w)
  | _ => Panic "close of closed channel"
  end.

Definition is_closed (ch : ChanId) (w : World) : bool :=
  bool_decide (chans w !! ch = Some true).

(** ** The endpoint registry *)

(** The entry of [(devid, src)]: [httpProxyCons.Load(devid)] and then
    [Load(string(src))] on the table of the device. *)
Definition registry_lookup (devid : string) (src : list Z) (w : World)
  : option ConnId :=
  match httpProxyCons w !! devid with
  | Some tbl => tbl !! src
  | None => None
  end.

(** [httpProxyCons.LoadOrStore(devid, &sync.Map{})] and [cons.Store]. *)
Definition registry_store (devid : string) (src : list Z) (c : ConnId)
    (w : World) : World :=
  let tbl := default ∅ (httpProxyCons w !! devid) in
  log_reg (RegStore devid src c)
    (set_cons (fun m => <[devid := <[src := c]> tbl]> m) w).

(** [httpProxyCons.Load(devid)] and, if the table is there,
    [cons.Delete(string(src))]. *)
Definition registry_delete (devid : string) (src : list Z) (w : World)
  : World :=
  match httpProxyCons w !! devid with
  | Some tbl =>
      log_reg (RegDelete devid src)
        (set_cons (fun m => <[devid := delete src tbl]> m) w)
  | None => w
  end.

(** [handleHttpProxyResp] *)
Definition handleHttpProxyResp (resp : httpResp) (w : World) : Outcome World :=
  let data := resp_data resp in
  match slice_to data 18 with
  | Panic msg => Panic msg
  | Done addr =>
      match slice_from data 18 with
      | Panic msg => Panic msg
      | Done data =>
          match httpProxyCons w !! resp_dev resp with
          | Some tbl =>
              match tbl !! elems addr with
              | Some c =>
                  if (len data =? 0)%nat then Done (conn_op c OpClose w)
                  else Done (conn_op c (OpWrite (elems data)) w)
              | None => Done w
              end
          | None => Done w
          end
      end
  end.

(** ** The proxy connection handler *)

(** What [http.go] reads of an [http.Request]: its cookies, its [Upgrade]
    header and its host; [req_rest] stands for everything else. *)
Record Request := {
  req_cookies : list (string * string);
  req_upgrade : string;
  req_Host : string;
  req_rest : list Z;
}.

Definition set_Host (host : string) (req : Request) : Request :=
  {| req_cookies := req_cookies req; req_upgrade := req_upgrade req;
     req_Host := host; req_rest := req_rest req |}.

(** [req.Cookie(name)]: the first cookie of that name. *)
Fixpoint Cookie_in (l : list (string * string)) (name : string)
  : option string :=
  match l with
  | [] => None
  | (k, v) :: l' => if String.eqb k name then Some v else Cookie_in l' name
  end.

Definition Cookie (req : Request) (name : string) : option string :=
  Cookie_in (req_cookies req) name.

(** An accepted connection: its handle, its remote address, and what
    reading from it gives. [conn_first] is the result of the first
    [http.ReadRequest] ([None] for an error); [conn_reqs] are the requests
    that the following calls of [http.ReadRequest] return before one
    fails; [conn_reads] are the chunks that the calls of [c.Read] return
    before one fails. A read fails at the end of the input, on an error,
    and once the connection has been closed. *)
Record Conn := {
  conn_id : ConnId;
  RemoteAddr : TCPAddr;
  conn_first : option Request;
  conn_reqs : list Request;
  conn_reads : list (list Z);
}.

Record HttpProxyWriter := {
  destAddr : list Z;
  srcAddr : list Z;
  hostHeaderRewrite : string;
  dev : device;
  https : bool;
}.

(** [HttpProxyWriter.Write]: one message on [br.httpReq] for each call. *)
Definition HttpProxyWriter_Write (rw : HttpProxyWriter) (p : list Z)
    (w : World) : World :=
  let msg := [] in
  let msg :=
    if 3 <? dev_proto (dev rw) then
      if https rw then msg ++ [1] else msg ++ [0]
    else msg in
  let msg := msg ++ srcAddr rw in
  let msg := msg ++ destAddr rw in
  let msg := msg ++ p in
  push {| req_devid := dev_id (dev rw); req_data := msg |} w.

(** The goroutine that [doHttpProxy] starts: it waits for the channel of
    the session or for [exit], and then deletes the registry entry. *)
Record Watcher := {
  wt_session : ChanId;
  wt_exit : ChanId;
  wt_conn : ConnId;
  wt_devid : string;
  wt_src : list Z;
}.

(** Which case of the [select] was taken. *)
Inductive Wake := WakeSession | WakeExit.

(** A [select] case can be taken when its channel is closed. *)
Definition wake_enabled (wt : Watcher) (k : Wake) (w : World) : bool :=
  match k with
  | WakeSession => is_closed (wt_session wt) w
  | WakeExit => is_closed (wt_exit wt) w
  end.

(** The body of the goroutine, once the [select] has taken case [k]. *)
Definition watcher_run (wt : Watcher) (k : Wake) (w : World) : World :=
  let w :=
    match k with
    | WakeSession => conn_op (wt_conn wt) OpClose w
    | WakeExit => w
    end in
  registry_delete (wt_devid wt) (wt_src wt) w.

Section Proxy.

(** [req.Write(w)] of net/http: the byte chunks that it hands to
    [w.Write], in order. *)
Variable Request_Write : Request -> list (list Z).

(** [url.QueryUnescape], with the empty string for an error. *)
Variable QueryUnescape : string -> string.

(** [HttpProxyWriter.WriteRequest] *)
Definition WriteRequest (rw : HttpProxyWriter) (req : Request) (w : World)
  : World :=
  let req := set_Host (hostHeaderRewrite rw) req in
  foldl (fun w p => HttpProxyWriter_Write rw p w) w (Request_Write req).

(** The relay loop of the upgrade mode: one message for each chunk read. *)
Definition relay_raw (devid : string) (srcAddr destAddr : list Z)
    (reads : list (list Z)) (w : World) : World :=
  foldl (fun w b =>
           let msg := [] ++ srcAddr in
           let msg := msg ++ destAddr in
           let msg := msg ++ b in
           push {| req_devid := devid; req_data := msg |} w)
        w reads.

(** The loop of the other mode: each further request is written. *)
Definition relay_requests (hpw : HttpProxyWriter) (reqs : list Request)
    (w : World) : World :=
  foldl (fun w req => WriteRequest hpw req w) w reqs.

(** [doHttpProxy]: the world when the function returns (the deferred
    [c.Close()] included), and the goroutine it started, if any. The
    goroutine works on the connection and the registry only, the function
    itself no longer touches the registry after starting it. *)
Definition doHttpProxy (brk : broker) (c : Conn) (w : World)
  : Outcome (World * option Watcher) :=
  let deferred w := conn_op (conn_id c) OpClose w in
  match conn_first c with
  | None => Done (deferred w, None)
  | Some req =>
  match Cookie req "rtty-http-devid" with
  | None => Done (deferred w, None)
  | Some devid =>
  match devices brk !! devid with
  | None => Done (deferred w, None)
  | Some dev =>
  match Cookie req "rtty-http-sid" with
  | None => Done (deferred w, None)
  | Some sid =>
      let https :=
        match Cookie req "rtty-http-proto" with
        | Some v => String.eqb v "https"
        | None => false
        end in
      let hostHeaderRewrite :=
        match Cookie req "rtty-http-destaddr" with
        | Some v => QueryUnescape v
        | None => "localhost"
        end in
      let destAddr := genDestAddr hostHeaderRewrite in
      let srcAddr := tcpAddr2Bytes (RemoteAddr c) in
      let w := registry_store devid srcAddr (conn_id c) w in
      let '(exit, w) := make_chan w in
      match httpProxySessions w !! sid with
      | None => Done (deferred w, None)
      | Some v =>
          let watcher :=
            {| wt_session := v; wt_exit := exit; wt_conn := conn_id c;
               wt_devid := devid; wt_src := srcAddr |} in
          let hpw :=
            {| destAddr := destAddr; srcAddr := srcAddr;
               hostHeaderRewrite := hostHeaderRewrite; dev := dev;
               https := https |} in
          let req := set_Host hostHeaderRewrite req in
          let w := WriteRequest hpw req w in
          let w :=
            if String.eqb (req_upgrade req) "websocket"
            then relay_raw devid srcAddr destAddr (conn_reads c) w
            else relay_requests hpw (conn_reqs c) w in
          match close_chan exit w with
          | Panic msg => Panic msg
          | Done w => Done (deferred w, Some watcher)
          end
      end
  end end end end.

End Proxy.

(** ** The redirect handler *)

(** What [httpProxyRedirect] reads of the [gin.Context]: the path
    parameters, the host of the request, and the result of
    [c.Cookie("rtty-http-sid")]. *)
Record GinRequest := {
  param_devid : string;
  param_proto : string;
  param_addr : string;
  param_path : string;
  gin_Host : string;
  cookie_sid : option string;
}.

(** What it answers: the status, the cookies set, and the location of the
    redirect. *)
Record GinResponse := {
  resp_status : Z;
  resp_cookies : list (string * string);
  resp_location : string;
}.

Record Config := {
  HttpProxyRedirURL : string;
  HttpProxyProtocol : string;
  HttpProxyPort : Z;
}.

Record URL := { url_Path : string; url_RawQuery : string }.

Definition StatusBadRequest : Z := 400.
Definition StatusNotFound : Z := 404.
Definition StatusFound : Z := 302.

(** [fmt.Sprintf("%d", n)] *)
Definition fmt_d (n : Z) : string :=
  if n <? 0 then "-" +:+ dec (- n) else dec n.

Definition status_only (code : Z) : GinResponse :=
  {| resp_status := code; resp_cookies := []; resp_location := "" |}.

Section Redirect.

(** [url.Parse] *)
Variable url_Parse : string -> option URL.

(** The location of the redirect, lines 336 to 360. *)
Definition redirect_location (cfg : Config) (host_hdr : string) (path : URL)
    (now : Z) : string :=
  let location := HttpProxyRedirURL cfg in
  let location :=
    if isEmpty location then
      let host :=
        match SplitHostPort host_hdr with
        | Ok (host, _) => host
        | Err _ => host_hdr
        end in
      let location :=
        if negb (isEmpty (HttpProxyProtocol cfg))
        then HttpProxyProtocol cfg +:+ "://" +:+ host
        else "http://" +:+ host in
      if negb (HttpProxyPort cfg =? 80)
      then location +:+ ":" +:+ fmt_d (HttpProxyPort cfg)
      else location
    else location in
  let location := location +:+ url_Path path in
  let location := location +:+ "?_=" +:+ fmt_d now in
  if negb (isEmpty (url_RawQuery path))
  then location +:+ "&" +:+ url_RawQuery path
  else location.

(** The session part, lines 362 to 372: the session of the cookie
    presented, if it is registered, is closed and deleted; then the new
    session is made and stored. *)
Definition renew_session (old : option string) (sid : string) (w : World)
  : Outcome World :=
  let invalidated :=
    match old with
    | Some old_sid =>
        match httpProxySessions w !! old_sid with
        | Some v =>
            match close_chan v w with
            | Panic msg => Panic msg
            | Done w =>
                let w := log_sess (SessClose v) w in
                Done (log_sess (SessDelete old_sid)
                        (set_sessions (delete old_sid) w))
            end
        | None => Done w
        end
    | None => Done w
    end in
  match invalidated with
  | Panic msg => Panic msg
  | Done w =>
      let '(ch, w) := make_chan w in
      let w := log_sess (SessMake ch) w in
      Done (log_sess (SessStore sid ch) (set_sessions (<[sid := ch]>) w))
  end.

(** [httpProxyRedirect]. [new_sid] is what [utils.GenUniqueID] returns in
    this call and [now] is [time.Now().Unix()]. *)
Definition httpProxyRedirect (br : broker) (cfg : Config) (c : GinRequest)
    (new_sid : string) (now : Z) (w : World) : Outcome (World * GinResponse) :=
  let devid := param_devid c in
  let proto := param_proto c in
  let addr := param_addr c in
  let rawPath := param_path c in
  match httpProxyVaildAddr addr with
  | Err _ => Done (w, status_only StatusBadRequest)
  | Ok _ =>
  match url_Parse rawPath with
  | None => Done (w, status_only StatusBadRequest)
  | Some path =>
  match devices br !! devid with
  | None => Done (w, status_only StatusNotFound)
  | Some _ =>
      let location := redirect_location cfg (gin_Host c) path now in
      match renew_session (cookie_sid c) new_sid w with
      | Panic msg => Panic msg
      | Done w =>
          Done (w, {| resp_status := StatusFound;
                      resp_cookies :=
                        [("rtty-http-sid", new_sid);
                         ("rtty-http-devid", devid);
                         ("rtty-http-proto", proto);
                         ("rtty-http-destaddr", addr)];
                      resp_location := location |})
      end
  end end end.

(** The request gets as far as the session part. *)
Definition redirect_accepts (br : broker) (c : GinRequest) : Prop :=
  isErr (httpProxyVaildAddr (param_addr c)) = false
  /\ is_Some (url_Parse (param_path c))
  /\ is_Some (devices br !! param_devid c).

End Redirect.

(** ** Concrete runs *)

(** A run of two redirects for the device ["dev1"] and the destination
    ["192.168.1.1:8080"]. *)
Definition ex_url_Parse (s : string) : option URL :=
  Some {| url_Path := s; url_RawQuery := "" |}.

Definition ex_device : device := {| dev_id := "dev1"; dev_proto := 4 |}.

Definition ex_broker : broker := {| devices := {[ "dev1" := ex_device ]} |}.

Definition ex_cfg : Config :=
  {| HttpProxyRedirURL := ""; HttpProxyProtocol := ""; HttpProxyPort := 5914 |}.

Definition ex_redirect (cookie : option string) : GinRequest :=
  {| param_devid := "dev1"; param_proto := "http";
     param_addr := "192.168.1.1:8080"; param_path := "/index.html";
     gin_Host := "rttys.example:5913"; cookie_sid := cookie |}.

Definition ex_after_first : World :=
  {| httpProxyCons := ∅; httpProxySessions := {[ "sid-1" := 0%nat ]};
     chans := [false]; httpReqQ := []; connLog := []; regLog := [];
     sessLog := [SessMake 0%nat; SessStore "sid-1" 0%nat] |}.

Definition ex_first_resp : GinResponse :=
  {| resp_status := 302;
     resp_cookies := [("rtty-http-sid", "sid-1"); ("rtty-http-devid", "dev1");
                      ("rtty-http-proto", "http");
                      ("rtty-http-destaddr", "192.168.1.1:8080")];
     resp_location := "http://rttys.example:5914/index.html?_=1700000000" |}.

(** ** Frames, as the handler builds them *)

(** The scheme flag that [HttpProxyWriter.Write] puts first, for a device
    whose protocol version is above 3. *)
Definition scheme_flag (dev : device) (https : bool) : list Z :=
  if 3 <? dev_proto dev then (if https then [1] else [0]) else [].

(** The message of one [Write] call. *)
Definition write_frame (rw : HttpProxyWriter) (p : list Z) : httpReq :=
  {| req_devid := dev_id (dev rw);
     req_data := scheme_flag (dev rw) (https rw)
                 ++ srcAddr rw ++ destAddr rw ++ p |}.

(** The message of one round of the raw relay loop. *)
Definition raw_frame (devid : string) (src dst b : list Z) : httpReq :=
  {| req_devid := devid; req_data := src ++ dst ++ b |}.

(** The messages of one request: one for each chunk that [req.Write]
    hands to the writer. *)
Definition request_frames (Request_Write : Request -> list (list Z))
    (rw : HttpProxyWriter) (req : Request) : list httpReq :=
  map (write_frame rw)
      (Request_Write (set_Host (hostHeaderRewrite rw) req)).

(** The host that the handler takes from the cookies of the first request,
    lines 147 to 151, the scheme, lines 141 to 145, and the writer it
    builds from them, line 181. *)
Definition proxy_host (QueryUnescape : string -> string) (req : Request)
  : string :=
  match Cookie req "rtty-http-destaddr" with
  | Some v => QueryUnescape v
  | None => "localhost"
  end.

Definition proxy_https (req : Request) : bool :=
  match Cookie req "rtty-http-proto" with
  | Some v => String.eqb v "https"
  | None => false
  end.

Definition proxy_writer (QueryUnescape : string -> string) (c : Conn)
    (req : Request) (dev : device) : HttpProxyWriter :=
  {| destAddr := genDestAddr (proxy_host QueryUnescape req);
     srcAddr := tcpAddr2Bytes (RemoteAddr c);
     hostHeaderRewrite := proxy_host QueryUnescape req;
     dev := dev;
     https := proxy_https req |}.

(** A frame without payload, with or without a scheme flag. *)
Definition is_close_frame (src dst : list Z) (m : httpReq) : bool :=
  bool_decide (req_data m = src ++ dst)
  || bool_decide (req_data m = [0] ++ src ++ dst)
  || bool_decide (req_data m = [1] ++ src ++ dst).

Definition count_close_frames (src dst : list Z) (q : list httpReq) : nat :=
  length (filter (fun m => is_close_frame src dst m = true) q).

(** ** Concrete connections *)

(** Each request goes out in one [Write] call, and the bytes are those of
    [req_rest]. *)
Definition ex_Request_Write (req : Request) : list (list Z) := [req_rest req].

Definition ex_QueryUnescape (s : string) : string := s.

(** The browser at 10.0.0.7, port 51000, seen through a dual-stack
    listener. *)
Definition ex_remote : TCPAddr :=
  {| tcpIP := [0;0;0;0;0;0;0;0;0;0;255;255;10;0;0;7]; tcpPort := 51000 |}.

Definition ex_src : list Z := [199;56;0;0;0;0;0;0;0;0;0;0;255;255;10;0;0;7].

Definition ex_dst : list Z := [192; 168; 1; 1; 31; 144].

Definition ex_get : list Z := [71; 69; 84].

Definition ex_request (cookies : list (string * string)) (upgrade : string)
  : Request :=
  {| req_cookies := cookies; req_upgrade := upgrade;
     req_Host := "rttys.example:5914"; req_rest := ex_get |}.

Definition ex_conn (req : Request) (reqs : list Request)
    (reads : list (list Z)) : Conn :=
  {| conn_id := 1%nat; RemoteAddr := ex_remote; conn_first := Some req;
     conn_reqs := reqs; conn_reads := reads |}.

(** A device that speaks version 3 of the protocol. *)
Definition ex_broker3 : broker :=
  {| devices := {[ "dev1" := {| dev_id := "dev1"; dev_proto := 3 |} ]} |}.

Definition ex_cookies (sid : string) (destaddr : list (string * string))
  : list (string * string) :=
  [("rtty-http-devid", "dev1"); ("rtty-http-sid", sid);
   ("rtty-http-proto", "https")] ++ destaddr.

Definition ex_dest_cookie : list (string * string) :=
  [("rtty-http-destaddr", "192.168.1.1:8080")].

(** The queue [brk.httpReq] after a run of the handler. *)
Definition queue_after (o : Outcome (World * option Watcher)) : list httpReq :=
  match o with
  | Done (w, _) => httpReqQ w
  | Panic _ => []
  end.

(** ** Predicates used in the further properties *)

Definition isByte (b : Z) : Prop := 0 <= b < 256.

Definition isLetter (c : ascii) : bool :=
  let b := byte_of_ascii c in
  ((65 <=? b) && (b <=? 90)) || ((97 <=? b) && (b <=? 122)).

(** The number of times the connection [c] was closed, by the log. *)
Definition is_close_of (c : ConnId) (e : ConnId * ConnOp) : bool :=
  (fst e =? c)%nat && match snd e with OpClose => true | OpWrite _ => false end.

Definition count_closes (c : ConnId) (log : list (ConnId * ConnOp)) : nat :=
  length (filter (fun e => is_close_of c e = true) log).

(** The bytes written to the connection [c], by the log. *)
Definition written_to (c : ConnId) (log : list (ConnId * ConnOp)) : list Z :=
  concat (map (fun e : ConnId * ConnOp =>
                 match snd e with
                 | OpWrite data => if (fst e =? c)%nat then data else []
                 | OpClose => []
                 end) log).

(** The device reply for the source identifier [src]. *)
Definition reply_frame (devid : string) (src payload extra : list Z)
  : httpResp :=
  {| resp_data := of_list (src ++ payload) extra; resp_dev := devid |}.

(** An upgraded connection of the registered session, which sends two
    chunks and ends; the world and the goroutine that the handler leaves
    behind. *)
Definition ex_upgrade_conn : Conn :=
  ex_conn (ex_request (ex_cookies "sid-1" ex_dest_cookie) "websocket")
    [] [[1; 2; 3]; [4]].

Definition ex_run : Outcome (World * option Watcher) :=
  doHttpProxy ex_Request_Write ex_QueryUnescape ex_broker3 ex_upgrade_conn
    ex_after_first.

Definition ex_run_world : World :=
  match ex_run with
  | Done (w, _) => w
  | Panic _ => emptyWorld
  end.

Definition ex_run_watcher : Watcher :=
  match ex_run with
  | Done (_, Some wt) => wt
  | _ => {| wt_session := 0%nat; wt_exit := 0%nat; wt_conn := 0%nat;
            wt_devid := ""; wt_src := [] |}
  end.

(** The session registry is in order: every registered session has an
    open channel, and no two sessions share a channel. *)
Definition sessions_ok (w : World) : Prop :=
  (forall sid ch,
     httpProxySessions w !! sid = Some ch -> chans w !! ch = Some false)
  /\ (forall s1 s2 ch,
        httpProxySessions w !! s1 = Some ch ->
        httpProxySessions w !! s2 = Some ch -> s1 = s2).

(** The second redirect of the run, with the cookie of the first. *)
Definition ex_second : Outcome (World * GinResponse) :=
  httpProxyRedirect ex_url_Parse ex_broker ex_cfg
    (ex_redirect (Some "sid-1")) "sid-2" 1700000001 ex_after_first.

Definition ex_second_world : World :=
  match ex_second with
  | Done (w, _) => w
  | Panic _ => emptyWorld
  end.

Definition ex_second_resp : GinResponse :=
  match ex_second with
  | Done (_, resp) => resp
  | Panic _ => status_only 0
  end.

(** ** The listener *)

Module Listener.

(** The fields of the configuration that [listenHttpProxy] reads, and
    [HttpProxyPort], which it also writes. *)
Record Cfg := {
  AddrHttpProxy : string;
  SslCert : string;
  SslKey : string;
  SslCacert : string;
  HttpProxyPort : Z;
}.

(** What the calls to the outside return: [net.ResolveTCPAddr] (the port
    of the address), [net.Listen] (the port the listener is bound to),
    [tls.LoadX509KeyPair] (whether it succeeds) and [ioutil.ReadFile];
    [None] is an error, and then the listener is nil. *)
Record Env := {
  ResolveTCPAddr : string -> option Z;
  Listen : string -> option Z;
  LoadX509KeyPair : string -> string -> bool;
  ReadFile : string -> option (list Z);
}.

Inductive LogLine :=
| WarnInvalidAddr
| WarnMTLSNotEnabled
| ErrorMTLSNotEnabled
| InfoListenSSL (on : bool)
| InfoAutoPort
| InfoListen.

Definition VersionTLS12 : Z := 771.

(** The [tls.Config] that the listener is wrapped with: the least
    version, and whether client certificates are required and verified
    against the pool made of the CA file. *)
Record TlsConfig := {
  MinVersion : Z;
  ClientCAs : option (list Z);
  RequireAndVerifyClientCert : bool;
}.

(** The proxy once the accept loop is started: the port published in
    [cfg.HttpProxyPort], the TLS configuration if the listener is a TLS
    listener, and what was logged. *)
Record Started := {
  srv_port : Z;
  srv_tls : option TlsConfig;
  srv_log : list LogLine;
}.

(** How [listenHttpProxy] ends: with the accept loop running, in
    [log.Fatal] (which exits), or in the panic of a call on the nil
    listener. *)
Inductive Result :=
| Serving (s : Started)
| Fatal (log : list LogLine)
| NilListenerPanic (log : list LogLine).

(** Lines 262 to 272, with the listener [ln] and the error [err] of
    [net.Listen]: [ln] is [Some] of the bound port, and [err] is not nil
    exactly when [failed]. *)
Definition listen_finish (port0 : Z) (failed : bool) (bound : Z)
    (tls : option TlsConfig) (log : list LogLine) : Result :=
  let log := if port0 =? 0 then log ++ [InfoAutoPort] else log in
  if failed then Fatal log
  else Serving {| srv_port := bound; srv_tls := tls;
                  srv_log := log ++ [InfoListen] |}.

(** [listenHttpProxy], up to the start of the accept loop. *)
Definition listenHttpProxy (env : Env) (cfg : Cfg) : Result :=
  let '(port0, log) :=
    if negb (isEmpty (AddrHttpProxy cfg)) then
      match ResolveTCPAddr env (AddrHttpProxy cfg) with
      | None => (HttpProxyPort cfg, [WarnInvalidAddr])
      | Some p => (p, [])
      end
    else (HttpProxyPort cfg, []) in
  let ln := Listen env (AddrHttpProxy cfg) in
  let failed := match ln with None => true | Some _ => false end in
  if negb (isEmpty (SslCert cfg)) && negb (isEmpty (SslKey cfg)) then
    if negb (LoadX509KeyPair env (SslCert cfg) (SslKey cfg)) then Fatal log
    else
      let '(tlsConfig, log) :=
        if isEmpty (SslCacert cfg) then
          ({| MinVersion := VersionTLS12; ClientCAs := None;
              RequireAndVerifyClientCert := false |},
           log ++ [WarnMTLSNotEnabled])
        else
          match ReadFile env (SslCacert cfg) with
          | None =>
              ({| MinVersion := VersionTLS12; ClientCAs := None;
                  RequireAndVerifyClientCert := false |},
               log ++ [ErrorMTLSNotEnabled])
          | Some caCert =>
              ({| MinVersion := VersionTLS12; ClientCAs := Some caCert;
                  RequireAndVerifyClientCert := true |}, log)
          end in
      (* ln = tls.NewListener(ln, tlsConfig); ln.Addr() is logged *)
      match ln with
      | None => NilListenerPanic log
      | Some bound =>
          listen_finish port0 failed bound (Some tlsConfig)
            (log ++ [InfoListenSSL true])
      end
  else
    (* ln.Addr() is logged *)
    match ln with
    | None => NilListenerPanic log
    | Some bound =>
        listen_finish port0 failed bound None (log ++ [InfoListenSSL false])
    end.

Definition tls_configured (cfg : Cfg) : bool :=
  negb (isEmpty (SslCert cfg)) && negb (isEmpty (SslKey cfg)).

(** A configuration with certificate, key and CA file, and two
    environments: one where everything works but the CA file cannot be
    read, one where the address cannot be listened on. *)
Definition ex_cfg_tls : Cfg :=
  {| AddrHttpProxy := ":5914"; SslCert := "rttys.crt"; SslKey := "rttys.key";
     SslCacert := "ca.crt"; HttpProxyPort := 0 |}.

Definition ex_env_no_ca : Env :=
  {| ResolveTCPAddr := fun _ => Some 5914; Listen := fun _ => Some 5914;
     LoadX509KeyPair := fun _ _ => true; ReadFile := fun _ => None |}.

Definition ex_env_in_use : Env :=
  {| ResolveTCPAddr := fun _ => Some 5914; Listen := fun _ => None;
     LoadX509KeyPair := fun _ _ => true; ReadFile := fun _ => None |}.

Definition ex_started : Started :=
  match listenHttpProxy ex_env_no_ca ex_cfg_tls with
  | Serving s => s
  | _ => {| srv_port := 0; srv_tls := None; srv_log := [] |}
  end.

End Listener.

(** * Properties *)

(** ** Strings *)

#[local] Arguments String.append !s1 s2 : simpl nomatch.

Section StringFacts.

Implicit Types (s r : string) (c : ascii).

Lemma str_app_assoc s1 s2 s3 : (s1 +:+ s2) +:+ s3 = s1 +:+ (s2 +:+ s3).
Proof. induction s1 as [|a s1 IH]; simpl; [reflexivity | by rewrite IH]. Qed.

Lemma str_app_nil_r s : s +:+ EmptyString = s.
Proof. induction s as [|a s IH]; simpl; [reflexivity | by rewrite IH]. Qed.

Lemma str_length_app s r :
  String.length (s +:+ r) = (String.length s + String.length r)%nat.
Proof. induction s as [|a s IH]; simpl; [reflexivity | by rewrite IH]. Qed.

Lemma str_forall_app p s r :
  str_forall p (s +:+ r) = str_forall p s && str_forall p r.
Proof.
  induction s as [|a s IH]; simpl; [reflexivity |].
  by rewrite IH, andb_assoc.
Qed.

Lemma str_forall_impl (p q : ascii -> bool) s :
  (forall a, p a = true -> q a = true) ->
  str_forall p s = true -> str_forall q s = true.
Proof.
  intros Hpq. induction s as [|a s IH]; simpl; [done |].
  intros [Ha Hs]%andb_true_iff. rewrite (Hpq _ Ha). simpl. auto.
Qed.

Lemma IndexByteString_absent s c :
  str_forall (fun a => negb (Ascii.eqb a c)) s = true ->
  IndexByteString s c = None.
Proof.
  induction s as [|a s IH]; simpl; [done |].
  intros [Ha Hs]%andb_true_iff. apply negb_true_iff in Ha.
  rewrite Ha, (IH Hs). reflexivity.
Qed.

Lemma LastIndexByteString_absent s c :
  str_forall (fun a => negb (Ascii.eqb a c)) s = true ->
  LastIndexByteString s c = None.
Proof.
  induction s as [|a s IH]; simpl; [done |].
  intros [Ha Hs]%andb_true_iff. apply negb_true_iff in Ha.
  rewrite Ha, (IH Hs). reflexivity.
Qed.

Lemma LastIndexByteString_sep s r c :
  str_forall (fun a => negb (Ascii.eqb a c)) r = true ->
  LastIndexByteString (s +:+ String c r) c = Some (String.length s).
Proof.
  intros Hr. induction s as [|a s IH]; simpl.
  - rewrite (LastIndexByteString_absent _ _ Hr), Ascii.eqb_refl. done.
  - by rewrite IH.
Qed.

Lemma str_take_app s r : str_take (String.length s) (s +:+ r) = s.
Proof.
  induction s as [|a s IH]; simpl; [by destruct r | by rewrite IH].
Qed.

Lemma str_drop_app s r : str_drop (String.length s) (s +:+ r) = r.
Proof. induction s as [|a s IH]; simpl; [by destruct r | done]. Qed.

Lemma str_drop_0 s : str_drop 0 s = s.
Proof. by destruct s. Qed.

Lemma str_drop_sep s c r : str_drop (S (String.length s)) (s +:+ String c r) = r.
Proof. induction s as [|a s IH]; simpl; [by destruct r | done]. Qed.

End StringFacts.

(** ** Decimal numerals *)

Section Decimal.

Lemma digit_cases d :
  0 <= d <= 9 ->
  d = 0 \/ d = 1 \/ d = 2 \/ d = 3 \/ d = 4 \/
  d = 5 \/ d = 6 \/ d = 7 \/ d = 8 \/ d = 9.
Proof. lia. Qed.

Lemma byte_of_digit_char d :
  0 <= d <= 9 -> byte_of_ascii (digit_char d) = 48 + d.
Proof.
  intros H. destruct (digit_cases d H) as
    [->|[->|[->|[->|[->|[->|[->|[->|[->| ->]]]]]]]]]; reflexivity.
Qed.

Lemma isDigit_digit_char d : 0 <= d <= 9 -> isDigit (digit_char d) = true.
Proof.
  intros H. unfold isDigit. rewrite (byte_of_digit_char d H).
  apply andb_true_iff. split; apply Z.leb_le; lia.
Qed.

Lemma is_dec_nonneg n s : is_dec n s -> 0 <= n.
Proof. induction 1; lia. Qed.

Lemma is_dec_digits n s : is_dec n s -> str_forall isDigit s = true.
Proof.
  induction 1 as [d Hd | n s d Hn Hs IH Hd]; simpl.
  - by rewrite (isDigit_digit_char d Hd).
  - rewrite str_forall_app, IH. simpl. by rewrite (isDigit_digit_char d Hd).
Qed.

Lemma is_dec_head n s :
  is_dec n s -> exists c s', s = String c s' /\ isDigit c = true.
Proof.
  induction 1 as [d Hd | n s d Hn Hs (c & s' & -> & Hc) Hd].
  - eexists _, _. split; [reflexivity |]. by apply isDigit_digit_char.
  - exists c, (s' +:+ String (digit_char d) EmptyString). by split.
Qed.

Lemma is_dec_length n s (k : nat) :
  is_dec n s -> n < 10 ^ Z.of_nat (S k) -> (String.length s <= S k)%nat.
Proof.
  intros H. revert k. induction H as [d Hd | n s d Hn Hs IH Hd]; intros k Hk.
  - simpl. lia.
  - rewrite str_length_app. simpl. destruct k as [|k].
    + change (10 ^ Z.of_nat 1) with 10 in Hk. lia.
    + specialize (IH k). rewrite Nat2Z.inj_succ, Z.pow_succ_r in Hk by lia.
      assert (n < 10 ^ Z.of_nat (S k)) as Hlt by nia. specialize (IH Hlt). lia.
Qed.

Lemma dec_aux_spec fuel :
  forall n acc, (0 < fuel)%nat -> 0 <= n < 10 ^ Z.of_nat fuel ->
  exists s, dec_aux fuel n acc = s +:+ acc /\ is_dec n s.
Proof.
  induction fuel as [|fuel IH]; intros n acc Hf Hn; [lia |].
  simpl. destruct (Z.ltb_spec n 10) as [Hlt | Hge].
  - exists (String (digit_char n) EmptyString). split; [reflexivity |].
    constructor. lia.
  - rewrite Nat2Z.inj_succ, Z.pow_succ_r in Hn by lia.
    assert (0 < n / 10) as Hq by (apply Z.div_str_pos; lia).
    assert (n / 10 < 10 ^ Z.of_nat fuel) as Hub
      by (apply Z.div_lt_upper_bound; lia).
    destruct (IH (n / 10) (String (digit_char (n mod 10)) acc))
      as (s & Hs & Hd).
    { destruct fuel; [simpl in Hub; lia | lia]. }
    { lia. }
    exists (s +:+ String (digit_char (n mod 10)) EmptyString). split.
    + rewrite Hs, str_app_assoc. reflexivity.
    + pose proof (Z.mod_pos_bound n 10 ltac:(lia)).
      replace n with (n / 10 * 10 + n mod 10) at 1
        by (rewrite Z.mul_comm; symmetry; apply Z.div_mod; lia).
      constructor; [done | done | lia].
Qed.

Lemma dec_is_dec n : 0 <= n -> is_dec n (dec n).
Proof.
  intros Hn. unfold dec.
  destruct (dec_aux_spec (S (Z.to_nat (Z.log2 n))) n EmptyString)
    as (s & Hs & Hd).
  - lia.
  - split; [done |]. destruct (Z.eq_dec n 0) as [-> | Hnz]; [reflexivity |].
    rewrite Nat2Z.inj_succ, Z2Nat.id by apply Z.log2_nonneg.
    pose proof (Z.log2_spec n ltac:(lia)) as [_ Hlt].
    eapply Z.lt_le_trans; [exact Hlt |].
    apply Z.pow_le_mono_l. lia.
  - rewrite Hs, str_app_nil_r. exact Hd.
Qed.

End Decimal.

(** ** Parsing what was printed: dotted quads and ports *)

Section ParseLiterals.

(** A character satisfying [p] differs from a literal that does not. *)
Lemma char_differs (p : ascii -> bool) (x c : ascii) :
  p x = false -> p c = true -> Ascii.eqb c x = false.
Proof.
  intros Hx Hc. destruct (Ascii.eqb_spec c x) as [-> | ?]; [congruence | done].
Qed.

Lemma digits_lack (x : ascii) s :
  isDigit x = false ->
  str_forall isDigit s = true ->
  str_forall (fun a => negb (Ascii.eqb a x)) s = true.
Proof.
  intros Hx. apply str_forall_impl. intros a Ha.
  by rewrite (char_differs isDigit x a Hx Ha).
Qed.

Lemma hostChars_lack (x : ascii) s :
  hostChar x = false ->
  str_forall hostChar s = true ->
  str_forall (fun a => negb (Ascii.eqb a x)) s = true.
Proof.
  intros Hx. apply str_forall_impl. intros a Ha.
  by rewrite (char_differs hostChar x a Hx Ha).
Qed.

Lemma digits_hostChars s :
  str_forall isDigit s = true -> str_forall hostChar s = true.
Proof.
  apply str_forall_impl. intros a Ha. unfold hostChar. by rewrite Ha.
Qed.

(** *** The IPv4 field loop *)

Lemma parseIPv4Fields_loop_digits n s :
  is_dec n s -> n <= 255 ->
  forall rest first prevDot pos fields,
    parseIPv4Fields_loop (s +:+ rest) first prevDot 0 pos 0 fields =
    parseIPv4Fields_loop rest false false n pos
      (Z.of_nat (String.length s)) fields.
Proof.
  induction 1 as [d Hd | n s d Hn Hs IH Hd]; intros Hle rest first prevDot pos fields.
  - simpl. rewrite (isDigit_digit_char d Hd), (byte_of_digit_char d Hd).
    simpl. replace (0 * 10 + (48 + d) - 48) with d by lia.
    destruct (Z.ltb_spec 255 d); [lia | reflexivity].
  - rewrite str_app_assoc, IH by lia. simpl.
    rewrite (isDigit_digit_char d Hd), (byte_of_digit_char d Hd).
    destruct (Z.eqb_spec n 0) as [? | _]; [lia |]. rewrite andb_false_r.
    replace (n * 10 + (48 + d) - 48) with (n * 10 + d) by lia.
    destruct (Z.ltb_spec 255 (n * 10 + d)); [lia |].
    rewrite str_length_app. simpl. f_equal. lia.
Qed.

Lemma parseIPv4Fields_loop_dot c r v pos digLen fields :
  (pos < 3)%nat ->
  parseIPv4Fields_loop (String "." (String c r)) false false v pos digLen fields =
  parseIPv4Fields_loop (String c r) false true 0 (S pos) 0
    (<[pos := uint8 v]> fields).
Proof.
  intros Hpos. simpl.
  destruct (Nat.eqb_spec pos 3); [lia | reflexivity].
Qed.

Lemma uint8_octet x : octet x -> uint8 x = x.
Proof. intros H. unfold uint8. apply Z.mod_small. exact H. Qed.

Lemma parseIPv4Fields_quad a b c d sa sb sc sd :
  is_dec a sa -> is_dec b sb -> is_dec c sc -> is_dec d sd ->
  octet a -> octet b -> octet c -> octet d ->
  parseIPv4Fields (sa +:+ "." +:+ sb +:+ "." +:+ sc +:+ "." +:+ sd)
  = Ok [a; b; c; d].
Proof.
  intros Ha Hb Hc Hd Oa Ob Oc Od. unfold parseIPv4Fields.
  destruct (is_dec_head _ _ Hb) as (cb & sb' & Eb & _).
  destruct (is_dec_head _ _ Hc) as (cc & sc' & Ec & _).
  destruct (is_dec_head _ _ Hd) as (cd & sd' & Ed & _).
  rewrite (parseIPv4Fields_loop_digits a sa Ha) by (unfold octet in Oa; lia).
  rewrite Eb. simpl String.append.
  rewrite parseIPv4Fields_loop_dot by lia.
  change (String cb (sb' +:+ ?r)) with (String cb sb' +:+ r). rewrite <- Eb.
  rewrite (parseIPv4Fields_loop_digits b sb Hb) by (unfold octet in Ob; lia).
  rewrite Ec. simpl String.append.
  rewrite parseIPv4Fields_loop_dot by lia.
  change (String cc (sc' +:+ ?r)) with (String cc sc' +:+ r). rewrite <- Ec.
  rewrite (parseIPv4Fields_loop_digits c sc Hc) by (unfold octet in Oc; lia).
  rewrite Ed. simpl String.append.
  rewrite parseIPv4Fields_loop_dot by lia.
  rewrite <- Ed. rewrite <- (str_app_nil_r sd).
  rewrite (parseIPv4Fields_loop_digits d sd Hd) by (unfold octet in Od; lia).
  simpl. by rewrite !uint8_octet.
Qed.

(** *** net.ParseIP *)

Lemma ParseAddr_scan_digits full s r :
  str_forall isDigit s = true ->
  ParseAddr_scan full (s +:+ String "." r) =
  match parseIPv4 full with Err e => Err e | Ok ip => Ok (ip, EmptyString) end.
Proof.
  induction s as [|c s IH]; simpl; [reflexivity |].
  intros [Hc Hs]%andb_true_iff.
  rewrite (char_differs isDigit "." c eq_refl Hc).
  rewrite (char_differs isDigit ":" c eq_refl Hc).
  rewrite (char_differs isDigit "%" c eq_refl Hc).
  auto.
Qed.

Lemma ParseIP_quad a b c d :
  octet a -> octet b -> octet c -> octet d ->
  ParseIP (ipv4_literal a b c d) = Some (v4InV6Prefix ++ [a; b; c; d]).
Proof.
  intros Oa Ob Oc Od. unfold ParseIP, ParseAddr.
  pose proof (dec_is_dec a (proj1 Oa)) as Ha.
  pose proof (dec_is_dec b (proj1 Ob)) as Hb.
  pose proof (dec_is_dec c (proj1 Oc)) as Hc.
  pose proof (dec_is_dec d (proj1 Od)) as Hd.
  unfold ipv4_literal at 2. simpl String.append.
  rewrite ParseAddr_scan_digits by (eapply is_dec_digits; eauto).
  unfold parseIPv4, ipv4_literal.
  by rewrite (parseIPv4Fields_quad a b c d).
Qed.

Lemma To4_mapped a b c d :
  To4 (v4InV6Prefix ++ [a; b; c; d]) = Some [a; b; c; d].
Proof. reflexivity. Qed.

(** *** strconv.Atoi *)

Lemma atoi_loop_digits n s :
  is_dec n s -> forall rest, atoi_loop (s +:+ rest) 0 = atoi_loop rest n.
Proof.
  assert (Hch : forall d, 0 <= d <= 9 ->
            uint8 (byte_of_ascii (digit_char d) - 48) = d).
  { intros d Hd. rewrite (byte_of_digit_char d Hd). unfold uint8.
    replace (48 + d - 48) with d by lia. apply Z.mod_small. lia. }
  induction 1 as [d Hd | n s d Hn Hs IH Hd]; intros rest.
  - simpl. rewrite (Hch d Hd).
    destruct (Z.ltb_spec 9 d); [lia | reflexivity].
  - rewrite str_app_assoc, IH. simpl. rewrite (Hch d Hd).
    destruct (Z.ltb_spec 9 d); [lia | reflexivity].
Qed.

Lemma Atoi_dec n :
  0 <= n < 10 ^ 18 -> Atoi (dec n) = (n, true).
Proof.
  intros Hn. pose proof (dec_is_dec n (proj1 Hn)) as Hd.
  pose proof (is_dec_length n (dec n) 17 Hd (proj2 Hn)) as Hlen.
  destruct (is_dec_head _ _ Hd) as (c & s' & E & Hc).
  unfold Atoi.
  assert (hasSign (dec n) = false) as ->.
  { rewrite E. simpl.
    rewrite (char_differs isDigit "-" c eq_refl Hc).
    by rewrite (char_differs isDigit "+" c eq_refl Hc). }
  assert (isNeg (dec n) = false) as ->.
  { rewrite E. simpl. by rewrite (char_differs isDigit "-" c eq_refl Hc). }
  assert (isEmpty (dec n) = false) as -> by (by rewrite E).
  rewrite <- (str_app_nil_r (dec n)) at 3.
  rewrite (atoi_loop_digits n (dec n) Hd). simpl atoi_loop.
  destruct (Nat.ltb_spec 0 (String.length (dec n))) as [_ | Hz];
    [| rewrite E in Hz; simpl in Hz; lia].
  destruct (Nat.ltb_spec (String.length (dec n)) 19); [reflexivity | lia].
Qed.

(** *** net.SplitHostPort *)

Lemma SplitHostPort_host_port h p :
  str_forall hostChar h = true ->
  str_forall isDigit p = true ->
  SplitHostPort (h +:+ String ":" p) = Ok (h, p).
Proof.
  intros Hh Hp. unfold SplitHostPort.
  rewrite LastIndexByteString_sep by (by apply digits_lack).
  assert (str_at (h +:+ String ":" p) 0 <> Some "["%char) as Hb.
  { destruct h as [|c h]; simpl; [discriminate |].
    simpl in Hh. apply andb_true_iff in Hh as [Hc _].
    intros [= ->]. discriminate. }
  rewrite bool_decide_eq_false_2 by exact Hb.
  rewrite str_take_app.
  rewrite IndexByteString_absent by (by apply hostChars_lack).
  unfold SplitHostPort_tail. rewrite !str_drop_0.
  rewrite !IndexByteString_absent.
  - by rewrite str_drop_sep.
  - rewrite str_forall_app. simpl.
    rewrite (hostChars_lack "]" h eq_refl Hh).
    by rewrite (digits_lack "]" p eq_refl Hp).
  - rewrite str_forall_app. simpl.
    rewrite (hostChars_lack "[" h eq_refl Hh).
    by rewrite (digits_lack "[" p eq_refl Hp).
Qed.

Lemma SplitHostPort_no_colon h :
  str_forall (fun a => negb (Ascii.eqb a ":")) h = true ->
  SplitHostPort h = Err missingPort.
Proof.
  intros Hh. unfold SplitHostPort.
  by rewrite LastIndexByteString_absent.
Qed.

Lemma ipv4_literal_hostChars a b c d :
  octet a -> octet b -> octet c -> octet d ->
  str_forall hostChar (ipv4_literal a b c d) = true.
Proof.
  intros Oa Ob Oc Od. unfold ipv4_literal.
  rewrite !str_forall_app. simpl.
  rewrite !digits_hostChars; [reflexivity | ..];
    eapply is_dec_digits, dec_is_dec; unfold octet in *; lia.
Qed.

End ParseLiterals.

(** ** Destination identifier *)

Section DestAddr.

Lemma PutUint16_dest a b c d v :
  0 <= v < 65536 ->
  PutUint16 (copy (make 6) [a; b; c; d]) 4 v
  = [a; b; c; d; v / 256; v mod 256].
Proof.
  intros Hv. unfold PutUint16, copy, make. simpl.
  rewrite Z.shiftr_div_pow2 by lia. change (2 ^ 8) with 256.
  unfold uint8. rewrite (Z.mod_small (v / 256)); [reflexivity |].
  split; [apply Z.div_pos; lia | apply Z.div_lt_upper_bound; lia].
Qed.

Lemma httpProxyVaildAddr_port a b c d p :
  octet a -> octet b -> octet c -> octet d -> 0 <= p < 65536 ->
  httpProxyVaildAddr (ipv4_literal a b c d +:+ ":" +:+ dec p)
  = Ok ([a; b; c; d], p).
Proof.
  intros Oa Ob Oc Od Hp. unfold httpProxyVaildAddr.
  change (":" +:+ dec p) with (String ":" (dec p)).
  rewrite SplitHostPort_host_port.
  - rewrite ParseIP_quad, To4_mapped by done.
    rewrite Atoi_dec by lia. unfold uint16. by rewrite Z.mod_small.
  - by apply ipv4_literal_hostChars.
  - eapply is_dec_digits, dec_is_dec. lia.
Qed.

Lemma httpProxyVaildAddr_no_port a b c d :
  octet a -> octet b -> octet c -> octet d ->
  httpProxyVaildAddr (ipv4_literal a b c d) = Ok ([a; b; c; d], 80).
Proof.
  intros Oa Ob Oc Od. unfold httpProxyVaildAddr.
  rewrite SplitHostPort_no_colon.
  - by rewrite ParseIP_quad, To4_mapped.
  - apply hostChars_lack; [reflexivity |]. by apply ipv4_literal_hostChars.
Qed.

(** C5. For every IPv4 literal [a.b.c.d] with an explicit port [p], the
    destination identifier computed by [genDestAddr] is the four address
    bytes followed by the port in two bytes, big-endian; without a port
    the port is 80. *)
Theorem genDestAddr_ipv4 a b c d p :
  octet a -> octet b -> octet c -> octet d -> 0 <= p < 65536 ->
  genDestAddr (ipv4_literal a b c d +:+ ":" +:+ dec p)
    = [a; b; c; d; p / 256; p mod 256]
  /\ genDestAddr (ipv4_literal a b c d) = [a; b; c; d; 0; 80].
Proof.
  intros Oa Ob Oc Od Hp. unfold genDestAddr. split.
  - rewrite httpProxyVaildAddr_port by done. by apply PutUint16_dest.
  - rewrite httpProxyVaildAddr_no_port by done.
    by rewrite (PutUint16_dest a b c d 80).
Qed.

Lemma genDestAddr_ipv4_witness :
  genDestAddr "192.168.1.1:8080" = [192; 168; 1; 1; 31; 144]
  /\ genDestAddr "192.168.1.1" = [192; 168; 1; 1; 0; 80].
Proof.
  exact (genDestAddr_ipv4 192 168 1 1 8080
           ltac:(unfold octet; lia) ltac:(unfold octet; lia)
           ltac:(unfold octet; lia) ltac:(unfold octet; lia) ltac:(lia)).
Defined.

(** A port that is no number in 0..65535 is not refused: the error of
    [strconv.Atoi] is dropped and the value is cut to 16 bits. *)
Example httpProxyVaildAddr_odd_ports :
  httpProxyVaildAddr "1.2.3.4:70000" = Ok ([1; 2; 3; 4], 4464)
  /\ httpProxyVaildAddr "1.2.3.4:http" = Ok ([1; 2; 3; 4], 0)
  /\ httpProxyVaildAddr "1.2.3.4:" = Ok ([1; 2; 3; 4], 0)
  /\ httpProxyVaildAddr "1.2.3.4:-1" = Ok ([1; 2; 3; 4], 65535).
Proof. vm_compute. by repeat split. Qed.

End DestAddr.

(** ** Source identifier *)

Section SourceAddr.

Lemma PutUint16_make18 v :
  PutUint16 (make 18) 0 v =
  [uint8 (Z.shiftr v 8); uint8 v] ++ replicate 16 0.
Proof. reflexivity. Qed.

Lemma uint16_bytes v :
  uint8 (Z.shiftr (uint16 v) 8) = uint16 v / 256
  /\ uint8 (uint16 v) = uint16 v mod 256.
Proof.
  unfold uint8, uint16. pose proof (Z.mod_pos_bound v 65536 ltac:(lia)) as Hb.
  split; [| reflexivity].
  rewrite Z.shiftr_div_pow2 by lia. change (2 ^ 8) with 256.
  apply Z.mod_small.
  split; [apply Z.div_pos; lia | apply Z.div_lt_upper_bound; lia].
Qed.

Lemma tcpAddr2Bytes_padded (addr : TCPAddr) :
  let p := uint16 (tcpPort addr) in
  tcpAddr2Bytes addr
  = [p / 256; p mod 256] ++ take 16 (tcpIP addr)
    ++ replicate (16 - length (tcpIP addr)) 0.
Proof.
  intros p. unfold tcpAddr2Bytes. rewrite PutUint16_make18.
  destruct (uint16_bytes (tcpPort addr)) as [-> ->]. fold p.
  unfold copy. change (drop 2 _) with (replicate 16 0).
  rewrite length_replicate, drop_replicate. reflexivity.
Qed.

Lemma tcpAddr2Bytes_length (addr : TCPAddr) :
  length (tcpAddr2Bytes addr) = 18%nat.
Proof.
  rewrite tcpAddr2Bytes_padded. simpl.
  rewrite length_app, length_take, length_replicate. lia.
Qed.

(** C7, as the code has it. The source identifier is 18 bytes long: the
    port (modulo 2^16) in two bytes, big-endian, followed by the first 16
    bytes of the IP slice of the endpoint, padded with zero bytes on the
    right. A 16-byte IP is carried as it is; a 4-byte IP is carried as its
    four bytes followed by twelve zero bytes. *)
Theorem tcpAddr2Bytes_layout (addr : TCPAddr) :
  let p := uint16 (tcpPort addr) in
  let ip := tcpIP addr in
  tcpAddr2Bytes addr
    = [p / 256; p mod 256] ++ take 16 ip ++ replicate (16 - length ip) 0
  /\ length (tcpAddr2Bytes addr) = 18%nat
  /\ (length ip = 16%nat -> tcpAddr2Bytes addr = [p / 256; p mod 256] ++ ip)
  /\ (forall a b c d, ip = [a; b; c; d] ->
      tcpAddr2Bytes addr = [p / 256; p mod 256] ++ [a; b; c; d] ++ replicate 12 0).
Proof.
  intros p ip. split; [apply tcpAddr2Bytes_padded |].
  split; [apply tcpAddr2Bytes_length |].
  rewrite tcpAddr2Bytes_padded. fold p ip. split.
  - intros Hl. rewrite Hl, take_ge by lia. simpl. by rewrite app_nil_r.
  - intros a b c d ->. reflexivity.
Qed.

(** C7, as the specification states it, fails on an IPv4 endpoint whose address is
    a 4-byte slice: the 16 bytes after the port are not the 16-byte form
    of the address. *)
Lemma tcpAddr2Bytes_not_To16 :
  let addr := {| tcpIP := [192; 168; 1; 1]; tcpPort := 8080 |} in
  To16 (tcpIP addr) = Some [0;0;0;0;0;0;0;0;0;0;255;255;192;168;1;1]
  /\ tcpAddr2Bytes addr
     = [31; 144; 192; 168; 1; 1; 0;0;0;0;0;0;0;0;0;0;0;0]
  /\ tcpAddr2Bytes addr
     <> [31; 144] ++ [0;0;0;0;0;0;0;0;0;0;255;255;192;168;1;1].
Proof. repeat split. discriminate. Qed.

End SourceAddr.

(** ** Inbound frames *)

Section Dispatch.

Lemma slice_frame src payload extra :
  length src = 18%nat ->
  slice_to (of_list (src ++ payload) extra) 18
    = Done {| arr := (src ++ payload) ++ extra; len := 18 |}
  /\ slice_from (of_list (src ++ payload) extra) 18
    = Done {| arr := payload ++ extra; len := length payload |}.
Proof.
  intros Hs. unfold slice_to, slice_from, of_list, cap. cbn [arr len]. split.
  - destruct (Nat.leb_spec 18 (length ((src ++ payload) ++ extra)));
      [reflexivity |]. rewrite !length_app in *. lia.
  - destruct (Nat.leb_spec 18 (length (src ++ payload)));
      [| rewrite length_app in *; lia].
    f_equal. f_equal.
    + rewrite <- app_assoc, <- Hs. by rewrite drop_app_length.
    + rewrite length_app. lia.
Qed.

(** C8. A frame is the 18 bytes of the source identifier followed by the
    payload. Without a registry entry for the device and the source
    identifier, [handleHttpProxyResp] changes nothing and does not fail,
    whatever the payload; with an entry and an empty payload it closes the
    connection; with an entry and a payload it writes the payload to the
    connection, as it is. *)
Theorem handleHttpProxyResp_dispatch devid src payload extra w :
  length src = 18%nat ->
  let resp := {| resp_data := of_list (src ++ payload) extra;
                 resp_dev := devid |} in
  (registry_lookup devid src w = None ->
     handleHttpProxyResp resp w = Done w)
  /\ (forall c, registry_lookup devid src w = Some c -> payload = [] ->
        handleHttpProxyResp resp w = Done (conn_op c OpClose w))
  /\ (forall c, registry_lookup devid src w = Some c -> payload <> [] ->
        handleHttpProxyResp resp w = Done (conn_op c (OpWrite payload) w)).
Proof.
  intros Hs resp. unfold handleHttpProxyResp, registry_lookup. subst resp.
  cbn [resp_data resp_dev].
  destruct (slice_frame src payload extra Hs) as [-> ->].
  assert (Ea : elems {| arr := (src ++ payload) ++ extra; len := 18 |} = src).
  { unfold elems. simpl arr. simpl len. rewrite <- app_assoc, <- Hs.
    by rewrite take_app_length. }
  assert (Ep : elems {| arr := payload ++ extra; len := length payload |}
               = payload).
  { unfold elems. simpl arr. simpl len. by rewrite take_app_length. }
  rewrite Ea, Ep. cbn [len].
  destruct (httpProxyCons w !! devid) as [tbl|]; [| by repeat split].
  destruct (tbl !! src) as [c0|]; repeat split; try done.
  - intros c [= <-] ->. reflexivity.
  - intros c [= <-] Hp. destruct payload; [done | reflexivity].
Qed.

Lemma handleHttpProxyResp_dispatch_witness :
  let w := registry_store "dev1" (replicate 18 7) 5%nat emptyWorld in
  let resp p := {| resp_data := of_list (replicate 18 7 ++ p) [];
                   resp_dev := "dev1" |} in
  handleHttpProxyResp (resp [1; 2]) emptyWorld = Done emptyWorld
  /\ handleHttpProxyResp (resp []) w = Done (conn_op 5%nat OpClose w)
  /\ handleHttpProxyResp (resp [1; 2]) w = Done (conn_op 5%nat (OpWrite [1; 2]) w).
Proof.
  intros w resp.
  pose proof (handleHttpProxyResp_dispatch "dev1" (replicate 18 7) [1; 2] []
                emptyWorld eq_refl) as (H1 & _ & _).
  pose proof (handleHttpProxyResp_dispatch "dev1" (replicate 18 7) [] []
                w eq_refl) as (_ & H2 & _).
  pose proof (handleHttpProxyResp_dispatch "dev1" (replicate 18 7) [1; 2] []
                w eq_refl) as (_ & _ & H3).
  split; [apply H1; reflexivity |].
  split; [apply (H2 5%nat); [vm_compute|]; reflexivity |].
  apply (H3 5%nat); [vm_compute; reflexivity | discriminate].
Defined.

(** C10. [handleHttpProxyResp] takes the first 18 bytes of the frame off
    without looking at its length: on a frame shorter than 18 bytes one of
    the two slice expressions [data[:18]] and [data[18:]] is out of range
    and the function panics; on any longer frame it returns. So it is
    total only for frames of at least 18 bytes. *)
Theorem handleHttpProxyResp_short_frame_panics resp w :
  (len (resp_data resp) <= cap (resp_data resp))%nat ->
  ((len (resp_data resp) < 18)%nat ->
     handleHttpProxyResp resp w = Panic "slice bounds out of range")
  /\ ((18 <= len (resp_data resp))%nat ->
     exists w', handleHttpProxyResp resp w = Done w').
Proof.
  intros Hwf. unfold handleHttpProxyResp, slice_to, slice_from. split.
  - intros Hlt.
    destruct (Nat.leb_spec 18 (cap (resp_data resp))); [| reflexivity].
    destruct (Nat.leb_spec 18 (len (resp_data resp))); [lia | reflexivity].
  - intros Hge.
    destruct (Nat.leb_spec 18 (cap (resp_data resp))); [| lia].
    destruct (Nat.leb_spec 18 (len (resp_data resp))); [| lia].
    destruct (httpProxyCons w !! resp_dev resp) as [tbl|]; [| eauto].
    destruct (tbl !! _); [| eauto].
    destruct (_ =? 0)%nat; eauto.
Qed.

Lemma handleHttpProxyResp_short_frame_panics_witness :
  handleHttpProxyResp
    {| resp_data := of_list [1; 2; 3] []; resp_dev := "dev1" |} emptyWorld
  = Panic "slice bounds out of range".
Proof.
  apply (handleHttpProxyResp_short_frame_panics
           {| resp_data := of_list [1; 2; 3] []; resp_dev := "dev1" |}
           emptyWorld); vm_compute; lia.
Defined.

End Dispatch.

(** ** The redirect handler and the session registry *)

Section RedirectFacts.

Variable url_Parse : string -> option URL.

(** What [renew_session] leaves behind: the new session, with an open
    channel, stored last. *)
Lemma renew_session_stores old sid w w1 :
  renew_session old sid w = Done w1 ->
  exists ch,
    httpProxySessions w1 !! sid = Some ch
    /\ chans w1 !! ch = Some false
    /\ exists l, sessLog w1 = l ++ [SessStore sid ch].
Proof.
  unfold renew_session. intros H.
  match type of H with
  | match ?inv with _ => _ end = _ => destruct inv as [w'|msg]; [| done]
  end.
  injection H as <-. exists (length (chans w')). cbn. split; [| split].
  - apply lookup_insert_eq.
  - rewrite lookup_app_r by lia. by rewrite Nat.sub_diag.
  - eexists. reflexivity.
Qed.

(** With the cookie of a registered session whose channel is open, the
    session part does these four things, in this order. *)
Lemma renew_session_registered old_sid ch sid w :
  httpProxySessions w !! old_sid = Some ch ->
  chans w !! ch = Some false ->
  exists w2,
    renew_session (Some old_sid) sid w = Done w2
    /\ sessLog w2 = sessLog w ++ [SessClose ch; SessDelete old_sid;
                                  SessMake (length (chans w));
                                  SessStore sid (length (chans w))]
    /\ is_closed ch w2 = true
    /\ (old_sid <> sid -> httpProxySessions w2 !! old_sid = None)
    /\ httpProxySessions w2 !! sid = Some (length (chans w)).
Proof.
  intros Hs Hc. unfold renew_session, close_chan. rewrite Hs, Hc. cbn.
  eexists. split; [reflexivity |]. cbn.
  assert (ch < length (chans w))%nat as Hlt by (by eapply lookup_lt_Some).
  repeat split.
  - rewrite <- !app_assoc. rewrite length_insert. reflexivity.
  - unfold is_closed. cbn. apply bool_decide_eq_true_2.
    rewrite lookup_app_l by (rewrite length_insert; lia).
    by apply list_lookup_insert_eq.
  - intros Hne. rewrite lookup_insert_ne by done. apply lookup_delete_eq.
  - rewrite length_insert. apply lookup_insert_eq.
Qed.

Lemma httpProxyRedirect_found br cfg c sid now w w1 resp :
  httpProxyRedirect url_Parse br cfg c sid now w = Done (w1, resp) ->
  resp_status resp = StatusFound ->
  renew_session (cookie_sid c) sid w = Done w1
  /\ Cookie_in (resp_cookies resp) "rtty-http-sid" = Some sid.
Proof.
  unfold httpProxyRedirect. intros H Hst.
  destruct (httpProxyVaildAddr _); [| by injection H as <- <-].
  destruct (url_Parse _); [| by injection H as <- <-].
  destruct (devices br !! _); [| by injection H as <- <-].
  destruct (renew_session _ _ _) as [w'|]; [| done].
  injection H as <- <-. by split.
Qed.

(** C9. Two redirects, one after the other, the second with the session
    cookie that the first one set: the second call closes the channel of
    the first session and deletes the first session from the registry, and
    only then makes the channel of the second session and stores it. *)
Theorem httpProxyRedirect_invalidates_first
    br cfg r1 r2 sid1 sid2 now1 now2 w w1 resp1 :
  httpProxyRedirect url_Parse br cfg r1 sid1 now1 w = Done (w1, resp1) ->
  resp_status resp1 = StatusFound ->
  cookie_sid r2 = Cookie_in (resp_cookies resp1) "rtty-http-sid" ->
  redirect_accepts url_Parse br r2 ->
  exists ch1 ch2 w2 resp2,
    httpProxySessions w1 !! sid1 = Some ch1
    /\ is_closed ch1 w1 = false
    /\ httpProxyRedirect url_Parse br cfg r2 sid2 now2 w1 = Done (w2, resp2)
    /\ resp_status resp2 = StatusFound
    /\ sessLog w2 = sessLog w1 ++ [SessClose ch1; SessDelete sid1;
                                   SessMake ch2; SessStore sid2 ch2]
    /\ is_closed ch1 w2 = true
    /\ (sid1 <> sid2 -> httpProxySessions w2 !! sid1 = None)
    /\ httpProxySessions w2 !! sid2 = Some ch2.
Proof.
  intros H1 Hst Hck (Haddr & [path Hpath] & [d Hdev]).
  destruct (httpProxyRedirect_found _ _ _ _ _ _ _ _ H1 Hst) as [Hr Hsid].
  destruct (renew_session_stores _ _ _ _ Hr) as (ch1 & Hs1 & Hc1 & _).
  destruct (renew_session_registered sid1 ch1 sid2 w1 Hs1 Hc1)
    as (w2 & Hr2 & Hlog & Hcl & Hdel & Hnew).
  exists ch1, (length (chans w1)), w2. eexists.
  split; [exact Hs1 |]. split.
  { unfold is_closed. apply bool_decide_eq_false_2. by rewrite Hc1. }
  split.
  { unfold httpProxyRedirect.
    destruct (httpProxyVaildAddr (param_addr r2)); [| done].
    rewrite Hpath, Hdev, Hck, Hsid, Hr2. reflexivity. }
  by repeat split.
Qed.

End RedirectFacts.

(** A run of two redirects for the device [dev1]. *)

Lemma ex_first_redirect :
  httpProxyRedirect ex_url_Parse ex_broker ex_cfg (ex_redirect None)
    "sid-1" 1700000000 emptyWorld
  = Done (ex_after_first, ex_first_resp).
Proof. vm_compute. reflexivity. Qed.

Lemma httpProxyRedirect_invalidates_first_witness :
  exists ch1 ch2 w2 resp2,
    httpProxySessions ex_after_first !! "sid-1" = Some ch1
    /\ is_closed ch1 ex_after_first = false
    /\ httpProxyRedirect ex_url_Parse ex_broker ex_cfg
         (ex_redirect (Some "sid-1")) "sid-2" 1700000001 ex_after_first
       = Done (w2, resp2)
    /\ resp_status resp2 = StatusFound
    /\ sessLog w2 = sessLog ex_after_first
                    ++ [SessClose ch1; SessDelete "sid-1";
                        SessMake ch2; SessStore "sid-2" ch2]
    /\ is_closed ch1 w2 = true
    /\ ("sid-1" <> "sid-2" -> httpProxySessions w2 !! "sid-1" = None)
    /\ httpProxySessions w2 !! "sid-2" = Some ch2.
Proof.
  apply (httpProxyRedirect_invalidates_first ex_url_Parse ex_broker ex_cfg
           (ex_redirect None) (ex_redirect (Some "sid-1"))
           "sid-1" "sid-2" 1700000000 1700000001
           emptyWorld ex_after_first ex_first_resp).
  - exact ex_first_redirect.
  - reflexivity.
  - reflexivity.
  - repeat split; [by eexists | by eexists].
Defined.

(** ** The proxy connection handler *)

Section ProxyFacts.

Variable Request_Write : Request -> list (list Z).
Variable QueryUnescape : string -> string.

Lemma HttpProxyWriter_Write_frame rw p w :
  HttpProxyWriter_Write rw p w = push (write_frame rw p) w.
Proof.
  unfold HttpProxyWriter_Write, write_frame, scheme_flag.
  destruct (3 <? dev_proto (dev rw)); [destruct (https rw) |];
    by rewrite <- ?app_assoc.
Qed.

Lemma foldl_push {A} (g : World -> A -> World) (f : A -> httpReq)
    (l : list A) w :
  (forall w a, g w a = push (f a) w) ->
  foldl g w l
  = {| httpProxyCons := httpProxyCons w;
       httpProxySessions := httpProxySessions w; chans := chans w;
       httpReqQ := httpReqQ w ++ map f l; connLog := connLog w;
       regLog := regLog w; sessLog := sessLog w |}.
Proof.
  intros Hg. revert w. induction l as [|a l IH]; intros w; simpl.
  - rewrite app_nil_r. by destruct w.
  - rewrite IH, Hg. unfold push. simpl. by rewrite <- app_assoc.
Qed.

Lemma foldl_append {A} (g : World -> A -> World) (f : A -> list httpReq)
    (l : list A) w :
  (forall w a, g w a
     = {| httpProxyCons := httpProxyCons w;
          httpProxySessions := httpProxySessions w; chans := chans w;
          httpReqQ := httpReqQ w ++ f a; connLog := connLog w;
          regLog := regLog w; sessLog := sessLog w |}) ->
  foldl g w l
  = {| httpProxyCons := httpProxyCons w;
       httpProxySessions := httpProxySessions w; chans := chans w;
       httpReqQ := httpReqQ w ++ concat (map f l); connLog := connLog w;
       regLog := regLog w; sessLog := sessLog w |}.
Proof.
  intros Hg. revert w. induction l as [|a l IH]; intros w; simpl.
  - rewrite app_nil_r. by destruct w.
  - rewrite IH, Hg. simpl. by rewrite <- app_assoc.
Qed.

Lemma WriteRequest_frames rw req w :
  WriteRequest Request_Write rw req w
  = {| httpProxyCons := httpProxyCons w;
       httpProxySessions := httpProxySessions w; chans := chans w;
       httpReqQ := httpReqQ w ++ request_frames Request_Write rw req;
       connLog := connLog w; regLog := regLog w; sessLog := sessLog w |}.
Proof.
  unfold WriteRequest, request_frames.
  apply foldl_push. intros. apply HttpProxyWriter_Write_frame.
Qed.

Lemma relay_raw_frames devid src dst reads w :
  relay_raw devid src dst reads w
  = {| httpProxyCons := httpProxyCons w;
       httpProxySessions := httpProxySessions w; chans := chans w;
       httpReqQ := httpReqQ w ++ map (raw_frame devid src dst) reads;
       connLog := connLog w; regLog := regLog w; sessLog := sessLog w |}.
Proof.
  unfold relay_raw. apply foldl_push. intros w' b. unfold raw_frame.
  by rewrite <- app_assoc.
Qed.

Lemma relay_requests_frames rw reqs w :
  relay_requests Request_Write rw reqs w
  = {| httpProxyCons := httpProxyCons w;
       httpProxySessions := httpProxySessions w; chans := chans w;
       httpReqQ := httpReqQ w
                   ++ concat (map (request_frames Request_Write rw) reqs);
       connLog := connLog w; regLog := regLog w; sessLog := sessLog w |}.
Proof.
  unfold relay_requests. apply foldl_append. intros.
  apply WriteRequest_frames.
Qed.

(** The handler with a known device and a registered session: the world
    it returns in, and the goroutine it leaves behind. *)
Lemma doHttpProxy_bound brk c w req devid dev sid v :
  conn_first c = Some req ->
  Cookie req "rtty-http-devid" = Some devid ->
  devices brk !! devid = Some dev ->
  Cookie req "rtty-http-sid" = Some sid ->
  httpProxySessions w !! sid = Some v ->
  let hpw := proxy_writer QueryUnescape c req dev in
  let src := tcpAddr2Bytes (RemoteAddr c) in
  let relayed :=
    if String.eqb (req_upgrade req) "websocket"
    then map (raw_frame devid src (destAddr hpw)) (conn_reads c)
    else concat (map (request_frames Request_Write hpw) (conn_reqs c)) in
  doHttpProxy Request_Write QueryUnescape brk c w
  = Done
      ({| httpProxyCons :=
            <[devid := <[src := conn_id c]>
                         (default ∅ (httpProxyCons w !! devid))]>
              (httpProxyCons w);
          httpProxySessions := httpProxySessions w;
          chans := <[length (chans w) := true]> (chans w ++ [false]);
          httpReqQ := httpReqQ w ++ request_frames Request_Write hpw req
                      ++ relayed;
          connLog := connLog w ++ [(conn_id c, OpClose)];
          regLog := regLog w ++ [RegStore devid src (conn_id c)];
          sessLog := sessLog w |},
       Some {| wt_session := v; wt_exit := length (chans w);
               wt_conn := conn_id c; wt_devid := devid; wt_src := src |}).
Proof.
  intros Hreq Hdev Hbrk Hsid Hsess hpw src relayed.
  unfold doHttpProxy. rewrite Hreq, Hdev, Hbrk, Hsid.
  cbn [make_chan registry_store log_reg set_cons set_chans
       httpProxySessions httpProxyCons chans httpReqQ connLog regLog sessLog].
  rewrite Hsess.
  fold (proxy_host QueryUnescape req). fold (proxy_https req). fold src.
  rewrite WriteRequest_frames.
  assert (Hfr : forall r,
            request_frames Request_Write
              {| destAddr := genDestAddr (proxy_host QueryUnescape req);
                 srcAddr := src;
                 hostHeaderRewrite := proxy_host QueryUnescape req;
                 dev := dev; https := proxy_https req |} r
            = request_frames Request_Write hpw r) by reflexivity.
  cbn [req_upgrade set_Host].
  destruct (String.eqb (req_upgrade req) "websocket").
  - rewrite relay_raw_frames.
    unfold close_chan, set_chans, registry_store, log_reg, set_cons, conn_op.
    cbn [chans httpReqQ httpProxyCons httpProxySessions connLog regLog sessLog].
    rewrite lookup_app_r, Nat.sub_diag by lia.
    cbn [lookup list_lookup].
    cbn [chans httpReqQ httpProxyCons httpProxySessions connLog regLog sessLog].
    rewrite <- !app_assoc. reflexivity.
  - rewrite relay_requests_frames.
    unfold close_chan, set_chans, registry_store, log_reg, set_cons, conn_op.
    cbn [chans httpReqQ httpProxyCons httpProxySessions connLog regLog sessLog].
    rewrite lookup_app_r, Nat.sub_diag by lia.
    cbn [lookup list_lookup].
    cbn [chans httpReqQ httpProxyCons httpProxySessions connLog regLog sessLog].
    rewrite <- !app_assoc. reflexivity.
Qed.

(** The handler with a known device and a session id that is not
    registered: it returns with the entry stored and nothing to delete it. *)
Lemma doHttpProxy_unbound brk c w req devid dev sid :
  conn_first c = Some req ->
  Cookie req "rtty-http-devid" = Some devid ->
  devices brk !! devid = Some dev ->
  Cookie req "rtty-http-sid" = Some sid ->
  httpProxySessions w !! sid = None ->
  let src := tcpAddr2Bytes (RemoteAddr c) in
  exists w',
    doHttpProxy Request_Write QueryUnescape brk c w = Done (w', None)
    /\ registry_lookup devid src w' = Some (conn_id c)
    /\ regLog w' = regLog w ++ [RegStore devid src (conn_id c)]
    /\ httpReqQ w' = httpReqQ w
    /\ connLog w' = connLog w ++ [(conn_id c, OpClose)].
Proof.
  intros Hreq Hdev Hbrk Hsid Hsess src.
  unfold doHttpProxy. rewrite Hreq, Hdev, Hbrk, Hsid.
  cbn [make_chan registry_store log_reg set_cons set_chans
       httpProxySessions httpProxyCons chans httpReqQ connLog regLog sessLog].
  rewrite Hsess. eexists. split; [reflexivity |].
  unfold registry_lookup. cbn. fold src.
  rewrite lookup_insert_eq. rewrite lookup_insert_eq. by repeat split.
Qed.

(** Once the handler has started its goroutine, the goroutine can go on
    (the handler closed [exit]), and whichever case of its [select] it
    takes, it deletes the entry, once. *)
Lemma watcher_deletes_once brk c w req devid dev sid v w' wt k :
  conn_first c = Some req ->
  Cookie req "rtty-http-devid" = Some devid ->
  devices brk !! devid = Some dev ->
  Cookie req "rtty-http-sid" = Some sid ->
  httpProxySessions w !! sid = Some v ->
  doHttpProxy Request_Write QueryUnescape brk c w = Done (w', Some wt) ->
  let src := tcpAddr2Bytes (RemoteAddr c) in
  wake_enabled wt WakeExit w' = true
  /\ registry_lookup devid src (watcher_run wt k w') = None
  /\ regLog (watcher_run wt k w')
     = regLog w ++ [RegStore devid src (conn_id c); RegDelete devid src].
Proof.
  intros Hreq Hdev Hbrk Hsid Hsess Hrun src.
  rewrite (doHttpProxy_bound brk c w req devid dev sid v) in Hrun by done.
  injection Hrun as <- <-. fold src. split; [| split].
  - unfold wake_enabled, is_closed. cbn. apply bool_decide_eq_true_2.
    apply list_lookup_insert_eq. rewrite length_app. simpl. lia.
  - unfold watcher_run, registry_delete, registry_lookup.
    destruct k; cbn; rewrite lookup_insert_eq; cbn;
      rewrite lookup_insert_eq; apply lookup_delete_eq.
  - unfold watcher_run, registry_delete.
    destruct k; cbn; rewrite lookup_insert_eq; cbn;
      by rewrite <- app_assoc.
Qed.

(** The handler always returns: closing [exit], a channel it has just
    made, cannot panic. *)
Lemma doHttpProxy_returns brk c w :
  exists w' wt,
    doHttpProxy Request_Write QueryUnescape brk c w = Done (w', wt).
Proof.
  destruct (conn_first c) as [req|] eqn:Hreq;
    [| unfold doHttpProxy; rewrite Hreq; eauto].
  destruct (Cookie req "rtty-http-devid") as [devid|] eqn:Hdev;
    [| unfold doHttpProxy; rewrite Hreq, Hdev; eauto].
  destruct (devices brk !! devid) as [dev|] eqn:Hbrk;
    [| unfold doHttpProxy; rewrite Hreq, Hdev, Hbrk; eauto].
  destruct (Cookie req "rtty-http-sid") as [sid|] eqn:Hsid;
    [| unfold doHttpProxy; rewrite Hreq, Hdev, Hbrk, Hsid; eauto].
  destruct (httpProxySessions w !! sid) as [v|] eqn:Hsess.
  - rewrite (doHttpProxy_bound brk c w req devid dev sid v) by done. eauto.
  - destruct (doHttpProxy_unbound brk c w req devid dev sid)
      as (w' & -> & _); eauto.
Qed.

End ProxyFacts.

(** ** What the handler does when it ends *)

Section ProxyClaims.

Variable Request_Write : Request -> list (list Z).
Variable QueryUnescape : string -> string.

(** C2, as the code has it. In both relay modes, when the loop ends on a
    read error, the end of the input or a request that does not parse,
    the handler closes [exit] and the connection and queues nothing more:
    the queue holds the frames of the first request followed by one frame
    for each chunk read (upgrade) or the frames of each further request
    (no upgrade), and no frame stands for the end. *)
Theorem doHttpProxy_queues_no_close_frame brk c w req devid dev sid v :
  conn_first c = Some req ->
  Cookie req "rtty-http-devid" = Some devid ->
  devices brk !! devid = Some dev ->
  Cookie req "rtty-http-sid" = Some sid ->
  httpProxySessions w !! sid = Some v ->
  let hpw := proxy_writer QueryUnescape c req dev in
  let relayed :=
    if String.eqb (req_upgrade req) "websocket"
    then map (raw_frame devid (srcAddr hpw) (destAddr hpw)) (conn_reads c)
    else concat (map (request_frames Request_Write hpw) (conn_reqs c)) in
  exists w' wt,
    doHttpProxy Request_Write QueryUnescape brk c w = Done (w', Some wt)
    /\ httpReqQ w'
       = httpReqQ w ++ request_frames Request_Write hpw req ++ relayed
    /\ is_closed (wt_exit wt) w' = true
    /\ connLog w' = connLog w ++ [(conn_id c, OpClose)].
Proof.
  intros Hreq Hdev Hbrk Hsid Hsess hpw relayed.
  rewrite (doHttpProxy_bound Request_Write QueryUnescape
             brk c w req devid dev sid v) by done.
  eexists _, _. split; [reflexivity |]. cbn. repeat split.
  unfold is_closed. cbn. apply bool_decide_eq_true_2.
  apply list_lookup_insert_eq. rewrite length_app. simpl. lia.
Qed.

End ProxyClaims.

Lemma doHttpProxy_queues_no_close_frame_witness :
  exists w' wt,
    doHttpProxy ex_Request_Write ex_QueryUnescape ex_broker3
      (ex_conn (ex_request (ex_cookies "sid-1" ex_dest_cookie) "websocket")
         [] [[1; 2; 3]; [4]])
      ex_after_first
    = Done (w', Some wt)
    /\ httpReqQ w'
       = [ {| req_devid := "dev1"; req_data := ex_src ++ ex_dst ++ ex_get |};
           {| req_devid := "dev1"; req_data := ex_src ++ ex_dst ++ [1; 2; 3] |};
           {| req_devid := "dev1"; req_data := ex_src ++ ex_dst ++ [4] |} ]
    /\ is_closed (wt_exit wt) w' = true
    /\ connLog w' = [(1%nat, OpClose)].
Proof.
  exact (doHttpProxy_queues_no_close_frame ex_Request_Write ex_QueryUnescape
           ex_broker3
           (ex_conn (ex_request (ex_cookies "sid-1" ex_dest_cookie) "websocket")
              [] [[1; 2; 3]; [4]])
           ex_after_first _ "dev1" {| dev_id := "dev1"; dev_proto := 3 |}
           "sid-1" 0%nat eq_refl eq_refl eq_refl eq_refl eq_refl).
Defined.

(** C2, as the specification states it, fails in both modes: a connection that is
    upgraded, sends one chunk and ends, and a connection that sends one
    request and ends, leave no frame without payload in the queue. *)
Lemma doHttpProxy_close_frame_count :
  let run upgrade reads :=
    queue_after
      (doHttpProxy ex_Request_Write ex_QueryUnescape ex_broker3
         (ex_conn (ex_request (ex_cookies "sid-1" ex_dest_cookie) upgrade)
            [] reads)
         ex_after_first) in
  run "websocket" [[1; 2; 3]]
    = [ {| req_devid := "dev1"; req_data := ex_src ++ ex_dst ++ ex_get |};
        {| req_devid := "dev1"; req_data := ex_src ++ ex_dst ++ [1; 2; 3] |} ]
  /\ count_close_frames ex_src ex_dst (run "websocket" [[1; 2; 3]]) <> 1%nat
  /\ run "" []
    = [ {| req_devid := "dev1"; req_data := ex_src ++ ex_dst ++ ex_get |} ]
  /\ count_close_frames ex_src ex_dst (run "" []) <> 1%nat.
Proof. vm_compute. repeat split; discriminate. Qed.

(** C1 at a session id that is not registered. The handler stores the
    entry, finds no session and returns: the entry is still in the
    registry, nothing was deleted, and no goroutine is left to delete
    it. *)
Theorem doHttpProxy_unknown_session_leaves_entry :
  exists w',
    doHttpProxy ex_Request_Write ex_QueryUnescape ex_broker3
      (ex_conn (ex_request (ex_cookies "no-such-session" ex_dest_cookie) "")
         [] [])
      ex_after_first
    = Done (w', None)
    /\ registry_lookup "dev1" ex_src w' = Some 1%nat
    /\ regLog w' = [RegStore "dev1" ex_src 1%nat]
    /\ connLog w' = [(1%nat, OpClose)].
Proof.
  destruct (doHttpProxy_unbound ex_Request_Write ex_QueryUnescape ex_broker3
              (ex_conn (ex_request (ex_cookies "no-such-session" ex_dest_cookie) "")
                 [] [])
              ex_after_first _ "dev1" {| dev_id := "dev1"; dev_proto := 3 |}
              "no-such-session" eq_refl eq_refl eq_refl eq_refl eq_refl)
    as (w' & Hrun & Hreg & Hlog & _ & Hconn).
  exists w'. by repeat split.
Qed.

(** C3 at a connection without the cookie [rtty-http-destaddr]: the host
    is ["localhost"], which is no IPv4 address, and the request is queued
    all the same, in a frame without destination identifier. *)
Theorem doHttpProxy_invalid_dest_still_queues :
  let req := ex_request (ex_cookies "sid-1" []) "" in
  proxy_host ex_QueryUnescape req = "localhost"
  /\ isErr (httpProxyVaildAddr "localhost") = true
  /\ genDestAddr "localhost" = []
  /\ queue_after
       (doHttpProxy ex_Request_Write ex_QueryUnescape ex_broker3
          (ex_conn req [] []) ex_after_first)
     = [ {| req_devid := "dev1"; req_data := ex_src ++ ex_get |} ].
Proof. vm_compute. by repeat split. Qed.

(** C4 at a device of protocol version 4 and an upgraded connection to an
    HTTPS destination: the frame of the request starts with the scheme
    flag 1, the frame of the chunk relayed after it has no scheme flag. *)
Theorem doHttpProxy_raw_frame_lacks_flag :
  queue_after
    (doHttpProxy ex_Request_Write ex_QueryUnescape ex_broker
       (ex_conn (ex_request (ex_cookies "sid-1" ex_dest_cookie) "websocket")
          [] [[1; 2; 3]])
       ex_after_first)
  = [ {| req_devid := "dev1";
         req_data := [1] ++ ex_src ++ ex_dst ++ ex_get |};
      {| req_devid := "dev1";
         req_data := ex_src ++ ex_dst ++ [1; 2; 3] |} ].
Proof. vm_compute. reflexivity. Qed.

(** ** Destination validation: what is refused *)

Lemma str_count_absent c s :
  str_forall (fun a => negb (Ascii.eqb a c)) s = true <-> str_count c s = 0%nat.
Proof.
  induction s as [|a s IH]; simpl; [done |].
  destruct (Ascii.eqb a c); simpl; [split; [done | lia] | exact IH].
Qed.

(** *** The IPv4 parser reads digits and dots only *)

Lemma parseIPv4Fields_loop_chars s :
  forall first prevDot val pos digLen fields r,
    parseIPv4Fields_loop s first prevDot val pos digLen fields = Ok r ->
    str_forall hostChar s = true.
Proof.
  induction s as [|c s IH]; intros first prevDot val pos digLen fields r;
    simpl; [done |].
  unfold hostChar at 1. destruct (isDigit c); simpl.
  - destruct (_ && _); [done |]. destruct (255 <? _); [done |]. apply IH.
  - destruct (Ascii.eqb c "."); [| done].
    destruct (_ || _); [done |]. destruct (pos =? 3)%nat; [done |]. apply IH.
Qed.

Lemma parseIPv4Fields_chars s fields :
  parseIPv4Fields s = Ok fields -> str_forall hostChar s = true.
Proof.
  unfold parseIPv4Fields. intros H.
  destruct (parseIPv4Fields_loop s true false 0 0 0 (make 4)) eqn:E; [| done].
  by eapply parseIPv4Fields_loop_chars.
Qed.

Lemma hostChars_no_colon s :
  str_forall hostChar s = true -> str_count ":" s = 0%nat.
Proof. intros H. apply str_count_absent. by apply hostChars_lack. Qed.

(** *** The IPv6 parser needs two colons *)

Lemma parseIPv6_hex_colons s :
  forall off acc off' acc' rest,
    parseIPv6_hex s off acc = Ok (off', acc', rest) ->
    str_count ":" s = str_count ":" rest.
Proof.
  induction s as [|c s IH]; intros off acc off' acc' rest; simpl.
  - intros ?; by simplify_eq.
  - destruct (hexval c) eqn:Hc.
    + destruct (3 <? off)%nat; [done |]. destruct (65535 <? _); [done |].
      intros H. rewrite (char_differs isHex ":" c eq_refl).
      * simpl. by eapply IH.
      * unfold isHex. by rewrite Hc.
    + intros ?; by simplify_eq.
Qed.

Lemma parseIPv6_loop_colons rounds :
  forall s i ell ip rest i' ell' ip',
    parseIPv6_loop rounds s i ell ip = Ok (rest, i', ell', ip') ->
    (ell' = None -> i' <= i + 2 * str_count ":" s + 4)%nat
    /\ (ell = None -> ell' <> None -> 2 <= str_count ":" s)%nat.
Proof.
  induction rounds as [|rounds IH]; intros s i ell ip rest i' ell' ip';
    cbn [parseIPv6_loop].
  { intros ?; simplify_eq. split; [lia | congruence]. }
  destruct (16 <=? i)%nat.
  { intros ?; simplify_eq. split; [lia | congruence]. }
  destruct (parseIPv6_hex s 0 0) as [[[off acc] r] |] eqn:Hhex; [| done].
  pose proof (parseIPv6_hex_colons _ _ _ _ _ _ Hhex) as Hcol.
  destruct (off =? 0)%nat; [done |].
  destruct (bool_decide (str_at r 0 = Some "."%char)).
  { destruct (_ && _); [done |]. destruct (16 <? i + 4)%nat; [done |].
    destruct (parseIPv4Fields s); [| done].
    intros ?; simplify_eq. split; [lia | congruence]. }
  destruct r as [|c0 s1].
  { intros ?; simplify_eq. split; [lia | congruence]. }
  destruct (Ascii.eqb_spec c0 ":") as [-> |]; [| done]. simpl negb. cbv iota.
  destruct s1 as [|c1 s2]; [done |].
  rewrite Hcol. simpl str_count.
  destruct (Ascii.eqb c1 ":") eqn:Hc1.
  - destruct ell as [e|]; [done |].
    destruct (isEmpty s2).
    + intros ?; simplify_eq. split; [done | lia].
    + intros H. apply IH in H as [H1 H2]. split; [| lia].
      intros Hn. specialize (H1 Hn). clear -H1. simpl in *. lia.
  - intros H. apply IH in H as [H1 H2]. split.
    + intros Hn. specialize (H1 Hn). simpl in H1. rewrite Hc1 in H1.
      simpl in *. lia.
    + intros He He'. specialize (H2 He He'). simpl in H2.
      rewrite Hc1 in H2. simpl in *. lia.
Qed.

Lemma parseIPv6_zone s ip zone :
  parseIPv6 s = Ok (ip, zone) -> isEmpty zone = true ->
  IndexByteString s "%" = None.
Proof.
  unfold parseIPv6. destruct (IndexByteString s "%") as [iz|]; [| done].
  cbn beta iota zeta. generalize (str_drop (S iz) s). intros z H Hz.
  destruct (isEmpty z) eqn:E; [done |].
  cbn [andb] in H.
  repeat case_match; simplify_eq; congruence.
Qed.

Lemma parseIPv6_no_zone s ip :
  parseIPv6 s = Ok (ip, EmptyString) ->
  (2 <= str_count ":" s)%nat /\ str_at s 0 <> Some "["%char.
Proof.
  intros H. pose proof (parseIPv6_zone s ip _ H eq_refl) as Hz.
  unfold parseIPv6 in H. rewrite Hz in H. cbn beta iota zeta in H.
  cbn [andb] in H.
  destruct s as [|c0 s]; [done |].
  destruct (Ascii.eqb_spec c0 "[") as [-> | Hnb].
  { exfalso. cbn in H. done. }
  split; [| simpl; congruence].
  destruct (bool_decide (str_at (String c0 s) 0 = Some ":"%char)
            && bool_decide (str_at (String c0 s) 1 = Some ":"%char)) eqn:Hlead.
  - apply andb_true_iff in Hlead as [H0 H1].
    apply bool_decide_eq_true_1 in H0, H1. simpl in H0.
    injection H0 as ->. destruct s as [|c1 s]; [done |].
    simpl in H1. injection H1 as ->. simpl. lia.
  - destruct (parseIPv6_loop 8 (String c0 s) 0 None (make 16))
      as [[[[rest i] ell] ip']|] eqn:Hl; [| done].
    apply parseIPv6_loop_colons in Hl as [Hl1 Hl2].
    destruct (negb (isEmpty rest)); [done |].
    destruct (Nat.ltb_spec i 16).
    * destruct ell; [| done]. by apply Hl2.
    * destruct ell; [done |]. specialize (Hl1 eq_refl). lia.
Qed.
Lemma ParseAddr_scan_cases s rest ip zone :
  ParseAddr_scan s rest = Ok (ip, zone) ->
  (exists f, parseIPv4Fields s = Ok f /\ ip = v4InV6Prefix ++ f
             /\ zone = EmptyString)
  \/ parseIPv6 s = Ok (ip, zone).
Proof.
  induction rest as [|c rest IH]; simpl; [done |].
  destruct (Ascii.eqb c ".").
  { unfold parseIPv4. destruct (parseIPv4Fields s) as [f|]; [| done].
    intros ?; simplify_eq. left. by exists f. }
  destruct (Ascii.eqb c ":"); [by right |].
  destruct (Ascii.eqb c "%"); [done | exact IH].
Qed.

Lemma ParseAddr_scan_plain s rest :
  str_count ":" rest = 0%nat ->
  ParseAddr_scan s rest = Err "unable to parse IP"
  \/ ParseAddr_scan s rest = Err "missing IPv6 address"
  \/ ParseAddr_scan s rest
     = match parseIPv4 s with
       | Err e => Err e
       | Ok ip => Ok (ip, EmptyString)
       end.
Proof.
  induction rest as [|c rest IH]; simpl; [by left |].
  destruct (Ascii.eqb c "."); [by right; right |].
  destruct (Ascii.eqb c ":"); [done |].
  destruct (Ascii.eqb c "%"); [by right; left | exact IH].
Qed.

Lemma LastIndexByteString_none c s :
  LastIndexByteString s c = None -> str_count c s = 0%nat.
Proof.
  induction s as [|a s IH]; simpl; [done |].
  destruct (LastIndexByteString s c); [done |].
  destruct (Ascii.eqb a c); [done |]. intros _. by rewrite IH.
Qed.

Lemma LastIndexByteString_two c s :
  (2 <= str_count c s)%nat ->
  exists i j, LastIndexByteString s c = Some i
              /\ IndexByteString (str_take i s) c = Some j.
Proof.
  induction s as [|a s IH]; simpl; [lia |]. intros Hc.
  destruct (LastIndexByteString s c) as [i'|] eqn:Hl.
  - exists (S i'). simpl. destruct (Ascii.eqb a c) eqn:Ha.
    + by exists 0%nat.
    + destruct IH as (i & j & Hi & Hj); [simpl in Hc; lia |].
      simplify_eq. rewrite Hj. by exists (S j).
  - apply LastIndexByteString_none in Hl.
    destruct (Ascii.eqb a c); simpl in Hc; lia.
Qed.

Lemma SplitHostPort_two_colons s :
  (2 <= str_count ":" s)%nat ->
  str_at s 0 <> Some "["%char ->
  SplitHostPort s = Err tooManyColons.
Proof.
  intros Hc Hb. unfold SplitHostPort.
  destruct (LastIndexByteString_two ":" s Hc) as (i & j & -> & Hj).
  rewrite bool_decide_eq_false_2 by done. by rewrite Hj.
Qed.

Lemma host_part_no_colon s :
  str_count ":" s = 0%nat -> host_part s = s.
Proof.
  intros H. unfold host_part. rewrite SplitHostPort_no_colon; [done |].
  by apply str_count_absent.
Qed.

Lemma httpProxyVaildAddr_host s :
  httpProxyVaildAddr s =
  match ParseIP (host_part s) with
  | None => Err "invalid IPv4 Addr"
  | Some ip =>
      match To4 ip with
      | None => Err "invalid IPv4 Addr"
      | Some ip4 =>
          Ok (ip4, uint16 (fst (Atoi (match SplitHostPort s with
                                      | Ok (_, ports) => ports
                                      | Err _ => "80"
                                      end))))
      end
  end.
Proof.
  unfold httpProxyVaildAddr, host_part.
  destruct (SplitHostPort s) as [[ips ports]|];
    destruct (ParseIP _); try done; destruct (To4 _); try done;
    by destruct (Atoi _).
Qed.


Lemma ParseIP_not_v4_refused s ip16 :
  ParseIP s = Some ip16 -> To4 ip16 = None ->
  isErr (httpProxyVaildAddr s) = true.
Proof.
  intros Hp Ht. unfold ParseIP, ParseAddr in Hp.
  destruct (ParseAddr_scan s s) as [[ip zone]|] eqn:Hs; [| done].
  destruct zone; [| done]. cbn in Hp. simplify_eq.
  assert (host_part s = s) as Hh.
  { apply ParseAddr_scan_cases in Hs as [(f & Hf & -> & _) | H6].
    - apply host_part_no_colon, hostChars_no_colon.
      by eapply parseIPv4Fields_chars.
    - apply parseIPv6_no_zone in H6 as [H2 Hb].
      unfold host_part. by rewrite SplitHostPort_two_colons. }
  rewrite httpProxyVaildAddr_host, Hh.
  unfold ParseIP, ParseAddr. rewrite Hs. cbn [isEmpty]. by rewrite Ht.
Qed.

Lemma plain_host_refused s :
  str_count ":" (host_part s) = 0%nat ->
  str_forall hostChar (host_part s) = false ->
  isErr (httpProxyVaildAddr s) = true.
Proof.
  intros Hc Hh. rewrite httpProxyVaildAddr_host.
  assert (ParseIP (host_part s) = None) as ->; [| done].
  unfold ParseIP, ParseAddr.
  destruct (ParseAddr_scan_plain (host_part s) (host_part s) Hc)
    as [-> | [-> | ->]]; try done.
  unfold parseIPv4.
  destruct (parseIPv4Fields (host_part s)) as [f|] eqn:Hf; [| done].
  apply parseIPv4Fields_chars in Hf. congruence.
Qed.
Lemma parseIPv4Fields_loop_length s :
  forall first prevDot val pos digLen fields v p fields',
    parseIPv4Fields_loop s first prevDot val pos digLen fields
      = Ok (v, p, fields') ->
    length fields' = length fields.
Proof.
  induction s as [|c s IH]; intros first prevDot val pos digLen fields v p f';
    simpl.
  - intros ?; by simplify_eq.
  - destruct (isDigit c).
    + destruct (_ && _); [done |]. destruct (255 <? _); [done |]. apply IH.
    + destruct (Ascii.eqb c "."); [| done].
      destruct (_ || _); [done |]. destruct (pos =? 3)%nat; [done |].
      intros H. apply IH in H. by rewrite length_insert in H.
Qed.

Lemma parseIPv4Fields_length s f :
  parseIPv4Fields s = Ok f -> length f = 4%nat.
Proof.
  unfold parseIPv4Fields.
  destruct (parseIPv4Fields_loop s true false 0 0 0 (make 4))
    as [[[v p] f']|] eqn:E; [| done].
  apply parseIPv4Fields_loop_length in E.
  destruct (p <? 3)%nat; [done |]. intros ?; simplify_eq.
  by rewrite length_insert.
Qed.

Lemma parseIPv6_loop_length rounds :
  forall s i ell ip rest i' ell' ip',
    length ip = 16%nat ->
    (forall e, ell = Some e -> (e <= i)%nat) ->
    parseIPv6_loop rounds s i ell ip = Ok (rest, i', ell', ip') ->
    length ip' = 16%nat /\ (forall e, ell' = Some e -> (e <= i')%nat).
Proof.
  induction rounds as [|rounds IH]; intros s i ell ip rest i' ell' ip' Hl He;
    cbn [parseIPv6_loop].
  { intros ?; by simplify_eq. }
  destruct (16 <=? i)%nat.
  { intros ?; by simplify_eq. }
  destruct (parseIPv6_hex s 0 0) as [[[off acc] r] |]; [| done].
  destruct (off =? 0)%nat; [done |].
  destruct (bool_decide (str_at r 0 = Some "."%char)).
  { destruct (_ && _); [done |].
    destruct (Nat.ltb_spec 16 (i + 4)); [done |].
    destruct (parseIPv4Fields s) as [f|] eqn:Hf; [| done].
    apply parseIPv4Fields_length in Hf.
    intros ?; simplify_eq. split.
    - unfold store_at. rewrite !length_app, length_take, length_drop. lia.
    - intros e ->%He. lia. }
  assert (Hl' : length (<[S i:=uint8 acc]> (<[i:=uint8 (Z.shiftr acc 8)]> ip))
                = 16%nat) by (by rewrite !length_insert).
  destruct r as [|c0 s1].
  { intros ?; simplify_eq. split; [done |]. intros e ->%He. lia. }
  destruct (negb _); [done |].
  destruct s1 as [|c1 s2]; [done |].
  destruct (Ascii.eqb c1 ":").
  - destruct ell as [e|]; [done |].
    destruct (isEmpty s2).
    + intros ?; simplify_eq. split; [done |]. intros e ?; simplify_eq. lia.
    + apply IH; [done |]. intros e ?; simplify_eq. lia.
  - apply IH; [done |]. intros e ->%He. lia.
Qed.

Lemma parseIPv6_length s ip zone :
  parseIPv6 s = Ok (ip, zone) -> length ip = 16%nat.
Proof.
  unfold parseIPv6.
  destruct (match IndexByteString s "%" with
            | Some i => (str_take i s, str_drop (S i) s, true)
            | None => (s, EmptyString, false)
            end) as [[s0 z] hz].
  destruct (hz && isEmpty z); [done |].
  destruct (_ && isEmpty _); [intros ?; by simplify_eq |].
  destruct (parseIPv6_loop _ _ _ _ _) as [[[[rest i] ell] ip']|] eqn:Hl;
    [| done].
  apply parseIPv6_loop_length in Hl as [Hlen He]; [| done |].
  - destruct (negb _); [done |].
    destruct (Nat.ltb_spec i 16).
    + destruct ell as [e|]; [| done]. intros ?; simplify_eq.
      specialize (He e eq_refl). unfold expand_ellipsis.
      rewrite !length_app, length_replicate, length_drop, !length_take. lia.
    + destruct ell; [done |]. intros ?; by simplify_eq.
  - intros e. destruct (_ && _); intros ?; simplify_eq. lia.
Qed.

Lemma ParseIP_length s ip : ParseIP s = Some ip -> length ip = 16%nat.
Proof.
  unfold ParseIP, ParseAddr.
  destruct (ParseAddr_scan s s) as [[ip' zone]|] eqn:Hs; [| done].
  destruct (isEmpty zone); [| done]. intros ?; simplify_eq.
  apply ParseAddr_scan_cases in Hs as [(f & Hf & -> & _) | H6].
  - apply parseIPv4Fields_length in Hf. rewrite length_app, Hf. reflexivity.
  - by eapply parseIPv6_length.
Qed.

Lemma To4_mapped_inv ip ip4 :
  length ip = 16%nat -> To4 ip = Some ip4 ->
  ip = v4InV6Prefix ++ ip4 /\ length ip4 = 4%nat.
Proof.
  intros Hl. unfold To4. rewrite Hl. cbn [Nat.eqb andb].
  do 16 (destruct ip as [|? ip]; [discriminate Hl |]).
  destruct ip; [| discriminate Hl].
  clear Hl. cbn.
  destruct z; cbn [andb]; try done.
  destruct z0; cbn [andb]; try done.
  destruct z1; cbn [andb]; try done.
  destruct z2; cbn [andb]; try done.
  destruct z3; cbn [andb]; try done.
  destruct z4; cbn [andb]; try done.
  destruct z5; cbn [andb]; try done.
  destruct z6; cbn [andb]; try done.
  destruct z7; cbn [andb]; try done.
  destruct z8; cbn [andb]; try done.
  repeat case_bool_decide; cbn [andb]; try done; simplify_eq.
  intros ?; by simplify_eq.
Qed.

Lemma httpProxyVaildAddr_accepts_v4 s ip4 port :
  httpProxyVaildAddr s = Ok (ip4, port) ->
  ParseIP (host_part s) = Some (v4InV6Prefix ++ ip4) /\ length ip4 = 4%nat.
Proof.
  rewrite httpProxyVaildAddr_host.
  destruct (ParseIP (host_part s)) as [ip|] eqn:Hp; [| done].
  destruct (To4 ip) as [ip4'|] eqn:Ht; [| done].
  intros ?; simplify_eq.
  destruct (To4_mapped_inv ip ip4 (ParseIP_length _ _ Hp) Ht) as [-> ?].
  done.
Qed.

(** The parser on some literals. *)
Example ParseIP_examples :
  ParseIP "2001:db8::1" = Some [32;1;13;184;0;0;0;0;0;0;0;0;0;0;0;1]
  /\ ParseIP "::1" = Some [0;0;0;0;0;0;0;0;0;0;0;0;0;0;0;1]
  /\ ParseIP "::" = Some [0;0;0;0;0;0;0;0;0;0;0;0;0;0;0;0]
  /\ ParseIP "1:2:3:4:5:6:7:8" = Some [0;1;0;2;0;3;0;4;0;5;0;6;0;7;0;8]
  /\ ParseIP "1:2:3:4:5:6:7::" = Some [0;1;0;2;0;3;0;4;0;5;0;6;0;7;0;0]
  /\ ParseIP "64:ff9b::10.0.0.1" = Some [0;100;255;155;0;0;0;0;0;0;0;0;10;0;0;1]
  /\ ParseIP "10.0.0.1" = Some [0;0;0;0;0;0;0;0;0;0;255;255;10;0;0;1]
  /\ ParseIP "fe80::1%eth0" = None
  /\ ParseIP "1::2::3" = None
  /\ ParseIP "1:2:3:4:5:6:7:8:9" = None
  /\ ParseIP "12345::" = None
  /\ ParseIP "1.2.3" = None
  /\ ParseIP "1.2.3.256" = None
  /\ ParseIP "localhost" = None.
Proof. vm_compute. by repeat split. Qed.

Example SplitHostPort_examples :
  SplitHostPort "192.168.1.1:8080" = Ok ("192.168.1.1", "8080")
  /\ SplitHostPort "[::1]:80" = Ok ("::1", "80")
  /\ SplitHostPort "::1" = Err tooManyColons
  /\ SplitHostPort "localhost" = Err missingPort
  /\ SplitHostPort "[::1]" = Err missingPort
  /\ SplitHostPort "[::1" = Err "missing ']' in address"
  /\ SplitHostPort "host:" = Ok ("host", "").
Proof. vm_compute. by repeat split. Qed.

(** C6, as the code has it. Validation succeeds only if the host part of
    the input parses as an address in IPv4-mapped form, which is what the
    parser makes of a dotted quad and of an IPv6 literal of the range
    ::ffff:0:0/96. So an input is refused when its host part has no colon
    and a character that is neither a digit nor a dot (every non-numeric
    host name), and when it is a literal that parses to an address without
    a 4-byte form (every IPv6 literal outside that range). *)
Theorem httpProxyVaildAddr_refuses :
  (forall s ip4 port,
     httpProxyVaildAddr s = Ok (ip4, port) ->
     ParseIP (host_part s) = Some (v4InV6Prefix ++ ip4)
     /\ length ip4 = 4%nat)
  /\ (forall s,
        str_count ":" (host_part s) = 0%nat ->
        str_forall hostChar (host_part s) = false ->
        isErr (httpProxyVaildAddr s) = true)
  /\ (forall s ip16,
        ParseIP s = Some ip16 -> To4 ip16 = None ->
        isErr (httpProxyVaildAddr s) = true).
Proof.
  split; [| split].
  - exact httpProxyVaildAddr_accepts_v4.
  - exact plain_host_refused.
  - exact ParseIP_not_v4_refused.
Qed.

Lemma httpProxyVaildAddr_refuses_witness :
  isErr (httpProxyVaildAddr "localhost") = true
  /\ isErr (httpProxyVaildAddr "example.com:8080") = true
  /\ isErr (httpProxyVaildAddr "2001:db8::1") = true
  /\ ParseIP (host_part "192.168.1.1:8080")
     = Some (v4InV6Prefix ++ [192; 168; 1; 1]).
Proof.
  destruct httpProxyVaildAddr_refuses as (Hacc & Hname & Hv6).
  split; [apply Hname; reflexivity |].
  split; [apply Hname; reflexivity |].
  split.
  - apply (Hv6 "2001:db8::1" [32;1;13;184;0;0;0;0;0;0;0;0;0;0;0;1]);
      reflexivity.
  - apply (Hacc "192.168.1.1:8080" [192; 168; 1; 1] 8080). reflexivity.
Defined.

(** C6, as the specification states it, fails on the IPv6 literals of IPv4-mapped
    addresses: they pass validation. *)
Lemma httpProxyVaildAddr_accepts_mapped_ipv6 :
  ParseIP "::ffff:1.2.3.4" = Some [0;0;0;0;0;0;0;0;0;0;255;255;1;2;3;4]
  /\ httpProxyVaildAddr "::ffff:1.2.3.4" = Ok ([1; 2; 3; 4], 80)
  /\ isErr (httpProxyVaildAddr "::ffff:1.2.3.4") = false
  /\ httpProxyVaildAddr "::ffff:c0a8:101" = Ok ([192; 168; 1; 1], 80)
  /\ httpProxyVaildAddr "[::ffff:c0a8:101]:8080"
     = Ok ([192; 168; 1; 1], 8080).
Proof. vm_compute. by repeat split. Qed.

(** ** The layout of the frames *)

Lemma genDestAddr_length s :
  isErr (httpProxyVaildAddr s) = false -> length (genDestAddr s) = 6%nat.
Proof.
  unfold genDestAddr.
  destruct (httpProxyVaildAddr s) as [[ip4 port]|] eqn:Hv; [| done].
  intros _. apply httpProxyVaildAddr_accepts_v4 in Hv as [_ Hl].
  unfold PutUint16, copy, make. rewrite !length_insert, length_app.
  rewrite length_take, length_drop, length_replicate. lia.
Qed.

Lemma genDestAddr_invalid s :
  isErr (httpProxyVaildAddr s) = true -> genDestAddr s = [].
Proof.
  unfold genDestAddr. by destruct (httpProxyVaildAddr s) as [[ip4 port]|].
Qed.

(** What [HttpProxyWriter.Write] queues for a valid destination has the
    layout of the wire format: the scheme flag if the device has it, 18
    bytes, 6 bytes, and the payload. *)
Lemma write_frame_layout QueryUnescape c req dev p :
  isErr (httpProxyVaildAddr (proxy_host QueryUnescape req)) = false ->
  let hpw := proxy_writer QueryUnescape c req dev in
  req_data (write_frame hpw p)
    = scheme_flag dev (proxy_https req) ++ srcAddr hpw ++ destAddr hpw ++ p
  /\ length (srcAddr hpw) = 18%nat
  /\ length (destAddr hpw) = 6%nat
  /\ (3 < dev_proto dev ->
      scheme_flag dev (proxy_https req)
      = [if proxy_https req then 1 else 0])
  /\ (dev_proto dev <= 3 -> scheme_flag dev (proxy_https req) = []).
Proof.
  intros Hv hpw. split; [reflexivity |]. split.
  { apply tcpAddr2Bytes_length. }
  split; [by apply genDestAddr_length |].
  unfold scheme_flag. split; intros Hp.
  - destruct (Z.ltb_spec 3 (dev_proto dev)); [by destruct (proxy_https _) | lia].
  - destruct (Z.ltb_spec 3 (dev_proto dev)); [lia | done].
Qed.

(** * Further properties *)

(** ** The bytes of a parsed address *)

Lemma uint8_isByte x : isByte (uint8 x).
Proof. unfold isByte, uint8. apply Z.mod_pos_bound. lia. Qed.

Lemma parseIPv4Fields_loop_bytes s :
  forall first prevDot val pos digLen fields v p fields',
    Forall isByte fields ->
    parseIPv4Fields_loop s first prevDot val pos digLen fields
      = Ok (v, p, fields') ->
    Forall isByte fields'.
Proof.
  induction s as [|c s IH]; intros first prevDot val pos digLen fields v p f' Hf;
    simpl.
  - intros ?; by simplify_eq.
  - destruct (isDigit c).
    + destruct (_ && _); [done |]. destruct (255 <? _); [done |]. by apply IH.
    + destruct (Ascii.eqb c "."); [| done].
      destruct (_ || _); [done |]. destruct (pos =? 3)%nat; [done |].
      apply IH. apply Forall_insert; [done | apply uint8_isByte].
Qed.

Lemma parseIPv4Fields_bytes s f :
  parseIPv4Fields s = Ok f -> Forall isByte f.
Proof.
  unfold parseIPv4Fields.
  destruct (parseIPv4Fields_loop s true false 0 0 0 (make 4))
    as [[[v p] f']|] eqn:E; [| done].
  apply parseIPv4Fields_loop_bytes in E;
    [| by apply Forall_replicate].
  destruct (p <? 3)%nat; [done |]. intros ?; simplify_eq.
  apply Forall_insert; [done | apply uint8_isByte].
Qed.

Lemma parseIPv6_loop_bytes rounds :
  forall s i ell ip rest i' ell' ip',
    Forall isByte ip ->
    parseIPv6_loop rounds s i ell ip = Ok (rest, i', ell', ip') ->
    Forall isByte ip'.
Proof.
  induction rounds as [|rounds IH]; intros s i ell ip rest i' ell' ip' Hb;
    cbn [parseIPv6_loop].
  { intros ?; by simplify_eq. }
  destruct (16 <=? i)%nat.
  { intros ?; by simplify_eq. }
  destruct (parseIPv6_hex s 0 0) as [[[off acc] r] |]; [| done].
  destruct (off =? 0)%nat; [done |].
  destruct (bool_decide (str_at r 0 = Some "."%char)).
  { destruct (_ && _); [done |]. destruct (16 <? i + 4)%nat; [done |].
    destruct (parseIPv4Fields s) as [f|] eqn:Hf; [| done].
    apply parseIPv4Fields_bytes in Hf.
    intros ?; simplify_eq. unfold store_at.
    rewrite !Forall_app. split; [by apply Forall_take |].
    split; [done | by apply Forall_drop]. }
  assert (Hb' : Forall isByte
                  (<[S i:=uint8 acc]> (<[i:=uint8 (Z.shiftr acc 8)]> ip))).
  { repeat (apply Forall_insert; [| apply uint8_isByte]). done. }
  destruct r as [|c0 s1].
  { intros ?; by simplify_eq. }
  destruct (negb _); [done |].
  destruct s1 as [|c1 s2]; [done |].
  destruct (Ascii.eqb c1 ":").
  - destruct ell as [e|]; [done |].
    destruct (isEmpty s2); [intros ?; by simplify_eq | by apply IH].
  - by apply IH.
Qed.

Lemma parseIPv6_bytes s ip zone :
  parseIPv6 s = Ok (ip, zone) -> Forall isByte ip.
Proof.
  unfold parseIPv6.
  destruct (match IndexByteString s "%" with
            | Some i => (str_take i s, str_drop (S i) s, true)
            | None => (s, EmptyString, false)
            end) as [[s0 z] hz].
  destruct (hz && isEmpty z); [done |].
  destruct (_ && isEmpty _).
  { intros ?; simplify_eq. by apply Forall_replicate. }
  destruct (parseIPv6_loop _ _ _ _ _) as [[[[rest i] ell] ip']|] eqn:Hl;
    [| done].
  apply parseIPv6_loop_bytes in Hl; [| by apply Forall_replicate].
  destruct (negb _); [done |].
  destruct (i <? 16)%nat.
  - destruct ell as [e|]; [| done]. intros ?; simplify_eq.
    unfold expand_ellipsis. rewrite !Forall_app.
    split; [by apply Forall_take |].
    split; [by apply Forall_replicate | by apply Forall_drop, Forall_take].
  - destruct ell; [done |]. intros ?; by simplify_eq.
Qed.

Lemma ParseIP_bytes s ip : ParseIP s = Some ip -> Forall isByte ip.
Proof.
  unfold ParseIP, ParseAddr.
  destruct (ParseAddr_scan s s) as [[ip' zone]|] eqn:Hs; [| done].
  destruct (isEmpty zone); [| done]. intros ?; simplify_eq.
  apply ParseAddr_scan_cases in Hs as [(f & Hf & -> & _) | H6].
  - apply Forall_app. split.
    + unfold v4InV6Prefix, isByte. repeat constructor; lia.
    + by eapply parseIPv4Fields_bytes.
  - by eapply parseIPv6_bytes.
Qed.

(** ** The destination identifier, for every input *)

Lemma copy_make6_quad ip4 :
  length ip4 = 4%nat -> copy (make 6) ip4 = ip4 ++ [0; 0].
Proof.
  intros Hl. do 4 (destruct ip4 as [|? ip4]; [discriminate Hl |]).
  destruct ip4; [reflexivity | discriminate Hl].
Qed.

(** X1. [genDestAddr] returns nil exactly when [httpProxyVaildAddr]
    refuses the input. Otherwise it returns exactly six bytes: the four
    bytes of the validated address followed by the validated port in two
    bytes, big-endian; the port is below 2^16 and every byte is below
    256. *)
Theorem genDestAddr_cases s :
  (isErr (httpProxyVaildAddr s) = true <-> genDestAddr s = [])
  /\ (forall ip port,
        httpProxyVaildAddr s = Ok (ip, port) ->
        genDestAddr s = ip ++ [port / 256; port mod 256]
        /\ length ip = 4%nat
        /\ 0 <= port < 65536
        /\ Forall isByte (genDestAddr s)).
Proof.
  assert (Hok : forall ip port,
            httpProxyVaildAddr s = Ok (ip, port) ->
            genDestAddr s = ip ++ [port / 256; port mod 256]
            /\ length ip = 4%nat /\ 0 <= port < 65536
            /\ Forall isByte (genDestAddr s)).
  { intros ip port Hv.
    destruct (httpProxyVaildAddr_accepts_v4 s ip port Hv) as [Hp Hl].
    assert (0 <= port < 65536) as Hport.
    { rewrite httpProxyVaildAddr_host in Hv.
      destruct (ParseIP (host_part s)); [| done].
      destruct (To4 _); [| done]. simplify_eq.
      unfold uint16. apply Z.mod_pos_bound. lia. }
    assert (genDestAddr s = ip ++ [port / 256; port mod 256]) as E.
    { unfold genDestAddr. rewrite Hv.
      do 4 (destruct ip as [|? ip]; [discriminate Hl |]).
      destruct ip; [| discriminate Hl]. by apply PutUint16_dest. }
    split; [done |]. split; [done |]. split; [done |].
    rewrite E. apply Forall_app. split.
    - apply ParseIP_bytes in Hp. by apply Forall_app in Hp as [_ ?].
    - unfold isByte. repeat constructor.
      + apply Z.div_pos; lia.
      + apply Z.div_lt_upper_bound; lia.
      + apply Z.mod_pos_bound; lia.
      + apply Z.mod_pos_bound; lia. }
  split; [| exact Hok].
  destruct (httpProxyVaildAddr s) as [[ip port]|] eqn:Hv.
  - destruct (Hok ip port eq_refl) as (E & Hl & _).
    split; [done |]. rewrite E. destruct ip; [done | done].
  - split; [intros _ | done]. unfold genDestAddr. by rewrite Hv.
Qed.

Lemma genDestAddr_cases_witness :
  genDestAddr "192.168.1.1:8080" = [192; 168; 1; 1] ++ [31; 144]
  /\ genDestAddr "localhost" = [].
Proof.
  split.
  - destruct (genDestAddr_cases "192.168.1.1:8080") as [_ H].
    destruct (H [192; 168; 1; 1] 8080 eq_refl) as [E _]. exact E.
  - apply (genDestAddr_cases "localhost"). reflexivity.
Defined.

(** ** Ports that are no port *)

Lemma SplitHostPort_host_any_port h p :
  str_forall hostChar h = true ->
  str_forall (fun a => negb (Ascii.eqb a ":")) p = true ->
  str_forall (fun a => negb (Ascii.eqb a "[")) p = true ->
  str_forall (fun a => negb (Ascii.eqb a "]")) p = true ->
  SplitHostPort (h +:+ String ":" p) = Ok (h, p).
Proof.
  intros Hh Hc Hl Hr. unfold SplitHostPort.
  rewrite LastIndexByteString_sep by done.
  assert (str_at (h +:+ String ":" p) 0 <> Some "["%char) as Hb.
  { destruct h as [|c h]; simpl; [discriminate |].
    simpl in Hh. apply andb_true_iff in Hh as [Hc0 _].
    intros [= ->]. discriminate. }
  rewrite bool_decide_eq_false_2 by exact Hb.
  rewrite str_take_app.
  rewrite IndexByteString_absent by (by apply hostChars_lack).
  unfold SplitHostPort_tail. rewrite !str_drop_0.
  rewrite !IndexByteString_absent.
  - by rewrite str_drop_sep.
  - rewrite str_forall_app. simpl.
    by rewrite (hostChars_lack "]" h eq_refl Hh), Hr.
  - rewrite str_forall_app. simpl.
    by rewrite (hostChars_lack "[" h eq_refl Hh), Hl.
Qed.

(** X2. A numeric port is never refused for its size: for every IPv4
    literal and every decimal port below 10^18 the validated port is the
    number modulo 2^16. *)
Theorem httpProxyVaildAddr_port_wraps a b c d p :
  octet a -> octet b -> octet c -> octet d -> 0 <= p < 10 ^ 18 ->
  httpProxyVaildAddr (ipv4_literal a b c d +:+ ":" +:+ dec p)
  = Ok ([a; b; c; d], p mod 65536).
Proof.
  intros Oa Ob Oc Od Hp. unfold httpProxyVaildAddr.
  change (":" +:+ dec p) with (String ":" (dec p)).
  rewrite SplitHostPort_host_port.
  - rewrite ParseIP_quad, To4_mapped by done.
    by rewrite Atoi_dec.
  - by apply ipv4_literal_hostChars.
  - eapply is_dec_digits, dec_is_dec. lia.
Qed.

Lemma httpProxyVaildAddr_port_wraps_witness :
  httpProxyVaildAddr "10.0.0.1:70000" = Ok ([10; 0; 0; 1], 4464).
Proof.
  apply (httpProxyVaildAddr_port_wraps 10 0 0 1 70000);
    unfold octet; lia.
Defined.

Lemma isLetter_byte c :
  isLetter c = true -> (9 <? uint8 (byte_of_ascii c - 48)) = true.
Proof.
  unfold isLetter, uint8. intros H. apply Z.ltb_lt.
  assert (65 <= byte_of_ascii c <= 122) as Hb.
  { apply orb_true_iff in H as [H | H];
      apply andb_true_iff in H as [H1 H2];
      apply Z.leb_le in H1, H2; lia. }
  rewrite Z.mod_small; lia.
Qed.

Lemma Atoi_letters ps :
  str_forall isLetter ps = true -> Atoi ps = (0, false).
Proof.
  intros Hl. unfold Atoi, ParseInt10.
  destruct ps as [|c ps]; [reflexivity |].
  simpl in Hl. apply andb_true_iff in Hl as [Hc _].
  assert (hasSign (String c ps) = false) as ->.
  { simpl. rewrite (char_differs isLetter "-" c eq_refl Hc).
    by rewrite (char_differs isLetter "+" c eq_refl Hc). }
  cbn [isEmpty atoi_loop]. rewrite (isLetter_byte c Hc).
  by destruct (_ && _).
Qed.

(** X3. A port that is not a number is not refused either: for every IPv4
    literal followed by a colon and letters only (or nothing) validation
    succeeds with port 0, since the error of [strconv.Atoi] is dropped. *)
Theorem httpProxyVaildAddr_port_letters a b c d ps :
  octet a -> octet b -> octet c -> octet d ->
  str_forall isLetter ps = true ->
  httpProxyVaildAddr (ipv4_literal a b c d +:+ ":" +:+ ps)
  = Ok ([a; b; c; d], 0).
Proof.
  intros Oa Ob Oc Od Hl. unfold httpProxyVaildAddr.
  change (":" +:+ ps) with (String ":" ps).
  rewrite SplitHostPort_host_any_port.
  - rewrite ParseIP_quad, To4_mapped by done.
    by rewrite Atoi_letters.
  - by apply ipv4_literal_hostChars.
  - revert Hl. apply str_forall_impl. intros x Hx.
    by rewrite (char_differs isLetter ":" x eq_refl Hx).
  - revert Hl. apply str_forall_impl. intros x Hx.
    by rewrite (char_differs isLetter "[" x eq_refl Hx).
  - revert Hl. apply str_forall_impl. intros x Hx.
    by rewrite (char_differs isLetter "]" x eq_refl Hx).
Qed.

Lemma httpProxyVaildAddr_port_letters_witness :
  httpProxyVaildAddr "10.0.0.1:http" = Ok ([10; 0; 0; 1], 0)
  /\ httpProxyVaildAddr "10.0.0.1:" = Ok ([10; 0; 0; 1], 0).
Proof.
  split.
  - apply (httpProxyVaildAddr_port_letters 10 0 0 1 "http");
      (unfold octet; lia) || reflexivity.
  - apply (httpProxyVaildAddr_port_letters 10 0 0 1 "");
      (unfold octet; lia) || reflexivity.
Defined.

(** ** The source identifier as a key *)

(** X4. The source identifier determines the endpoint: two endpoints
    whose IP slices have the same length, at most 16, and whose ports are
    below 2^16 have the same source identifier only if they are the same
    endpoint. *)
Theorem tcpAddr2Bytes_inj a1 a2 :
  length (tcpIP a1) = length (tcpIP a2) ->
  (length (tcpIP a1) <= 16)%nat ->
  0 <= tcpPort a1 < 65536 -> 0 <= tcpPort a2 < 65536 ->
  tcpAddr2Bytes a1 = tcpAddr2Bytes a2 ->
  a1 = a2.
Proof.
  intros Hl Hle Hp1 Hp2. rewrite !tcpAddr2Bytes_padded.
  unfold uint16. rewrite !Z.mod_small by lia.
  rewrite <- Hl, !take_ge by lia.
  intros H. injection H as Hd Hm Hip.
  apply app_inv_tail in Hip.
  destruct a1 as [ip1 p1], a2 as [ip2 p2]. simpl in *. f_equal; [done |].
  pose proof (Z.div_mod p1 256 ltac:(lia)).
  rewrite ?(Z.mod_small p1 65536), ?(Z.mod_small p2 65536) in Hd, Hm by lia.
  pose proof (Z.div_mod p2 256 ltac:(lia)). lia.
Qed.

Lemma tcpAddr2Bytes_inj_witness :
  {| tcpIP := [10; 0; 0; 7]; tcpPort := 51000 |}
  = {| tcpIP := [10; 0; 0; 7]; tcpPort := 51000 |}.
Proof.
  apply tcpAddr2Bytes_inj; simpl; try lia. reflexivity.
Defined.
(** ** The endpoint registry *)

(** X5. The two-level registry behaves as one map from (device, source
    identifier) to connection: a lookup after a store finds the stored
    connection (a second store for the same pair replaces the first), a
    lookup after a delete finds nothing, and neither touches any other
    pair; deleting for a device without table changes nothing. *)
Theorem registry_store_delete_lookup devid src c w :
  registry_lookup devid src (registry_store devid src c w) = Some c
  /\ registry_lookup devid src (registry_delete devid src w) = None
  /\ (forall d s, (d, s) <> (devid, src) ->
        registry_lookup d s (registry_store devid src c w)
          = registry_lookup d s w
        /\ registry_lookup d s (registry_delete devid src w)
          = registry_lookup d s w)
  /\ (httpProxyCons w !! devid = None -> registry_delete devid src w = w).
Proof.
  unfold registry_lookup, registry_store, registry_delete.
  split; [| split; [| split]].
  - cbn. by rewrite !lookup_insert_eq.
  - destruct (httpProxyCons w !! devid) as [tbl|] eqn:E; cbn.
    + rewrite lookup_insert_eq. apply lookup_delete_eq.
    + by rewrite E.
  - intros d s Hne. destruct (decide (d = devid)) as [-> | Hd].
    + assert (s <> src) as Hs by congruence.
      destruct (httpProxyCons w !! devid) as [tbl|] eqn:E; cbn;
        rewrite ?lookup_insert_eq, ?E; cbn.
      * by rewrite lookup_insert_ne, lookup_delete_ne.
      * by rewrite lookup_insert_ne.
    + destruct (httpProxyCons w !! devid) as [tbl|] eqn:E; cbn;
        by rewrite ?lookup_insert_ne.
  - by intros ->.
Qed.

Lemma registry_store_delete_lookup_witness :
  let w := registry_store "dev1" [1; 2] 7%nat emptyWorld in
  registry_lookup "dev1" [3] (registry_store "dev1" [1; 2] 8%nat w)
    = registry_lookup "dev1" [3] w
  /\ registry_lookup "dev2" [1; 2] (registry_delete "dev1" [1; 2] w)
    = registry_lookup "dev2" [1; 2] w
  /\ registry_delete "dev2" [1; 2] w = w.
Proof.
  intros w.
  destruct (registry_store_delete_lookup "dev1" [1; 2] 8%nat w)
    as (_ & _ & H1 & _).
  destruct (registry_store_delete_lookup "dev1" [1; 2] 7%nat w)
    as (_ & _ & H2 & _).
  destruct (registry_store_delete_lookup "dev2" [1; 2] 7%nat w)
    as (_ & _ & _ & H3).
  split; [apply H1; congruence |].
  split; [apply H2; congruence |].
  apply H3. reflexivity.
Defined.

(** ** Inbound frames *)

Lemma handleHttpProxyResp_reply devid src payload extra w :
  length src = 18%nat ->
  handleHttpProxyResp (reply_frame devid src payload extra) w
  = match registry_lookup devid src w with
    | None => Done w
    | Some c =>
        if (length payload =? 0)%nat then Done (conn_op c OpClose w)
        else Done (conn_op c (OpWrite payload) w)
    end.
Proof.
  intros Hs. unfold handleHttpProxyResp, registry_lookup, reply_frame.
  cbn [resp_data resp_dev].
  destruct (slice_frame src payload extra Hs) as [-> ->].
  unfold elems. cbn [arr len].
  rewrite <- app_assoc, <- Hs, take_app_length, take_app_length.
  destruct (httpProxyCons w !! devid) as [tbl|]; [| done].
  by destruct (tbl !! src).
Qed.

Lemma handleHttpProxyResp_effects resp w w' :
  handleHttpProxyResp resp w = Done w' ->
  httpProxyCons w' = httpProxyCons w
  /\ httpProxySessions w' = httpProxySessions w
  /\ chans w' = chans w
  /\ httpReqQ w' = httpReqQ w
  /\ regLog w' = regLog w
  /\ (connLog w' = connLog w
      \/ exists c op,
           connLog w' = connLog w ++ [(c, op)]
           /\ registry_lookup (resp_dev resp)
                (take 18 (arr (resp_data resp))) w = Some c).
Proof.
  unfold handleHttpProxyResp, slice_to, slice_from, registry_lookup.
  destruct (18 <=? cap (resp_data resp))%nat; [| done].
  destruct (18 <=? len (resp_data resp))%nat; [| done].
  unfold elems. cbn [arr len].
  destruct (httpProxyCons w !! resp_dev resp) as [tbl|];
    [| intros ?; simplify_eq; by repeat split; try left].
  destruct (tbl !! _) as [c|] eqn:Hc;
    [| intros ?; simplify_eq; by repeat split; try left].
  destruct (_ =? 0)%nat; intros ?; simplify_eq; cbn;
    repeat split; right; eauto.
Qed.


(** X6. A device reply changes nothing but the log of one connection:
    [handleHttpProxyResp] leaves both registries, the channels and the
    queue as they are (a close frame does not remove the entry), and it
    closes or writes to at most one connection, the one registered for
    the device and the first 18 bytes of the frame. *)
Theorem handleHttpProxyResp_footprint resp w w' :
  handleHttpProxyResp resp w = Done w' ->
  httpProxyCons w' = httpProxyCons w
  /\ httpProxySessions w' = httpProxySessions w
  /\ chans w' = chans w
  /\ httpReqQ w' = httpReqQ w
  /\ regLog w' = regLog w
  /\ (connLog w' = connLog w
      \/ exists c op,
           connLog w' = connLog w ++ [(c, op)]
           /\ registry_lookup (resp_dev resp)
                (take 18 (arr (resp_data resp))) w = Some c).
Proof. apply handleHttpProxyResp_effects. Qed.

Lemma handleHttpProxyResp_footprint_witness :
  let w := registry_store "dev1" (replicate 18 7) 5%nat emptyWorld in
  let w' := conn_op 5%nat (OpWrite [1; 2]) w in
  httpProxyCons w' = httpProxyCons w
  /\ httpProxySessions w' = httpProxySessions w
  /\ chans w' = chans w
  /\ httpReqQ w' = httpReqQ w
  /\ regLog w' = regLog w
  /\ (connLog w' = connLog w
      \/ exists c op,
           connLog w' = connLog w ++ [(c, op)]
           /\ registry_lookup "dev1" (replicate 18 7) w = Some c).
Proof.
  intros w w'.
  apply (handleHttpProxyResp_footprint
           (reply_frame "dev1" (replicate 18 7) [1; 2] []) w w').
  vm_compute. reflexivity.
Defined.
(** ** The proxy connection handler: every path *)

Section ProxyPaths.

Variable Request_Write : Request -> list (list Z).
Variable QueryUnescape : string -> string.

(** The three ways the handler can end. *)
Lemma doHttpProxy_paths brk c w :
  (doHttpProxy Request_Write QueryUnescape brk c w
     = Done (conn_op (conn_id c) OpClose w, None)
   /\ (conn_first c = None
       \/ exists req, conn_first c = Some req
          /\ (Cookie req "rtty-http-devid" = None
              \/ (exists devid, Cookie req "rtty-http-devid" = Some devid
                                /\ devices brk !! devid = None)
              \/ Cookie req "rtty-http-sid" = None)))
  \/ (exists req devid dev sid,
        conn_first c = Some req
        /\ Cookie req "rtty-http-devid" = Some devid
        /\ devices brk !! devid = Some dev
        /\ Cookie req "rtty-http-sid" = Some sid
        /\ (httpProxySessions w !! sid = None
            \/ exists v, httpProxySessions w !! sid = Some v)).
Proof.
  unfold doHttpProxy.
  destruct (conn_first c) as [req|] eqn:Hreq; [| left; eauto].
  destruct (Cookie req "rtty-http-devid") as [devid|] eqn:Hdev;
    [| left; split; [done |]; right; exists req; eauto].
  destruct (devices brk !! devid) as [dev|] eqn:Hbrk;
    [| left; split; [done |]; right; exists req; split; [done |];
       right; left; eauto].
  destruct (Cookie req "rtty-http-sid") as [sid|] eqn:Hsid;
    [| left; split; [done |]; right; exists req; eauto].
  right. exists req, devid, dev, sid. repeat split; try done.
  destruct (httpProxySessions w !! sid); eauto.
Qed.

(** X7. A connection whose first request does not parse, or lacks the
    cookie [rtty-http-devid], or names a device the broker does not know,
    or lacks the cookie [rtty-http-sid], is closed and nothing else
    happens: no registry entry, no frame, no goroutine, no byte written
    to the connection. *)
Theorem doHttpProxy_rejects brk c w :
  (conn_first c = None
   \/ exists req, conn_first c = Some req
      /\ (Cookie req "rtty-http-devid" = None
          \/ (exists devid, Cookie req "rtty-http-devid" = Some devid
                            /\ devices brk !! devid = None)
          \/ Cookie req "rtty-http-sid" = None)) ->
  doHttpProxy Request_Write QueryUnescape brk c w
  = Done (conn_op (conn_id c) OpClose w, None).
Proof.
  intros H. unfold doHttpProxy.
  destruct H as [-> | (req & -> & H)]; [done |].
  destruct H as [-> | [(devid & -> & ->) | Hsid]]; [done | done |].
  destruct (Cookie req "rtty-http-devid") as [devid|]; [| done].
  destruct (devices brk !! devid); [| done]. by rewrite Hsid.
Qed.

Lemma doHttpProxy_effects brk c w :
  exists w' wt,
    doHttpProxy Request_Write QueryUnescape brk c w = Done (w', wt)
    /\ httpProxySessions w' = httpProxySessions w
    /\ sessLog w' = sessLog w
    /\ connLog w' = connLog w ++ [(conn_id c, OpClose)]
    /\ (forall d s, s <> tcpAddr2Bytes (RemoteAddr c) ->
          registry_lookup d s w' = registry_lookup d s w)
    /\ (forall ch, (ch < length (chans w))%nat ->
          chans w' !! ch = chans w !! ch).
Proof.
  destruct (doHttpProxy_paths brk c w)
    as [[-> _] | (req & devid & dev & sid & Hreq & Hdev & Hbrk & Hsid & Hs)].
  { eexists _, _. by repeat split. }
  assert (Hother : forall d s,
            s <> tcpAddr2Bytes (RemoteAddr c) ->
            match (<[devid := <[tcpAddr2Bytes (RemoteAddr c) := conn_id c]>
                                 (default ∅ (httpProxyCons w !! devid))]>
                     (httpProxyCons w)) !! d with
            | Some tbl => tbl !! s
            | None => None
            end = registry_lookup d s w).
  { intros d s Hne. unfold registry_lookup.
    destruct (decide (d = devid)) as [-> | Hd].
    - rewrite lookup_insert_eq, lookup_insert_ne by done.
      by destruct (httpProxyCons w !! devid).
    - by rewrite lookup_insert_ne. }
  destruct Hs as [Hs | [v Hs]].
  - unfold doHttpProxy. rewrite Hreq, Hdev, Hbrk, Hsid.
    cbn [make_chan registry_store log_reg set_cons set_chans
         httpProxySessions httpProxyCons chans httpReqQ connLog regLog sessLog].
    rewrite Hs. eexists _, _. split; [reflexivity |]. cbn.
    do 3 (split; [done |]). split.
    + intros d s Hne. by apply Hother.
    + intros ch Hch. by rewrite lookup_app_l.
  - rewrite (doHttpProxy_bound Request_Write QueryUnescape
               brk c w req devid dev sid v) by done.
    eexists _, _. split; [reflexivity |]. cbn.
    do 3 (split; [done |]). split.
    + intros d s Hne. by apply Hother.
    + intros ch Hch. rewrite list_lookup_insert_ne by lia.
      by rewrite lookup_app_l.
Qed.


(** X8. Whatever the connection sends, the handler returns, it leaves
    the session registry as it is (it never makes a session), it changes
    no registry entry of another source identifier, it closes no channel
    that existed before, and all it does to the connection is close it:
    it never writes a response. *)
Theorem doHttpProxy_footprint brk c w :
  exists w' wt,
    doHttpProxy Request_Write QueryUnescape brk c w = Done (w', wt)
    /\ httpProxySessions w' = httpProxySessions w
    /\ sessLog w' = sessLog w
    /\ connLog w' = connLog w ++ [(conn_id c, OpClose)]
    /\ (forall d s, s <> tcpAddr2Bytes (RemoteAddr c) ->
          registry_lookup d s w' = registry_lookup d s w)
    /\ (forall ch, (ch < length (chans w))%nat ->
          chans w' !! ch = chans w !! ch).
Proof. apply doHttpProxy_effects. Qed.

End ProxyPaths.

Lemma doHttpProxy_rejects_witness :
  doHttpProxy ex_Request_Write ex_QueryUnescape ex_broker3
    (ex_conn (ex_request [("rtty-http-devid", "dev9");
                          ("rtty-http-sid", "sid-1")] "") [] [])
    ex_after_first
  = Done (conn_op 1%nat OpClose ex_after_first, None).
Proof.
  apply (doHttpProxy_rejects ex_Request_Write ex_QueryUnescape ex_broker3
           (ex_conn (ex_request [("rtty-http-devid", "dev9");
                                 ("rtty-http-sid", "sid-1")] "") [] [])).
  right. eexists. split; [reflexivity |]. right. left.
  exists "dev9". split; reflexivity.
Defined.


Lemma doHttpProxy_footprint_witness :
  exists w' wt,
    doHttpProxy ex_Request_Write ex_QueryUnescape ex_broker3
      (ex_conn (ex_request (ex_cookies "sid-1" ex_dest_cookie) "") [] [])
      ex_after_first = Done (w', wt)
    /\ httpProxySessions w' = httpProxySessions ex_after_first
    /\ registry_lookup "dev1" [9] w' = registry_lookup "dev1" [9] ex_after_first
    /\ chans w' !! 0%nat = chans ex_after_first !! 0%nat.
Proof.
  destruct (doHttpProxy_footprint ex_Request_Write ex_QueryUnescape ex_broker3
              (ex_conn (ex_request (ex_cookies "sid-1" ex_dest_cookie) "") [] [])
              ex_after_first) as (w' & wt & H & Hs & _ & _ & Hr & Hc).
  exists w', wt. split; [exact H |]. split; [exact Hs |].
  split; [apply Hr; discriminate | apply Hc; simpl; lia].
Defined.

(** ** The handler, its goroutine and the replies of the device *)

Section ProxyTeardown.

Variable Request_Write : Request -> list (list Z).
Variable QueryUnescape : string -> string.

Lemma count_closes_app c l1 l2 :
  count_closes c (l1 ++ l2) = (count_closes c l1 + count_closes c l2)%nat.
Proof. unfold count_closes. by rewrite filter_app, length_app. Qed.

Lemma count_closes_close c : count_closes c [(c, OpClose)] = 1%nat.
Proof.
  unfold count_closes. rewrite filter_cons_True; [done |].
  unfold is_close_of. simpl. by rewrite Nat.eqb_refl.
Qed.

Lemma registry_delete_connLog devid src w :
  connLog (registry_delete devid src w) = connLog w.
Proof. unfold registry_delete. by destruct (httpProxyCons w !! devid). Qed.

Lemma registry_delete_cons devid src w :
  httpProxyCons (registry_delete devid src w)
  = match httpProxyCons w !! devid with
    | Some tbl => <[devid := delete src tbl]> (httpProxyCons w)
    | None => httpProxyCons w
    end.
Proof. unfold registry_delete. by destruct (httpProxyCons w !! devid). Qed.

(** X9. While the entry of a bound connection is in the registry, a
    reply of its device that starts with the source identifier of the
    connection and has a payload is written to this connection, payload
    only; once the goroutine has deleted the entry, the same reply is
    dropped without a trace. *)
Theorem reply_routed_until_teardown brk c w req devid dev sid v w' wt :
  conn_first c = Some req ->
  Cookie req "rtty-http-devid" = Some devid ->
  devices brk !! devid = Some dev ->
  Cookie req "rtty-http-sid" = Some sid ->
  httpProxySessions w !! sid = Some v ->
  doHttpProxy Request_Write QueryUnescape brk c w = Done (w', Some wt) ->
  forall payload extra, payload <> [] ->
    let reply :=
      reply_frame devid (tcpAddr2Bytes (RemoteAddr c)) payload extra in
    (forall w2, httpProxyCons w2 = httpProxyCons w' ->
       handleHttpProxyResp reply w2
       = Done (conn_op (conn_id c) (OpWrite payload) w2))
    /\ (forall k w3,
          httpProxyCons w3 = httpProxyCons (watcher_run wt k w') ->
          handleHttpProxyResp reply w3 = Done w3).
Proof.
  intros Hreq Hdev Hbrk Hsid Hsess Hrun payload extra Hp reply.
  pose proof (watcher_deletes_once Request_Write QueryUnescape
                brk c w req devid dev sid v w' wt) as Hwt.
  rewrite (doHttpProxy_bound Request_Write QueryUnescape
             brk c w req devid dev sid v) in Hrun by done.
  injection Hrun as <- <-. subst reply. split.
  - intros w2 Hw2.
    rewrite handleHttpProxyResp_reply by apply tcpAddr2Bytes_length.
    unfold registry_lookup. rewrite Hw2. cbn.
    rewrite !lookup_insert_eq.
    destruct payload; [done | reflexivity].
  - intros k w3 Hw3.
    rewrite handleHttpProxyResp_reply by apply tcpAddr2Bytes_length.
    unfold registry_lookup. rewrite Hw3.
    destruct (Hwt k Hreq Hdev Hbrk Hsid Hsess) as (_ & Hnone & _).
    { by rewrite (doHttpProxy_bound Request_Write QueryUnescape
                    brk c w req devid dev sid v). }
    unfold registry_lookup in Hnone. by rewrite Hnone.
Qed.

(** X10. A bound connection is closed once when it ends by itself (the
    deferred close of the handler) and twice when its session is
    cancelled (the goroutine closes it first, the handler closes it again
    when it returns). *)
Theorem bound_connection_closes brk c w req devid dev sid v w' wt :
  conn_first c = Some req ->
  Cookie req "rtty-http-devid" = Some devid ->
  devices brk !! devid = Some dev ->
  Cookie req "rtty-http-sid" = Some sid ->
  httpProxySessions w !! sid = Some v ->
  doHttpProxy Request_Write QueryUnescape brk c w = Done (w', Some wt) ->
  count_closes (conn_id c) (connLog (watcher_run wt WakeExit w'))
    = (count_closes (conn_id c) (connLog w) + 1)%nat
  /\ count_closes (conn_id c) (connLog (watcher_run wt WakeSession w'))
    = (count_closes (conn_id c) (connLog w) + 2)%nat.
Proof.
  intros Hreq Hdev Hbrk Hsid Hsess Hrun.
  rewrite (doHttpProxy_bound Request_Write QueryUnescape
             brk c w req devid dev sid v) in Hrun by done.
  injection Hrun as <- <-. unfold watcher_run.
  rewrite !registry_delete_connLog. unfold conn_op. cbn [connLog].
  rewrite !count_closes_app, !count_closes_close. lia.
Qed.

Lemma raw_frames_stream devid src dst reads :
  let relayed := map (raw_frame devid src dst) reads in
  length relayed = length reads
  /\ Forall (fun m => req_devid m = devid
                      /\ take (length src + length dst) (req_data m)
                         = src ++ dst) relayed
  /\ concat (map (fun m => drop (length src + length dst) (req_data m))
               relayed)
     = concat reads.
Proof.
  cbn zeta. split; [by rewrite length_map |]. split.
  - apply Forall_forall. intros m (b & -> & _)%list_elem_of_fmap.
    split; [done |]. cbn.
    by rewrite app_assoc, <- length_app, take_app_length.
  - induction reads as [|b reads IH]; [done |]. cbn. rewrite IH.
    f_equal. by rewrite app_assoc, <- length_app, drop_app_length.
Qed.

(** X11. In upgrade mode the device gets the bytes of the browser in
    order, nothing lost and nothing added: after the frames of the first
    request the queue holds one frame for each chunk read, each made of
    the source identifier, the destination identifier and the chunk, so
    that the payloads put together are the bytes read. *)
Theorem upgrade_relays_stream brk c w req devid dev sid v :
  conn_first c = Some req ->
  Cookie req "rtty-http-devid" = Some devid ->
  devices brk !! devid = Some dev ->
  Cookie req "rtty-http-sid" = Some sid ->
  httpProxySessions w !! sid = Some v ->
  req_upgrade req = "websocket" ->
  let hpw := proxy_writer QueryUnescape c req dev in
  let hdr := (length (srcAddr hpw) + length (destAddr hpw))%nat in
  exists w' wt relayed,
    doHttpProxy Request_Write QueryUnescape brk c w = Done (w', wt)
    /\ httpReqQ w'
       = httpReqQ w ++ request_frames Request_Write hpw req ++ relayed
    /\ length relayed = length (conn_reads c)
    /\ Forall (fun m => req_devid m = devid
                        /\ take hdr (req_data m)
                           = srcAddr hpw ++ destAddr hpw) relayed
    /\ concat (map (fun m => drop hdr (req_data m)) relayed)
       = concat (conn_reads c).
Proof.
  intros Hreq Hdev Hbrk Hsid Hsess Hup hpw hdr.
  rewrite (doHttpProxy_bound Request_Write QueryUnescape
             brk c w req devid dev sid v) by done.
  rewrite Hup. cbn [String.eqb Ascii.eqb Bool.eqb].
  eexists _, _, _. split; [reflexivity |]. split; [reflexivity |].
  apply (raw_frames_stream devid (srcAddr hpw) (destAddr hpw)).
Qed.

End ProxyTeardown.

Lemma ex_run_eq :
  doHttpProxy ex_Request_Write ex_QueryUnescape ex_broker3 ex_upgrade_conn
    ex_after_first
  = Done (ex_run_world, Some ex_run_watcher).
Proof. vm_compute. reflexivity. Qed.

Lemma reply_routed_until_teardown_witness :
  handleHttpProxyResp (reply_frame "dev1" ex_src [5; 6] []) ex_run_world
  = Done (conn_op 1%nat (OpWrite [5; 6]) ex_run_world)
  /\ handleHttpProxyResp (reply_frame "dev1" ex_src [5; 6] [])
       (watcher_run ex_run_watcher WakeExit ex_run_world)
     = Done (watcher_run ex_run_watcher WakeExit ex_run_world).
Proof.
  destruct (reply_routed_until_teardown ex_Request_Write ex_QueryUnescape
              ex_broker3 ex_upgrade_conn ex_after_first _ "dev1"
              {| dev_id := "dev1"; dev_proto := 3 |} "sid-1" 0%nat
              ex_run_world ex_run_watcher
              eq_refl eq_refl eq_refl eq_refl eq_refl ex_run_eq
              [5; 6] [] ltac:(discriminate)) as [H1 H2].
  split; [apply H1; reflexivity | apply (H2 WakeExit); reflexivity].
Defined.

Lemma bound_connection_closes_witness :
  count_closes 1%nat (connLog (watcher_run ex_run_watcher WakeExit ex_run_world))
    = 1%nat
  /\ count_closes 1%nat
       (connLog (watcher_run ex_run_watcher WakeSession ex_run_world))
     = 2%nat.
Proof.
  exact (bound_connection_closes ex_Request_Write ex_QueryUnescape
           ex_broker3 ex_upgrade_conn ex_after_first _ "dev1"
           {| dev_id := "dev1"; dev_proto := 3 |} "sid-1" 0%nat
           ex_run_world ex_run_watcher
           eq_refl eq_refl eq_refl eq_refl eq_refl ex_run_eq).
Defined.

Lemma upgrade_relays_stream_witness :
  exists w' wt relayed,
    doHttpProxy ex_Request_Write ex_QueryUnescape ex_broker3 ex_upgrade_conn
      ex_after_first = Done (w', wt)
    /\ length relayed = 2%nat
    /\ concat (map (fun m => drop 24 (req_data m)) relayed) = [1; 2; 3; 4].
Proof.
  destruct (upgrade_relays_stream ex_Request_Write ex_QueryUnescape
              ex_broker3 ex_upgrade_conn ex_after_first _ "dev1"
              {| dev_id := "dev1"; dev_proto := 3 |} "sid-1" 0%nat
              eq_refl eq_refl eq_refl eq_refl eq_refl eq_refl)
    as (w' & wt & relayed & Hrun & _ & Hlen & _ & Hcat).
  exists w', wt, relayed. split; [exact Hrun |]. split; [exact Hlen |].
  exact Hcat.
Defined.


(** ** The redirect handler: every answer *)

Section RedirectPaths.

Variable url_Parse : string -> option URL.

Lemma httpProxyRedirect_inv br cfg c sid now w w' resp :
  httpProxyRedirect url_Parse br cfg c sid now w = Done (w', resp) ->
  (redirect_accepts url_Parse br c
   /\ renew_session (cookie_sid c) sid w = Done w'
   /\ resp_status resp = StatusFound
   /\ resp_cookies resp = [("rtty-http-sid", sid);
                           ("rtty-http-devid", param_devid c);
                           ("rtty-http-proto", param_proto c);
                           ("rtty-http-destaddr", param_addr c)])
  \/ (w' = w /\ resp_cookies resp = []
      /\ ((resp_status resp = StatusBadRequest
           /\ (isErr (httpProxyVaildAddr (param_addr c)) = true
               \/ url_Parse (param_path c) = None))
          \/ (resp_status resp = StatusNotFound
              /\ devices br !! param_devid c = None))).
Proof.
  unfold httpProxyRedirect, redirect_accepts. intros H.
  destruct (httpProxyVaildAddr _) eqn:Hv.
  2: { simplify_eq. right. repeat split. left. split; [done |]. by left. }
  destruct (url_Parse _) eqn:Hp.
  2: { simplify_eq. right. repeat split. left. split; [done |]. by right. }
  destruct (devices br !! _) eqn:Hd.
  2: { simplify_eq. right. repeat split. right. by split. }
  destruct (renew_session _ _ _) as [w1|]; [| done].
  simplify_eq. left. repeat split; eauto.
Qed.

(** X12. A redirect that is refused changes nothing: the answer is 400
    for an address that does not validate or a path that does not parse,
    404 for an unknown device, no cookie is set and the world is the same,
    so the session of the cookie presented stays registered and open. The
    session registry is only touched by an answer 302, which is only given
    for a validated address, a parsed path and a known device, together
    with the four cookies. *)
Theorem httpProxyRedirect_answers br cfg c sid now w w' resp :
  httpProxyRedirect url_Parse br cfg c sid now w = Done (w', resp) ->
  (resp_status resp = StatusFound
   /\ redirect_accepts url_Parse br c
   /\ resp_cookies resp = [("rtty-http-sid", sid);
                           ("rtty-http-devid", param_devid c);
                           ("rtty-http-proto", param_proto c);
                           ("rtty-http-destaddr", param_addr c)]
   /\ httpProxySessions w' !! sid <> None)
  \/ (w' = w /\ resp_cookies resp = []
      /\ ((resp_status resp = StatusBadRequest
           /\ (isErr (httpProxyVaildAddr (param_addr c)) = true
               \/ url_Parse (param_path c) = None))
          \/ (resp_status resp = StatusNotFound
              /\ devices br !! param_devid c = None))).
Proof.
  intros H. apply httpProxyRedirect_inv in H as [(Ha & Hr & Hs & Hc) | H];
    [left | by right].
  do 3 (split; [done |]).
  destruct (renew_session_stores _ _ _ _ Hr) as (ch & -> & _). done.
Qed.

(** *** The session registry stays in order *)

Lemma sessions_ok_fresh w sid ch :
  sessions_ok w -> httpProxySessions w !! sid = Some ch ->
  (ch < length (chans w))%nat.
Proof. intros [Hopen _] Hs. eapply lookup_lt_Some. eauto. Qed.

Lemma sessions_ok_store w sid :
  sessions_ok w ->
  sessions_ok
    (log_sess (SessStore sid (length (chans w)))
       (set_sessions (<[sid := length (chans w)]>)
          (log_sess (SessMake (length (chans w)))
             (set_chans (fun l => l ++ [false]) w)))).
Proof.
  intros Hok. pose proof Hok as [Hopen Hinj]. split; cbn.
  - intros s ch. destruct (decide (s = sid)) as [-> | Hne].
    + rewrite lookup_insert_eq. intros ?; simplify_eq.
      by rewrite lookup_app_r, Nat.sub_diag.
    + rewrite lookup_insert_ne by done. intros Hs.
      rewrite lookup_app_l by (by eapply sessions_ok_fresh). eauto.
  - intros s1 s2 ch.
    destruct (decide (s1 = sid)) as [-> | H1], (decide (s2 = sid)) as [-> | H2];
      rewrite ?lookup_insert_eq, ?lookup_insert_ne by done; try done.
    + intros ? Hs; simplify_eq.
      apply (sessions_ok_fresh w _ _ Hok) in Hs. lia.
    + intros Hs ?; simplify_eq.
      apply (sessions_ok_fresh w _ _ Hok) in Hs. lia.
    + eauto.
Qed.

Lemma sessions_ok_invalidate w old v :
  sessions_ok w -> httpProxySessions w !! old = Some v ->
  sessions_ok
    (log_sess (SessDelete old)
       (set_sessions (delete old)
          (log_sess (SessClose v) (set_chans (fun l => <[v := true]> l) w)))).
Proof.
  intros [Hopen Hinj] Hv. split; cbn.
  - intros s ch Hs. apply lookup_delete_Some in Hs as [Hne Hs].
    rewrite list_lookup_insert_ne; [eauto |].
    intros <-. apply Hne. eauto.
  - intros s1 s2 ch [_ H1]%lookup_delete_Some [_ H2]%lookup_delete_Some.
    eauto.
Qed.

Lemma renew_session_ok old sid w :
  sessions_ok w ->
  exists w', renew_session old sid w = Done w' /\ sessions_ok w'.
Proof.
  intros Hok. unfold renew_session.
  destruct old as [old|]; [destruct (httpProxySessions w !! old) as [v|] eqn:Hv |].
  - unfold close_chan. rewrite (proj1 Hok _ _ Hv).
    pose proof (sessions_ok_invalidate w old v Hok Hv) as Hok'.
    eexists. split; [reflexivity |].
    apply (sessions_ok_store _ sid) in Hok'. exact Hok'.
  - eexists. split; [reflexivity |]. by apply sessions_ok_store.
  - eexists. split; [reflexivity |]. by apply sessions_ok_store.
Qed.

(** X13. Starting from a session registry in order (every registered
    session has an open channel of its own, as in the empty world), the
    redirect handler always returns, so it never closes a closed channel,
    and leaves the registry in order; the proxy handler, its goroutine
    and the reply handler leave it in order too. *)
Theorem sessions_ok_kept :
  sessions_ok emptyWorld
  /\ (forall br cfg c sid now w,
        sessions_ok w ->
        exists w' resp,
          httpProxyRedirect url_Parse br cfg c sid now w = Done (w', resp)
          /\ sessions_ok w')
  /\ (forall Request_Write QueryUnescape brk c w,
        sessions_ok w ->
        exists w' wt,
          doHttpProxy Request_Write QueryUnescape brk c w = Done (w', wt)
          /\ sessions_ok w')
  /\ (forall wt k w, sessions_ok w -> sessions_ok (watcher_run wt k w))
  /\ (forall resp w w',
        sessions_ok w -> handleHttpProxyResp resp w = Done w' ->
        sessions_ok w').
Proof.
  split; [by split | split; [| split; [| split]]].
  - intros br cfg c sid now w Hok. unfold httpProxyRedirect.
    destruct (httpProxyVaildAddr _); [| eauto].
    destruct (url_Parse _); [| eauto].
    destruct (devices br !! _); [| eauto].
    destruct (renew_session_ok (cookie_sid c) sid w Hok) as (w' & -> & Hok').
    eauto.
  - intros RW QU brk c w [Hopen Hinj].
    destruct (doHttpProxy_effects RW QU brk c w)
      as (w' & wt & Hrun & Hs & _ & _ & _ & Hch).
    exists w', wt. split; [done |]. split.
    + intros sid ch. rewrite Hs. intros Hsid.
      rewrite Hch by (eapply lookup_lt_Some; eauto). eauto.
    + intros s1 s2 ch. rewrite Hs. eauto.
  - intros wt k w Hok. unfold watcher_run, registry_delete.
    destruct k; cbn; destruct (httpProxyCons _ !! _); exact Hok.
  - intros resp w w' Hok Hrun.
    apply handleHttpProxyResp_effects in Hrun as (_ & Hs & Hc & _).
    unfold sessions_ok. by rewrite Hs, Hc.
Qed.

End RedirectPaths.

(** ** Redirects and connections together *)

Section RedirectAndProxy.

Variable url_Parse : string -> option URL.
Variable Request_Write : Request -> list (list Z).
Variable QueryUnescape : string -> string.

Lemma renew_session_old_gone old sid w w' :
  renew_session (Some old) sid w = Done w' ->
  old <> sid ->
  httpProxySessions w' !! old = None.
Proof.
  unfold renew_session. intros H Hne.
  destruct (httpProxySessions w !! old) as [v|] eqn:Hv.
  - destruct (close_chan v w) as [w1|] eqn:Hc; [| done].
    injection H as <-.
    unfold make_chan, log_sess, set_sessions, set_chans.
    cbn [httpProxySessions]. rewrite lookup_insert_ne by done.
    apply lookup_delete_eq.
  - injection H as <-.
    unfold make_chan, log_sess, set_sessions, set_chans.
    cbn [httpProxySessions]. by rewrite lookup_insert_ne.
Qed.

(** X14. Once a redirect has replaced the session of the cookie it was
    given, that session id is of no use: whatever a connection that
    presents it sends, the handler returns without goroutine and without
    queueing a frame. *)
Theorem replaced_session_is_refused br cfg r new_sid now w w1 resp old c req :
  httpProxyRedirect url_Parse br cfg r new_sid now w = Done (w1, resp) ->
  resp_status resp = StatusFound ->
  cookie_sid r = Some old ->
  old <> new_sid ->
  conn_first c = Some req ->
  Cookie req "rtty-http-sid" = Some old ->
  exists w2,
    doHttpProxy Request_Write QueryUnescape br c w1 = Done (w2, None)
    /\ httpReqQ w2 = httpReqQ w1.
Proof.
  intros Hred Hst Hck Hne Hreq Hsid.
  apply httpProxyRedirect_inv in Hred as [(_ & Hr & _) | (_ & _ & Hbad)].
  2: { unfold StatusFound, StatusBadRequest, StatusNotFound in *.
       destruct Hbad as [[? _] | [? _]]; congruence. }
  rewrite Hck in Hr. apply renew_session_old_gone in Hr; [| done].
  destruct (doHttpProxy_paths Request_Write QueryUnescape br c w1)
    as [[-> _] | (req' & devid & dev & sid & Hreq' & Hdev & Hbrk & Hsid' & Hs)].
  { eexists. by split. }
  rewrite Hreq in Hreq'. simplify_eq.
  destruct (doHttpProxy_unbound Request_Write QueryUnescape br c w1
              req' devid dev old Hreq Hdev Hbrk Hsid Hr)
    as (w2 & Hrun & _ & _ & Hq & _).
  eauto.
Qed.

(** X15. A connection that presents the cookies of an answer 302, to the
    same broker, is bound: the handler finds the device and the new
    session, starts the goroutine on the channel of that session, and
    frames the request for the validated destination, whose identifier
    has six bytes, with the scheme of the redirect. The value of the
    destination cookie has to come back from [url.QueryUnescape] as it
    was set. *)
Theorem redirected_connection_is_bound
    br cfg r new_sid now w w1 resp c req :
  httpProxyRedirect url_Parse br cfg r new_sid now w = Done (w1, resp) ->
  resp_status resp = StatusFound ->
  conn_first c = Some req ->
  req_cookies req = resp_cookies resp ->
  QueryUnescape (param_addr r) = param_addr r ->
  exists dev ch w2 wt,
    devices br !! param_devid r = Some dev
    /\ httpProxySessions w1 !! new_sid = Some ch
    /\ doHttpProxy Request_Write QueryUnescape br c w1 = Done (w2, Some wt)
    /\ wt_session wt = ch
    /\ destAddr (proxy_writer QueryUnescape c req dev)
       = genDestAddr (param_addr r)
    /\ length (genDestAddr (param_addr r)) = 6%nat
    /\ https (proxy_writer QueryUnescape c req dev)
       = String.eqb (param_proto r) "https"
    /\ httpReqQ w2
       = httpReqQ w1
         ++ request_frames Request_Write
              (proxy_writer QueryUnescape c req dev) req
         ++ (if String.eqb (req_upgrade req) "websocket"
             then map (raw_frame (param_devid r)
                         (tcpAddr2Bytes (RemoteAddr c))
                         (genDestAddr (param_addr r))) (conn_reads c)
             else concat (map (request_frames Request_Write
                                 (proxy_writer QueryUnescape c req dev))
                            (conn_reqs c))).
Proof.
  intros Hred Hst Hreq Hck Hq.
  apply httpProxyRedirect_inv in Hred
    as [((Hv & _ & [dev Hdev]) & Hr & _ & Hc) | (_ & _ & Hbad)].
  2: { unfold StatusFound, StatusBadRequest, StatusNotFound in *.
       destruct Hbad as [[? _] | [? _]]; congruence. }
  destruct (renew_session_stores _ _ _ _ Hr) as (ch & Hs & _).
  rewrite Hc in Hck.
  assert (Cookie req "rtty-http-devid" = Some (param_devid r)) as Hcd
    by (unfold Cookie; by rewrite Hck).
  assert (Cookie req "rtty-http-sid" = Some new_sid) as Hcs
    by (unfold Cookie; by rewrite Hck).
  assert (proxy_host QueryUnescape req = param_addr r) as Hhost
    by (unfold proxy_host, Cookie; rewrite Hck; cbn; exact Hq).
  assert (proxy_https req = String.eqb (param_proto r) "https") as Hhttps
    by (unfold proxy_https, Cookie; by rewrite Hck).
  exists dev, ch. eexists _, _. split; [done |]. split; [done |].
  rewrite (doHttpProxy_bound Request_Write QueryUnescape
             br c w1 req (param_devid r) dev new_sid ch) by done.
  split; [reflexivity |]. cbn [wt_session proxy_writer destAddr https].
  rewrite Hhost. split; [done |]. split; [done |].
  split; [by apply genDestAddr_length |]. split; [done |].
  cbn [httpReqQ]. unfold proxy_writer. cbn [srcAddr destAddr].
  by rewrite Hhost.
Qed.

(** X16. A redirect that is given the cookie of the session of a bound
    connection wakes the goroutine of the connection: the channel of the
    session is closed, so the session case of the [select] can be taken,
    and taking it closes the connection and deletes its registry entry,
    while the session is gone from the registry. *)
Theorem redirect_cancels_bound_connection
    brk c w req devid dev sid v w' wt cfg r new_sid now :
  conn_first c = Some req ->
  Cookie req "rtty-http-devid" = Some devid ->
  devices brk !! devid = Some dev ->
  Cookie req "rtty-http-sid" = Some sid ->
  httpProxySessions w !! sid = Some v ->
  chans w !! v = Some false ->
  doHttpProxy Request_Write QueryUnescape brk c w = Done (w', Some wt) ->
  redirect_accepts url_Parse brk r ->
  cookie_sid r = Some sid ->
  sid <> new_sid ->
  exists w1 resp,
    httpProxyRedirect url_Parse brk cfg r new_sid now w' = Done (w1, resp)
    /\ wake_enabled wt WakeSession w1 = true
    /\ httpProxySessions w1 !! sid = None
    /\ registry_lookup devid (tcpAddr2Bytes (RemoteAddr c))
         (watcher_run wt WakeSession w1) = None
    /\ connLog (watcher_run wt WakeSession w1)
       = connLog w1 ++ [(conn_id c, OpClose)].
Proof.
  intros Hreq Hdev Hbrk Hsid Hsess Hopen Hrun (Hv & [path Hpath] & [d Hd])
    Hck Hne.
  rewrite (doHttpProxy_bound Request_Write QueryUnescape
             brk c w req devid dev sid v) in Hrun by done.
  injection Hrun as <- <-.
  assert (v < length (chans w))%nat as Hlt by (by eapply lookup_lt_Some).
  set (w' := {| httpProxyCons := _ |}).
  assert (httpProxySessions w' !! sid = Some v) as Hs' by done.
  assert (chans w' !! v = Some false) as Hc'.
  { subst w'. cbn. rewrite list_lookup_insert_ne by lia.
    by rewrite lookup_app_l. }
  destruct (renew_session_registered sid v new_sid w' Hs' Hc')
    as (w1 & Hr & _ & Hcl & Hdel & _).
  exists w1. eexists. split.
  { unfold httpProxyRedirect.
    destruct (httpProxyVaildAddr (param_addr r)); [| done].
    rewrite Hpath, Hd, Hck, Hr. reflexivity. }
  split; [exact Hcl |]. split; [by apply Hdel |].
  assert (httpProxyCons w1 = httpProxyCons w' /\ connLog w1 = connLog w')
    as [Hcons Hlog].
  { unfold renew_session, close_chan in Hr. rewrite Hs', Hc' in Hr.
    injection Hr as <-. split; reflexivity. }
  unfold watcher_run, registry_delete, registry_lookup.
  cbn [wt_conn wt_devid wt_src conn_op httpProxyCons connLog].
  rewrite Hcons. subst w'. cbn [httpProxyCons]. rewrite lookup_insert_eq.
  cbn. rewrite lookup_insert_eq. split; [apply lookup_delete_eq | done].
Qed.

End RedirectAndProxy.

Lemma ex_second_eq :
  httpProxyRedirect ex_url_Parse ex_broker ex_cfg
    (ex_redirect (Some "sid-1")) "sid-2" 1700000001 ex_after_first
  = Done (ex_second_world, ex_second_resp).
Proof. vm_compute. reflexivity. Qed.

Lemma replaced_session_is_refused_witness :
  exists w2,
    doHttpProxy ex_Request_Write ex_QueryUnescape ex_broker
      (ex_conn (ex_request (ex_cookies "sid-1" ex_dest_cookie) "") [] [])
      ex_second_world
    = Done (w2, None)
    /\ httpReqQ w2 = httpReqQ ex_second_world.
Proof.
  apply (replaced_session_is_refused ex_url_Parse ex_Request_Write
           ex_QueryUnescape ex_broker ex_cfg (ex_redirect (Some "sid-1"))
           "sid-2" 1700000001 ex_after_first ex_second_world ex_second_resp
           "sid-1"
           (ex_conn (ex_request (ex_cookies "sid-1" ex_dest_cookie) "") [] [])
           (ex_request (ex_cookies "sid-1" ex_dest_cookie) "")
           ex_second_eq eq_refl eq_refl ltac:(discriminate) eq_refl eq_refl).
Defined.

Lemma redirected_connection_is_bound_witness :
  let req := ex_request (resp_cookies ex_second_resp) "" in
  exists w2 wt,
    doHttpProxy ex_Request_Write ex_QueryUnescape ex_broker
      (ex_conn req [] []) ex_second_world
    = Done (w2, Some wt)
    /\ httpProxySessions ex_second_world !! "sid-2" = Some (wt_session wt)
    /\ length (genDestAddr "192.168.1.1:8080") = 6%nat.
Proof.
  intros req.
  destruct (redirected_connection_is_bound ex_url_Parse ex_Request_Write
              ex_QueryUnescape ex_broker ex_cfg (ex_redirect (Some "sid-1"))
              "sid-2" 1700000001 ex_after_first ex_second_world
              ex_second_resp (ex_conn req [] []) req
              ex_second_eq eq_refl eq_refl eq_refl eq_refl)
    as (dev & ch & w2 & wt & _ & Hs & Hrun & Hch & _ & Hlen & _).
  exists w2, wt. split; [exact Hrun |]. split; [by rewrite Hch |]. exact Hlen.
Defined.

Lemma redirect_cancels_bound_connection_witness :
  exists w1 resp,
    httpProxyRedirect ex_url_Parse ex_broker3 ex_cfg
      (ex_redirect (Some "sid-1")) "sid-2" 1700000001 ex_run_world
    = Done (w1, resp)
    /\ wake_enabled ex_run_watcher WakeSession w1 = true
    /\ httpProxySessions w1 !! "sid-1" = None
    /\ registry_lookup "dev1" ex_src
         (watcher_run ex_run_watcher WakeSession w1) = None
    /\ connLog (watcher_run ex_run_watcher WakeSession w1)
       = connLog w1 ++ [(1%nat, OpClose)].
Proof.
  apply (redirect_cancels_bound_connection ex_url_Parse ex_Request_Write
           ex_QueryUnescape ex_broker3 ex_upgrade_conn ex_after_first _
           "dev1" {| dev_id := "dev1"; dev_proto := 3 |} "sid-1" 0%nat
           ex_run_world ex_run_watcher ex_cfg (ex_redirect (Some "sid-1"))
           "sid-2" 1700000001
           eq_refl eq_refl eq_refl eq_refl eq_refl eq_refl ex_run_eq).
  - repeat split; [by eexists | by eexists].
  - reflexivity.
  - discriminate.
Defined.


(** ** The listener *)

Section ListenerFacts.

Import Listener.

(** X17. When [net.Listen] fails, the error is never reported by the
    check that follows it in the source: the function has already ended,
    in [log.Fatal] if a certificate and a key are configured and do not
    load, and otherwise in a panic, since it asks the nil listener for
    its address first. It never starts serving. *)
Theorem listenHttpProxy_listen_error env cfg :
  Listen env (AddrHttpProxy cfg) = None ->
  exists log,
    listenHttpProxy env cfg
    = if tls_configured cfg
         && negb (LoadX509KeyPair env (SslCert cfg) (SslKey cfg))
      then Fatal log
      else NilListenerPanic log.
Proof.
  intros Hl. unfold listenHttpProxy, tls_configured. rewrite Hl.
  destruct (if negb (isEmpty (AddrHttpProxy cfg)) then _ else _)
    as [port0 log].
  destruct (negb (isEmpty (SslCert cfg)) && negb (isEmpty (SslKey cfg))).
  - destruct (LoadX509KeyPair env _ _); cbn [negb andb]; [| eauto].
    destruct (isEmpty (SslCacert cfg)); [eauto |].
    destruct (ReadFile env _); eauto.
  - cbn [andb]. eauto.
Qed.

(** X18. When the function starts serving, the port it publishes is the
    port the listener is bound to, whatever port was configured or
    resolved. The listener is a TLS listener exactly when both a
    certificate and a key are configured; it then asks for TLS 1.2 at
    least, and it requires and verifies client certificates exactly when
    a CA file is configured and can be read: with a CA file that cannot
    be read it serves without client verification. *)
Theorem listenHttpProxy_serving env cfg s :
  listenHttpProxy env cfg = Serving s ->
  Listen env (AddrHttpProxy cfg) = Some (srv_port s)
  /\ (srv_tls s = None <-> tls_configured cfg = false)
  /\ (forall tc, srv_tls s = Some tc ->
        MinVersion tc = VersionTLS12
        /\ LoadX509KeyPair env (SslCert cfg) (SslKey cfg) = true
        /\ (RequireAndVerifyClientCert tc = true <->
            isEmpty (SslCacert cfg) = false
            /\ exists ca, ReadFile env (SslCacert cfg) = Some ca)
        /\ (forall ca, ClientCAs tc = Some ca ->
              ReadFile env (SslCacert cfg) = Some ca)).
Proof.
  unfold listenHttpProxy, tls_configured, listen_finish.
  destruct (if negb (isEmpty (AddrHttpProxy cfg)) then _ else _)
    as [port0 log].
  destruct (Listen env (AddrHttpProxy cfg)) as [bound|] eqn:Hl.
  2: { destruct (_ && _); [| done].
       destruct (negb _); [done |].
       destruct (isEmpty (SslCacert cfg)); [done |].
       by destruct (ReadFile env _). }
  destruct (negb (isEmpty (SslCert cfg)) && negb (isEmpty (SslKey cfg))).
  - destruct (LoadX509KeyPair env _ _) eqn:Hk; cbn [negb]; [| done].
    destruct (isEmpty (SslCacert cfg)) eqn:Hca.
    + intros ?; simplify_eq. cbn. split; [done |]. split; [done |].
      intros tc ?; simplify_eq. cbn. repeat split; try done.
      by intros [? _].
    + destruct (ReadFile env (SslCacert cfg)) as [ca|] eqn:Hr;
        intros ?; simplify_eq; cbn; (split; [done |]); (split; [done |]);
        intros tc ?; simplify_eq; cbn; repeat split; try done; eauto.
      * by intros [_ [? ?]].
  - intros ?; simplify_eq. cbn. split; [done |]. split; [done |]. done.
Qed.

End ListenerFacts.

Lemma listenHttpProxy_listen_error_witness :
  exists log,
    Listener.listenHttpProxy Listener.ex_env_in_use Listener.ex_cfg_tls
    = Listener.NilListenerPanic log.
Proof.
  exact (listenHttpProxy_listen_error Listener.ex_env_in_use
           Listener.ex_cfg_tls eq_refl).
Defined.

Lemma listenHttpProxy_serving_witness :
  Listener.Listen Listener.ex_env_no_ca ":5914"
    = Some (Listener.srv_port Listener.ex_started)
  /\ exists tc, Listener.srv_tls Listener.ex_started = Some tc
               /\ Listener.MinVersion tc = Listener.VersionTLS12.
Proof.
  destruct (listenHttpProxy_serving Listener.ex_env_no_ca Listener.ex_cfg_tls
              Listener.ex_started eq_refl) as (Hp & _ & Htc).
  split; [exact Hp |]. eexists. split; [reflexivity |].
  apply Htc. reflexivity.
Defined.

(** ** Pipelined requests *)

Section Pipelined.

Variable Request_Write : Request -> list (list Z).
Variable QueryUnescape : string -> string.

Lemma write_frames_stream rw chunks :
  let hdr := length (scheme_flag (dev rw) (https rw)
                     ++ srcAddr rw ++ destAddr rw) in
  Forall (fun m => req_devid m = dev_id (dev rw)
                   /\ take hdr (req_data m)
                      = scheme_flag (dev rw) (https rw)
                        ++ srcAddr rw ++ destAddr rw)
         (map (write_frame rw) chunks)
  /\ concat (map (fun m => drop hdr (req_data m))
               (map (write_frame rw) chunks))
     = concat chunks.
Proof.
  cbn zeta. split.
  - apply Forall_forall. intros m (p & -> & _)%list_elem_of_fmap.
    split; [done |]. cbn [write_frame req_data].
    rewrite !app_assoc, <- (app_assoc _ (srcAddr rw)).
    by rewrite take_app_length.
  - induction chunks as [|p chunks IH]; [done |]. cbn [map concat].
    rewrite IH. f_equal. cbn [write_frame req_data].
    rewrite !app_assoc, <- (app_assoc _ (srcAddr rw)).
    by rewrite drop_app_length.
Qed.

Lemma request_frames_stream rw reqs :
  let header := scheme_flag (dev rw) (https rw)
                ++ srcAddr rw ++ destAddr rw in
  let frames := concat (map (request_frames Request_Write rw) reqs) in
  Forall (fun m => req_devid m = dev_id (dev rw)
                   /\ take (length header) (req_data m) = header) frames
  /\ concat (map (fun m => drop (length header) (req_data m)) frames)
     = concat (concat (map (fun r => Request_Write
                                       (set_Host (hostHeaderRewrite rw) r))
                         reqs)).
Proof.
  cbn zeta. split.
  - apply Forall_concat, Forall_forall.
    intros fs (r & -> & _)%list_elem_of_fmap.
    apply (proj1 (write_frames_stream rw _)).
  - induction reqs as [|r reqs IH]; [done |]. cbn [map concat].
    rewrite map_app, !concat_app, IH. f_equal.
    apply (proj2 (write_frames_stream rw _)).
Qed.

(** X19. Without upgrade, every request of the connection, the first
    and the pipelined ones, is serialized with its Host set to the
    destination host and goes out in frames that all start with the same
    header (scheme flag if the device has it, source identifier,
    destination identifier); the payloads put together are these
    serializations, in the order the requests were read. *)
Theorem pipelined_requests_stream brk c w req devid dev sid v :
  conn_first c = Some req ->
  Cookie req "rtty-http-devid" = Some devid ->
  devices brk !! devid = Some dev ->
  Cookie req "rtty-http-sid" = Some sid ->
  httpProxySessions w !! sid = Some v ->
  String.eqb (req_upgrade req) "websocket" = false ->
  let hpw := proxy_writer QueryUnescape c req dev in
  let header := scheme_flag dev (https hpw) ++ srcAddr hpw ++ destAddr hpw in
  exists w' wt frames,
    doHttpProxy Request_Write QueryUnescape brk c w = Done (w', wt)
    /\ httpReqQ w' = httpReqQ w ++ frames
    /\ Forall (fun m => req_devid m = dev_id dev
                        /\ take (length header) (req_data m) = header) frames
    /\ concat (map (fun m => drop (length header) (req_data m)) frames)
       = concat (concat (map (fun r => Request_Write
                                         (set_Host (proxy_host QueryUnescape req) r))
                           (req :: conn_reqs c))).
Proof.
  intros Hreq Hdev Hbrk Hsid Hsess Hup hpw header.
  rewrite (doHttpProxy_bound Request_Write QueryUnescape
             brk c w req devid dev sid v) by done.
  rewrite Hup. eexists _, _, _. split; [reflexivity |].
  split; [reflexivity |].
  exact (request_frames_stream hpw (req :: conn_reqs c)).
Qed.

End Pipelined.

Lemma pipelined_requests_stream_witness :
  let req := ex_request (ex_cookies "sid-1" ex_dest_cookie) "" in
  exists w' wt frames,
    doHttpProxy ex_Request_Write ex_QueryUnescape ex_broker
      (ex_conn req [req] []) ex_after_first = Done (w', wt)
    /\ httpReqQ w' = frames
    /\ concat (map (fun m => drop 25 (req_data m)) frames)
       = ex_get ++ ex_get.
Proof.
  intros req.
  destruct (pipelined_requests_stream ex_Request_Write ex_QueryUnescape
              ex_broker (ex_conn req [req] []) ex_after_first req "dev1"
              ex_device "sid-1" 0%nat
              eq_refl eq_refl eq_refl eq_refl eq_refl eq_refl)
    as (w' & wt & frames & Hrun & Hq & _ & Hcat).
  exists w', wt, frames. split; [exact Hrun |]. split; [exact Hq |].
  exact Hcat.
Defined.

(** Witnesses of the properties of the redirect handler. *)

Lemma httpProxyRedirect_answers_witness :
  httpProxySessions ex_second_world !! "sid-2" <> None.
Proof.
  destruct (httpProxyRedirect_answers ex_url_Parse ex_broker ex_cfg
              (ex_redirect (Some "sid-1")) "sid-2" 1700000001 ex_after_first
              ex_second_world ex_second_resp ex_second_eq)
    as [(_ & _ & _ & H) | (_ & Hc & _)]; [exact H | discriminate Hc].
Defined.

Lemma sessions_ok_kept_witness :
  exists w' resp,
    httpProxyRedirect ex_url_Parse ex_broker ex_cfg (ex_redirect None)
      "sid-1" 1700000000 emptyWorld = Done (w', resp)
    /\ sessions_ok w'.
Proof.
  destruct (sessions_ok_kept ex_url_Parse) as (H0 & Hred & _).
  exact (Hred ex_broker ex_cfg (ex_redirect None) "sid-1" 1700000000
           emptyWorld H0).
Defined.
